(** * EC600N AT-command driver: a shallow embedding and its properties

    The development follows the Go package [ec600n] of the repository
    (the serial driver of the cellular module).  Go strings are byte
    strings, so they are modelled by [string]; Go's [int] is modelled by
    [Z] with the 64-bit range made explicit where the code can observe
    it; the serial port is an environment that answers every operation
    the driver performs, and the driver threads the log of the operations
    it has performed. *)

From Stdlib Require Import String Ascii List ZArith Bool Arith Lia.
From Stdlib Require Import DecimalString Permutation.
Import ListNotations.
Local Open Scope string_scope.

(** ** The Go [strings] package, as far as the driver uses it *)

Module GoStrings.

Definition byte_of (n : nat) : ascii := ascii_of_nat n.

Definition TAB : ascii := byte_of 9.
Definition LF : ascii := byte_of 10.
Definition CR : ascii := byte_of 13.

Definition str1 (c : ascii) : string := String c EmptyString.

(** [utf8.RuneSelf]: bytes below it are single-byte runes. *)
Definition RuneSelf : nat := 128.

Definition isASCIIByte (c : ascii) : bool := (nat_of_ascii c <? RuneSelf)%nat.

(** The table [asciiSpace] of package [strings]:
    tab, line feed, vertical tab, form feed, carriage return, space. *)
Definition asciiSpace (c : ascii) : bool :=
  let n := nat_of_ascii c in
  (((9 <=? n) && (n <=? 13)) || (n =? 32))%nat.

Definition isDigit (c : ascii) : bool :=
  let n := nat_of_ascii c in ((48 <=? n) && (n <=? 57))%nat.

Definition isLower (c : ascii) : bool :=
  let n := nat_of_ascii c in ((97 <=? n) && (n <=? 122))%nat.

Fixpoint forallb_str (p : ascii -> bool) (s : string) : bool :=
  match s with
  | EmptyString => true
  | String c r => p c && forallb_str p r
  end.

Definition isASCII (s : string) : bool := forallb_str isASCIIByte s.

(** The parts of the Go standard library that work on Unicode code
    points are not part of the repository; the driver reaches them only
    when a string holds a byte at or above [RuneSelf].  They are taken
    as an interface, and every statement below holds for each of its
    implementations. *)
Class UnicodeOps : Type := {
  (** [strings.TrimFunc(s, unicode.IsSpace)] *)
  TrimFuncIsSpace : string -> string;
  (** [strings.TrimRightFunc(s, unicode.IsSpace)] *)
  TrimRightFuncIsSpace : string -> string;
  (** [strings.Map(unicode.ToUpper, s)] *)
  MapToUpper : string -> string
}.

(** First loop of [strings.TrimSpace]: skip leading ASCII space bytes;
    the flag tells that a byte at or above [RuneSelf] stopped the scan. *)
Fixpoint trimLeftScan (s : string) : bool * string :=
  match s with
  | EmptyString => (false, EmptyString)
  | String c r =>
      if negb (isASCIIByte c) then (true, s)
      else if asciiSpace c then trimLeftScan r
      else (false, s)
  end.

(** Second loop of [strings.TrimSpace], up to its exit: drop the
    trailing ASCII space bytes. *)
Fixpoint dropTrailingSpace (s : string) : string :=
  match s with
  | EmptyString => EmptyString
  | String c r =>
      match dropTrailingSpace r with
      | EmptyString => if asciiSpace c then EmptyString else str1 c
      | r' => String c r'
      end
  end.

Fixpoint lastByte (s : string) : option ascii :=
  match s with
  | EmptyString => None
  | String c EmptyString => Some c
  | String _ r => lastByte r
  end.

Definition TrimSpace `{UnicodeOps} (s : string) : string :=
  let (nonASCII, s1) := trimLeftScan s in
  if nonASCII then TrimFuncIsSpace s1
  else
    let s2 := dropTrailingSpace s1 in
    match lastByte s2 with
    | Some c => if isASCIIByte c then s2 else TrimRightFuncIsSpace s2
    | None => s2
    end.

Definition upperByte (c : ascii) : ascii :=
  if isLower c then ascii_of_nat (nat_of_ascii c - 32) else c.

Fixpoint map_str (f : ascii -> ascii) (s : string) : string :=
  match s with
  | EmptyString => EmptyString
  | String c r => String (f c) (map_str f r)
  end.

Definition ToUpper `{UnicodeOps} (s : string) : string :=
  if isASCII s then map_str upperByte s else MapToUpper s.

(** [strings.Contains(s, substr)] *)
Fixpoint Contains (s substr : string) : bool :=
  prefix substr s ||
  match s with
  | EmptyString => false
  | String _ r => Contains r substr
  end.

(** [strings.ReplaceAll(s, old, new)] for a non-empty [old]: the
    non-overlapping occurrences of [old], leftmost first.  [skip]
    counts the bytes of an occurrence that are still to be dropped. *)
Fixpoint replaceFrom (old new : string) (skip : nat) (s : string) : string :=
  match s with
  | EmptyString => EmptyString
  | String c r =>
      match skip with
      | S k => replaceFrom old new k r
      | O =>
          if prefix old s
          then new ++ replaceFrom old new (String.length old - 1) r
          else String c (replaceFrom old new 0 r)
      end
  end.

Definition ReplaceAll (s old new : string) : string :=
  replaceFrom old new 0 s.

(** [strings.Split(s, sep)] for a non-empty [sep]; [cur] is the piece
    being read. *)
Fixpoint splitFrom (sep : string) (skip : nat) (cur : string) (s : string)
  : list string :=
  match s with
  | EmptyString => [cur]
  | String c r =>
      match skip with
      | S k => splitFrom sep k cur r
      | O =>
          if prefix sep s
          then cur :: splitFrom sep (String.length sep - 1) EmptyString r
          else splitFrom sep 0 (cur ++ str1 c) r
      end
  end.

Definition Split (s sep : string) : list string :=
  splitFrom sep 0 EmptyString s.

(** [strings.IndexAny(s, chars)] for ASCII [chars]: the index of the
    first byte of [s] that occurs in [chars], or [-1]. *)
Fixpoint memByte (c : ascii) (chars : string) : bool :=
  match chars with
  | EmptyString => false
  | String d r => Ascii.eqb c d || memByte c r
  end.

Fixpoint indexAnyFrom (i : Z) (s chars : string) : Z :=
  match s with
  | EmptyString => (-1)%Z
  | String c r => if memByte c chars then i else indexAnyFrom (i + 1) r chars
  end.

Definition IndexAny (s chars : string) : Z := indexAnyFrom 0 s chars.

(** Decimal value of a string of digits. *)
Fixpoint decimalFrom (acc : Z) (s : string) : Z :=
  match s with
  | EmptyString => acc
  | String c r => decimalFrom (10 * acc + Z.of_nat (nat_of_ascii c - 48)) r
  end.

Definition decimal (s : string) : Z := decimalFrom 0 s.

End GoStrings.

Import GoStrings.


(** ** Regular expressions of the driver

    The four patterns of the driver are built from literals, from the
    classes [\s] and [\d] of Go's [regexp] (RE2 syntax: [\s] is tab, line
    feed, form feed, carriage return and space; [\d] is an ASCII digit)
    and from greedy repetitions whose class and following literal are
    disjoint, so the leftmost-first match is found by one deterministic
    scan from each start position. *)

Module Regexp.

Definition QUOTE : ascii := byte_of 34.
Definition COMMA : ascii := byte_of 44.

Definition reSpace (c : ascii) : bool :=
  let n := nat_of_ascii c in
  ((n =? 9) || (n =? 10) || (n =? 12) || (n =? 13) || (n =? 32))%nat.

Definition notQuote (c : ascii) : bool := negb (Ascii.eqb c QUOTE).

(** Longest prefix whose bytes satisfy [p], and the rest. *)
Fixpoint span (p : ascii -> bool) (s : string) : string * string :=
  match s with
  | EmptyString => (EmptyString, EmptyString)
  | String c r =>
      if p c then let (a, b) := span p r in (String c a, b)
      else (EmptyString, s)
  end.

Fixpoint stripPrefix (lit s : string) : option string :=
  match lit, s with
  | EmptyString, _ => Some s
  | String a lit', String b s' =>
      if Ascii.eqb a b then stripPrefix lit' s' else None
  | String _ _, EmptyString => None
  end.

Definition expect (c : ascii) (s : string) : option string :=
  stripPrefix (str1 c) s.

Definition isEmpty (s : string) : bool :=
  match s with EmptyString => true | _ => false end.

(** A greedy, non-empty run of bytes of class [p]. *)
Definition some (p : ascii -> bool) (s : string) : option (string * string) :=
  let (a, b) := span p s in
  if isEmpty a then None else Some (a, b).

(** [\+CSQ:\s*(\d+),(\d+)] anchored at the start of [s]. *)
Definition matchCSQ (s : string) : option (list string) :=
  match stripPrefix "+CSQ:" s with
  | None => None
  | Some r =>
      let (ws, r1) := span reSpace r in
      match some isDigit r1 with
      | None => None
      | Some (n, r2) =>
          match expect COMMA r2 with
          | None => None
          | Some r3 =>
              match some isDigit r3 with
              | None => None
              | Some (m, _) => Some ["+CSQ:" ++ ws ++ n ++ "," ++ m; n; m]
              end
          end
      end
  end.

(** [\+CREG:\s*\d+,(\d+)] anchored at the start of [s]. *)
Definition matchCREG (s : string) : option (list string) :=
  match stripPrefix "+CREG:" s with
  | None => None
  | Some r =>
      let (ws, r1) := span reSpace r in
      match some isDigit r1 with
      | None => None
      | Some (n, r2) =>
          match expect COMMA r2 with
          | None => None
          | Some r3 =>
              match some isDigit r3 with
              | None => None
              | Some (st, _) => Some ["+CREG:" ++ ws ++ n ++ "," ++ st; st]
              end
          end
      end
  end.

(** The pattern for [+COPS:], anchored at the start of [s]: the
    literal, [\s*], two comma-separated [\d+], a comma, and between two
    quotation marks the captured non-empty run of bytes other than the
    quotation mark. *)
Definition matchCOPS (s : string) : option (list string) :=
  match stripPrefix "+COPS:" s with
  | None => None
  | Some r =>
      let (ws, r1) := span reSpace r in
      match some isDigit r1 with
      | None => None
      | Some (n, r2) =>
          match expect COMMA r2 with
          | None => None
          | Some r3 =>
              match some isDigit r3 with
              | None => None
              | Some (m, r4) =>
                  match stripPrefix (String COMMA (str1 QUOTE)) r4 with
                  | None => None
                  | Some r5 =>
                      match some notQuote r5 with
                      | None => None
                      | Some (name, r6) =>
                          match expect QUOTE r6 with
                          | None => None
                          | Some _ =>
                              Some ["+COPS:" ++ ws ++ n ++ "," ++ m ++ ","
                                    ++ str1 QUOTE ++ name ++ str1 QUOTE;
                                    name]
                          end
                      end
                  end
              end
          end
      end
  end.

(** [FindStringSubmatch]: the match at the leftmost start position
    that has one, as the slice of the whole match followed by the
    captures; the empty slice ([nil]) when there is none. *)
Fixpoint FindStringSubmatch (anchored : string -> option (list string))
         (s : string) : list string :=
  match anchored s with
  | Some groups => groups
  | None =>
      match s with
      | EmptyString => []
      | String _ r => FindStringSubmatch anchored r
      end
  end.

Definition reCSQ : string -> list string := FindStringSubmatch matchCSQ.
Definition reCREG : string -> list string := FindStringSubmatch matchCREG.
Definition reCOPS : string -> list string := FindStringSubmatch matchCOPS.

(** [reIMEI.MatchString] for [^\d{15}$]: the whole text is fifteen
    ASCII digits. *)
Definition reIMEI (s : string) : bool :=
  (String.length s =? 15)%nat && forallb_str isDigit s.

End Regexp.

(** ** The serial port and the driver state *)

(** Operations the driver performs on the outside world.  [OpReadString]
    is one call of [ReadString] on the buffered reader of the port. *)
Inductive Op : Type :=
| OpOpen (name : string) (baud : Z)
| OpFlush
| OpWrite (data : string)
| OpReadString
| OpClose.

(** The log of the operations performed so far, most recent first. *)
Definition Trace : Type := list Op.

(** Outcome of [reader.ReadString]: a line with its delimiter, or an
    error together with the bytes read before it. *)
Inductive ReadResult : Type :=
| Line (line : string)
| ReadErr (partial : string).

(** The environment: how the port answers an operation, given everything
    the driver did before.  Every call is taken to return; apart from
    that nothing is assumed about the answers. *)
Class Device : Type := {
  openFails : Trace -> bool;
  flushFails : Trace -> bool;
  writeFails : Trace -> bool;
  readString : Trace -> ReadResult;
  closeFails : Trace -> bool;
  timeNow : Trace -> Z
}.

(** Go [error] values of the driver: the error of a library call, and
    the three shapes of [fmt.Errorf] the package uses. *)
Inductive error : Type :=
| IOError
| New (msg : string)
| WithText (msg : string) (text : string)
| Wrap (msg : string) (cause : error)
| WrapAt (msg : string) (name : string) (cause : error).

(** Computations that extend the log. *)
Definition M (A : Type) : Type := Trace -> A * Trace.

Definition ret {A : Type} (a : A) : M A := fun t => (a, t).

Definition bind {A B : Type} (m : M A) (k : A -> M B) : M B :=
  fun t => let (a, t') := m t in k a t'.

Declare Scope driver_scope.
Delimit Scope driver_scope with driver.
Notation "x <- m ;; k" := (bind m (fun x => k))
  (at level 61, m at next level, right associativity) : driver_scope.
Notation "' p <- m ;; k" := (bind m (fun x => match x with p => k end))
  (at level 61, p pattern, m at next level, right associativity) : driver_scope.

(** In milliseconds; the pause itself has no effect on the log. *)
Definition ATCommandTimeout : Z := 100.
Definition MaxResponseLines : nat := 10.
Definition MinSignalStrength : Z := 5.
Definition IMEILength : nat := 15.

(** Width of Go's [int] on the platforms the service is built for. *)
Definition intSize : Z := 64.
Definition maxInt : Z := 2 ^ (intSize - 1) - 1.

Inductive CallStatus : Type :=
| CallStatusConnected
| CallStatusHangup
| CallStatusBusy
| CallStatusNoAnswer
| CallStatusNoCarrier
| CallStatusError.

(** The section [EC600N] of [config.Config]. *)
Record Config : Type := {
  Enabled : bool;
  SerialPort : string;
  BaudRate : Z;
  HTTPPort : Z;
  CallDuration : Z;
  NetworkCheckInterval : Z;
  CheckInterval : Z
}.

Record NetworkStatus : Type := {
  SignalStrength : Z;
  NetworkRegStatus : string;
  SIMStatus : string;
  OperatorName : string;
  IMEI : string;
  Timestamp : Z
}.

(** An open [*serial.Port]. *)
Record Port : Type := { portName : string; portBaud : Z }.

(** The controller; [port = None] is the nil pointer.  The notification
    sink it also holds plays no part in the operations below. *)
Record EC600N : Type := {
  config : Config;
  port : option Port;
  connected : bool
}.

Definition CRLF : string := String CR (str1 LF).

Definition regUnregistered : string := "未注册".
Definition regHome : string := "已注册本地网络".
Definition regSearching : string := "正在搜索".
Definition regDenied : string := "注册被拒绝".
Definition regRoaming : string := "已注册漫游".
Definition statusUnknown : string := "未知状态".
Definition simReady : string := "就绪".
Definition simNeedsPIN : string := "需要PIN码".
Definition simNeedsPUK : string := "需要PUK码".

Definition errNotConnected : error := New "串口未连接".
Definition errEmptyNumber : error := New "电话号码不能为空".

(** [networkRegStatusMap], with the result of the lookup and its [ok]. *)
Definition networkRegStatusMap (code : string) : option string :=
  if String.eqb code "0" then Some regUnregistered
  else if String.eqb code "1" then Some regHome
  else if String.eqb code "2" then Some regSearching
  else if String.eqb code "3" then Some regDenied
  else if String.eqb code "5" then Some regRoaming
  else None.

(** [fmt.Sscanf(tok, "%d", &signal)] on a token the pattern [\d+]
    captured: the digits are read whole and [strconv.ParseInt] rejects a
    value that does not fit [int]. *)
Definition Sscanf_d (tok : string) : option Z :=
  if (decimal tok <=? maxInt)%Z then Some (decimal tok) else None.

Definition isSentinel (line : string) : bool :=
  Contains line "OK" || Contains line "ERROR".

Section Driver.

Context `{UnicodeOps} `{Device}.

Local Open Scope driver_scope.

Definition perform (op : Op) : M unit := fun t => (tt, op :: t).

Definition ask {A : Type} (f : Trace -> A) : M A := fun t => (f t, t).

(** The loop of [readResponse]; [budget] is [MaxResponseLines - i]. *)
Fixpoint readLoop (budget : nat) (response : string) : M string :=
  match budget with
  | O => ret response
  | S budget' =>
      r <- ask readString ;;
      _ <- perform OpReadString ;;
      match r with
      | ReadErr _ => ret response
      | Line line =>
          let response' := response ++ line in
          if isSentinel line then ret response'
          else readLoop budget' response'
      end
  end.

Definition readResponse (e : EC600N) : M (string * option error) :=
  response <- readLoop MaxResponseLines EmptyString ;;
  ret (response, None).

Definition sendATCommand (e : EC600N) (command : string)
  : M (string * option error) :=
  match port e with
  | None => ret (EmptyString, Some errNotConnected)
  | Some _ =>
      failed <- ask flushFails ;;
      _ <- perform OpFlush ;;
      if failed then ret (EmptyString, Some (Wrap "清空串口缓冲区失败" IOError))
      else
        let fullCommand := command ++ CRLF in
        failed <- ask writeFails ;;
        _ <- perform (OpWrite fullCommand) ;;
        if failed then ret (EmptyString, Some (Wrap "发送 AT 指令失败" IOError))
        else readResponse e
  end.

Definition initSerial (e : EC600N) : M (EC600N * option error) :=
  let name := SerialPort (config e) in
  let baud := BaudRate (config e) in
  failed <- ask openFails ;;
  _ <- perform (OpOpen name baud) ;;
  if failed then ret (e, Some (WrapAt "打开串口失败" name IOError))
  else
    ret ({| config := config e;
            port := Some {| portName := name; portBaud := baud |};
            connected := connected e |}, None).

Definition testConnection (e : EC600N) : M (option error) :=
  ' (response, err) <- sendATCommand e "AT" ;;
  match err with
  | Some err => ret (Some err)
  | None =>
      if negb (Contains response "OK")
      then ret (Some (WithText "AT指令测试失败，响应" response))
      else ret None
  end.

Definition NewEC600N (cfg : Config) : M (option EC600N * option error) :=
  if negb (Enabled cfg) then ret (None, None)
  else
    let ec := {| config := cfg; port := None; connected := false |} in
    ' (ec, err) <- initSerial ec ;;
    match err with
    | Some err => ret (None, Some (Wrap "初始化串口失败" err))
    | None =>
        err <- testConnection ec ;;
        match err with
        | Some err => ret (None, Some (Wrap "测试连接失败" err))
        | None =>
            ret (Some {| config := config ec; port := port ec;
                         connected := true |}, None)
        end
    end.

(** *** Status queries *)

Definition getSignalStrength (e : EC600N) : M (Z * option error) :=
  ' (response, err) <- sendATCommand e "AT+CSQ" ;;
  match err with
  | Some err => ret (0%Z, Some (Wrap "发送 AT+CSQ 指令失败" err))
  | None =>
      let matches := Regexp.reCSQ response in
      if (List.length matches <? 3)%nat
      then ret (0%Z, Some (WithText "无法解析信号强度，响应" response))
      else
        match Sscanf_d (nth 1 matches EmptyString) with
        | None => ret (0%Z, Some (Wrap "解析信号强度数值失败" IOError))
        | Some signal => ret (signal, None)
        end
  end.

Definition getNetworkRegistrationStatus (e : EC600N)
  : M (string * option error) :=
  ' (response, err) <- sendATCommand e "AT+CREG?" ;;
  match err with
  | Some err => ret (EmptyString, Some (Wrap "发送 AT+CREG 指令失败" err))
  | None =>
      let matches := Regexp.reCREG response in
      if (List.length matches <? 2)%nat
      then ret (EmptyString, Some (WithText "无法解析注册状态，响应" response))
      else
        let statusCode := nth 1 matches EmptyString in
        match networkRegStatusMap statusCode with
        | Some status => ret (status, None)
        | None => ret (statusUnknown, None)
        end
  end.

Definition getSIMStatus (e : EC600N) : M (string * option error) :=
  ' (response, err) <- sendATCommand e "AT+CPIN?" ;;
  match err with
  | Some err => ret (EmptyString, Some err)
  | None =>
      if Contains response "READY" then ret (simReady, None)
      else if Contains response "SIM PIN" then ret (simNeedsPIN, None)
      else if Contains response "SIM PUK" then ret (simNeedsPUK, None)
      else ret (statusUnknown, None)
  end.

Definition getOperatorName (e : EC600N) : M (string * option error) :=
  ' (response, err) <- sendATCommand e "AT+COPS?" ;;
  match err with
  | Some err => ret (EmptyString, Some err)
  | None =>
      let matches := Regexp.reCOPS response in
      if (List.length matches <? 2)%nat
      then ret (EmptyString, Some (WithText "无法解析运营商名称" response))
      else ret (nth 1 matches EmptyString, None)
  end.

(** The loop of [getIMEI] over the lines of the response. *)
Fixpoint scanIMEI (lines : list string) : option string :=
  match lines with
  | [] => None
  | line :: rest =>
      let line := TrimSpace line in
      if (String.length line =? IMEILength)%nat && Regexp.reIMEI line
      then Some line
      else scanIMEI rest
  end.

Definition getIMEI (e : EC600N) : M (string * option error) :=
  ' (response, err) <- sendATCommand e "AT+CGSN" ;;
  match err with
  | Some err => ret (EmptyString, Some (Wrap "发送 AT+CGSN 指令失败" err))
  | None =>
      match scanIMEI (Split response (str1 LF)) with
      | Some line => ret (line, None)
      | None => ret (EmptyString, Some (WithText "无法解析 IMEI，响应" response))
      end
  end.

Definition CheckNetworkStatus (e : EC600N)
  : M (NetworkStatus * option error) :=
  now <- ask timeNow ;;
  ' (signal, _) <- getSignalStrength e ;;
  ' (reg, _) <- getNetworkRegistrationStatus e ;;
  ' (sim, _) <- getSIMStatus e ;;
  ' (operator, _) <- getOperatorName e ;;
  ' (imei, _) <- getIMEI e ;;
  ret ({| SignalStrength := signal;
          NetworkRegStatus := reg;
          SIMStatus := sim;
          OperatorName := operator;
          IMEI := imei;
          Timestamp := now |}, None).

Definition isNetworkStatusNormal (status : NetworkStatus) : bool :=
  (MinSignalStrength <? SignalStrength status)%Z
  && String.eqb (NetworkRegStatus status) regHome
  && String.eqb (SIMStatus status) simReady.

(** *** Calls *)

(** The three assignments that clean the phone number in [MakeCall]
    and in [MakeCallWithMonitor]. *)
Definition cleanPhoneNumber (phoneNumber : string) : string :=
  let phoneNumber := TrimSpace phoneNumber in
  let phoneNumber := ReplaceAll phoneNumber "-" EmptyString in
  ReplaceAll phoneNumber " " EmptyString.

Definition dialCommand (phoneNumber : string) : string :=
  "ATD" ++ phoneNumber ++ ";".

Definition MakeCall (e : EC600N) (phoneNumber : string) : M (option error) :=
  match port e with
  | None => ret (Some errNotConnected)
  | Some _ =>
      let phoneNumber := cleanPhoneNumber phoneNumber in
      if String.eqb phoneNumber EmptyString then ret (Some errEmptyNumber)
      else
        let command := dialCommand phoneNumber in
        ' (response, err) <- sendATCommand e command ;;
        match err with
        | Some err => ret (Some (Wrap "发送拨号指令失败" err))
        | None =>
            if Contains response "OK" || Contains response "CONNECT"
            then ret None
            else ret (Some (WithText "拨打电话失败，响应" response))
        end
  end.

(** What [MakeCallWithMonitor] hands back and what it did with the
    monitoring task: [monitor] tells whether the status channel is
    returned (otherwise nil), [spawned] whether [monitorCallStatus] was
    started and [cancelled] whether its context was cancelled. *)
Record MonitoredCall : Type := {
  monitor : bool;
  spawned : bool;
  cancelled : bool;
  callErr : option error
}.

(** The call as the calling task runs it while the monitor it started
    takes nothing from the port; [WithMonitor.MakeCallWithMonitor] adds
    the reads of the monitor. *)
Definition MakeCallWithMonitor (e : EC600N) (phoneNumber : string)
  : M MonitoredCall :=
  match port e with
  | None =>
      ret {| monitor := false; spawned := false; cancelled := false;
             callErr := Some errNotConnected |}
  | Some _ =>
      let phoneNumber := cleanPhoneNumber phoneNumber in
      if String.eqb phoneNumber EmptyString
      then ret {| monitor := false; spawned := false; cancelled := false;
                  callErr := Some errEmptyNumber |}
      else
        let command := dialCommand phoneNumber in
        ' (response, err) <- sendATCommand e command ;;
        match err with
        | Some err =>
            ret {| monitor := false; spawned := true; cancelled := true;
                   callErr := Some (Wrap "发送拨号指令失败" err) |}
        | None =>
            if Contains response "OK" || Contains response "CONNECT"
            then ret {| monitor := true; spawned := true; cancelled := false;
                        callErr := None |}
            else ret {| monitor := false; spawned := true; cancelled := true;
                        callErr := Some (WithText "拨打电话失败，响应" response) |}
        end
  end.

Definition HangupCall (e : EC600N) : M (option error) :=
  ' (response, err) <- sendATCommand e "ATH" ;;
  match err with
  | Some err => ret (Some (Wrap "挂断电话失败" err))
  | None =>
      if negb (Contains response "OK")
      then ret (Some (WithText "挂断电话失败，响应" response))
      else ret None
  end.

(** [Close] updates the controller in place; the updated controller is
    returned with the error. *)
Definition Close (e : EC600N) : M (EC600N * option error) :=
  let e' := {| config := config e; port := port e; connected := false |} in
  match port e' with
  | Some _ =>
      failed <- ask closeFails ;;
      _ <- perform OpClose ;;
      ret (e', if failed then Some IOError else None)
  | None => ret (e', None)
  end.

Definition IsConnected (e : EC600N) : bool := connected e.

(** *** The call monitor

    [monitorCallStatus] runs as a task of its own.  Its loop is
    modelled over what its [select] statements receive, in order: a
    line from the reader, a read error, the 500 ms timer, or the
    cancellation of the context.  A line comes with the outcome of the
    [select] that sends its status: [delivered = true] when the status
    went into the channel, [false] when the cancellation won; a send
    that waits for ever, on a full channel nobody reads and a context
    nobody cancels, is not an event.  Which lines of the port come to
    the [select] is settled by the readers: see [monitorLoopOnPort]. *)
Inductive MonitorEvent : Type :=
| EvLine (line : string) (delivered : bool)
| EvReadErr
| EvTimeout
| EvCancel.

(** The [switch] on the upper-cased line: the status to send and
    whether the task returns after sending it. *)
Definition classifyLine (line : string) : option (CallStatus * bool) :=
  let line := TrimSpace line in
  let lineUpper := ToUpper line in
  if Contains lineUpper "NO CARRIER" then Some (CallStatusNoCarrier, true)
  else if Contains lineUpper "BUSY" then Some (CallStatusBusy, true)
  else if Contains lineUpper "NO ANSWER" then Some (CallStatusNoAnswer, true)
  else if Contains lineUpper "CONNECT" then Some (CallStatusConnected, false)
  else if Contains lineUpper "ERROR" then Some (CallStatusError, false)
  else None.

(** The statuses sent on the channel and whether the channel has been
    closed once the events are used up; an open channel means the task
    is waiting in its [select]. *)
Fixpoint monitorLoop (events : list MonitorEvent) : list CallStatus * bool :=
  match events with
  | [] => ([], false)
  | EvCancel :: _ => ([], true)
  | EvReadErr :: rest => monitorLoop rest
  | EvTimeout :: rest => monitorLoop rest
  | EvLine line delivered :: rest =>
      match classifyLine line with
      | None => monitorLoop rest
      | Some (status, final) =>
          if negb delivered then ([], true)
          else if final then ([status], true)
          else let (sent, closed) := monitorLoop rest in (status :: sent, closed)
      end
  end.

Definition monitorCallStatus (e : EC600N) (events : list MonitorEvent)
  : list CallStatus * bool :=
  match port e with
  | None => ([CallStatusError], true)
  | Some _ => monitorLoop events
  end.

(** *** The readers of the call monitor

    [monitorLoop] is the loop as its [select] sees it.  What the
    [select] sees of the port is decided by the readers.  Each turn
    makes two channels of its own and starts a reader, which calls
    [ReadString] on the one [bufio.Reader] of the monitor and puts the
    line or the error into these channels.  When the 500 ms timer wins
    the [select] the turn is over, but its reader is not: it stays in
    [ReadString], and the next turn starts another reader beside it.
    Whatever a reader left behind reads goes into channels from which
    nobody receives any more.

    An event at the port says which of the waiting readers has its call
    return: [reader] counts them from the oldest, the readers left
    behind first and the reader of the current turn last, so every
    number from the count of readers left behind on means the reader of
    the current turn.  [delivered] is the outcome of sending the status,
    as in [EvLine]. *)
Inductive PortEvent : Type :=
| PortLine (line : string) (reader : nat) (delivered : bool)
| PortErr (reader : nat)
| Timer
| Cancel.

(** The loop with [left] readers left behind by earlier turns. *)
Fixpoint monitorLoopOnPort (left : nat) (events : list PortEvent)
  : list CallStatus * bool :=
  match events with
  | [] => ([], false)
  | Cancel :: _ => ([], true)
  | Timer :: rest => monitorLoopOnPort (S left) rest
  | PortErr reader :: rest =>
      if (reader <? left)%nat then monitorLoopOnPort (Nat.pred left) rest
      else monitorLoopOnPort left rest
  | PortLine line reader delivered :: rest =>
      if (reader <? left)%nat then monitorLoopOnPort (Nat.pred left) rest
      else
        match classifyLine line with
        | None => monitorLoopOnPort left rest
        | Some (status, final) =>
            if negb delivered then ([], true)
            else if final then ([status], true)
            else let (sent, closed) := monitorLoopOnPort left rest in
                 (status :: sent, closed)
        end
  end.

(** [monitorCallStatus] over the events at the port: no reader has been
    left behind when the task starts. *)
Definition monitorCallStatusOnPort (e : EC600N) (events : list PortEvent)
  : list CallStatus * bool :=
  match port e with
  | None => ([CallStatusError], true)
  | Some _ => monitorLoopOnPort 0 events
  end.

End Driver.

(** ** The earlier revision of the driver

    The repository holds an earlier revision of the package next to the
    current one.  Its [sendATCommand] has the loop of [readResponse]
    inline and behaves as the current one; its [getIMEI] tests a line
    differently. *)
Module Earlier.
Section Driver.

Context `{UnicodeOps} `{Device}.

Local Open Scope driver_scope.

Fixpoint scanIMEI (lines : list string) : option string :=
  match lines with
  | [] => None
  | line :: rest =>
      let line := TrimSpace line in
      if (String.length line =? IMEILength)%nat
         && (IndexAny line "0123456789" =? 0)%Z
      then Some line
      else scanIMEI rest
  end.

Definition getIMEI (e : EC600N) : M (string * option error) :=
  ' (response, err) <- sendATCommand e "AT+CGSN" ;;
  match err with
  | Some err => ret (EmptyString, Some (Wrap "发送 AT+CGSN 指令失败" err))
  | None =>
      match scanIMEI (Split response (str1 LF)) with
      | Some line => ret (line, None)
      | None => ret (EmptyString, Some (WithText "无法解析 IMEI，响应" response))
      end
  end.

(** The other functions of the earlier revision, with their own
    control flow. *)
Definition sendATCommand (e : EC600N) (command : string)
  : M (string * option error) :=
  match port e with
  | None => ret (EmptyString, Some errNotConnected)
  | Some _ =>
      failed <- ask flushFails ;;
      _ <- perform OpFlush ;;
      if failed then ret (EmptyString, Some (Wrap "清空串口缓冲区失败" IOError))
      else
        let fullCommand := command ++ CRLF in
        failed <- ask writeFails ;;
        _ <- perform (OpWrite fullCommand) ;;
        if failed then ret (EmptyString, Some (Wrap "发送 AT 指令失败" IOError))
        else
          response <- readLoop MaxResponseLines EmptyString ;;
          ret (response, None)
  end.

Definition getSignalStrength (e : EC600N) : M (Z * option error) :=
  ' (response, err) <- sendATCommand e "AT+CSQ" ;;
  match err with
  | Some err => ret (0%Z, Some (Wrap "发送 AT+CSQ 指令失败" err))
  | None =>
      let matches := Regexp.reCSQ response in
      if (3 <=? List.length matches)%nat
      then
        match Sscanf_d (nth 1 matches EmptyString) with
        | None => ret (0%Z, Some (Wrap "解析信号强度数值失败" IOError))
        | Some signal => ret (signal, None)
        end
      else ret (0%Z, Some (WithText "无法解析信号强度，响应" response))
  end.

Definition getNetworkRegistrationStatus (e : EC600N)
  : M (string * option error) :=
  ' (response, err) <- sendATCommand e "AT+CREG?" ;;
  match err with
  | Some err => ret (EmptyString, Some (Wrap "发送 AT+CREG 指令失败" err))
  | None =>
      let matches := Regexp.reCREG response in
      if (2 <=? List.length matches)%nat
      then
        let status := nth 1 matches EmptyString in
        if String.eqb status "0" then ret (regUnregistered, None)
        else if String.eqb status "1" then ret (regHome, None)
        else if String.eqb status "2" then ret (regSearching, None)
        else if String.eqb status "3" then ret (regDenied, None)
        else if String.eqb status "5" then ret (regRoaming, None)
        else ret (statusUnknown, None)
      else ret (EmptyString, Some (WithText "无法解析注册状态，响应" response))
  end.

Definition getSIMStatus (e : EC600N) : M (string * option error) :=
  ' (response, err) <- sendATCommand e "AT+CPIN?" ;;
  match err with
  | Some err => ret (EmptyString, Some err)
  | None =>
      if Contains response "READY" then ret (simReady, None)
      else if Contains response "SIM PIN" then ret (simNeedsPIN, None)
      else if Contains response "SIM PUK" then ret (simNeedsPUK, None)
      else ret (statusUnknown, None)
  end.

Definition getOperatorName (e : EC600N) : M (string * option error) :=
  ' (response, err) <- sendATCommand e "AT+COPS?" ;;
  match err with
  | Some err => ret (EmptyString, Some err)
  | None =>
      let matches := Regexp.reCOPS response in
      if (2 <=? List.length matches)%nat
      then ret (nth 1 matches EmptyString, None)
      else ret (EmptyString, Some (WithText "无法解析运营商名称" response))
  end.

Definition isNil (err : option error) : bool :=
  match err with None => true | Some _ => false end.

(** Each field starts at its zero value and is assigned only when its
    query returned a nil error. *)
Definition CheckNetworkStatus (e : EC600N)
  : M (NetworkStatus * option error) :=
  now <- ask timeNow ;;
  ' (signal, err1) <- getSignalStrength e ;;
  ' (regStatus, err2) <- getNetworkRegistrationStatus e ;;
  ' (simStatus, err3) <- getSIMStatus e ;;
  ' (operator, err4) <- getOperatorName e ;;
  ' (imei, err5) <- getIMEI e ;;
  ret ({| SignalStrength := if isNil err1 then signal else 0%Z;
          NetworkRegStatus := if isNil err2 then regStatus else EmptyString;
          SIMStatus := if isNil err3 then simStatus else EmptyString;
          OperatorName := if isNil err4 then operator else EmptyString;
          IMEI := if isNil err5 then imei else EmptyString;
          Timestamp := now |}, None).

Definition HangupCall (e : EC600N) : M (option error) :=
  ' (response, err) <- sendATCommand e "ATH" ;;
  match err with
  | Some err => ret (Some (Wrap "挂断电话失败" err))
  | None =>
      if Contains response "OK" then ret None
      else ret (Some (WithText "挂断电话失败，响应" response))
  end.

End Driver.
End Earlier.

(** ** The dial beside the monitor

    [MakeCallWithMonitor] starts the monitor before it dials, so the
    readers of the monitor call [ReadString] on the port while
    [sendATCommand] flushes, writes and reads, and a line one of them
    takes is not there for [readResponse].  The functions of this module
    are those of the driver with the reads of the monitor between their
    steps.  [ahead] says, for each operation of the exchange in order --
    the flush, the write, the first read, the second read and so on --
    how many calls of [ReadString] the readers of the monitor complete
    before it; each function returns, beside its result, what the
    monitor took, oldest first.  The reads of the monitor go into the
    log like those of the driver: the port answers a read by what was
    done on it before, whoever reads.  The model does not ask whether
    the monitor still has a reader waiting, so every run of the program
    in which the calls return is one of its runs. *)

Module WithMonitor.
Section Driver.

Context `{UnicodeOps} `{Device}.

Local Open Scope driver_scope.

(** [n] calls of [ReadString] that return to readers of the monitor. *)
Fixpoint monitorReads (n : nat) : M (list ReadResult) :=
  match n with
  | O => ret []
  | S n' =>
      r <- ask readString ;;
      _ <- perform OpReadString ;;
      rest <- monitorReads n' ;;
      ret (r :: rest)
  end.

Fixpoint readLoop (budget : nat) (ahead : list nat) (response : string)
  : M (string * list ReadResult) :=
  match budget with
  | O => ret (response, [])
  | S budget' =>
      taken <- monitorReads (hd 0%nat ahead) ;;
      r <- ask readString ;;
      _ <- perform OpReadString ;;
      match r with
      | ReadErr _ => ret (response, taken)
      | Line line =>
          let response' := response ++ line in
          if isSentinel line then ret (response', taken)
          else
            ' (response'', more) <- readLoop budget' (tl ahead) response' ;;
            ret (response'', (taken ++ more)%list)
      end
  end.

Definition readResponse (e : EC600N) (ahead : list nat)
  : M ((string * option error) * list ReadResult) :=
  ' (response, taken) <- readLoop MaxResponseLines ahead EmptyString ;;
  ret ((response, None), taken).

Definition sendATCommand (e : EC600N) (command : string) (ahead : list nat)
  : M ((string * option error) * list ReadResult) :=
  match port e with
  | None => ret ((EmptyString, Some errNotConnected), [])
  | Some _ =>
      taken <- monitorReads (hd 0%nat ahead) ;;
      failed <- ask flushFails ;;
      _ <- perform OpFlush ;;
      if failed
      then ret ((EmptyString, Some (Wrap "清空串口缓冲区失败" IOError)), taken)
      else
        let fullCommand := command ++ CRLF in
        taken' <- monitorReads (hd 0%nat (tl ahead)) ;;
        failed <- ask writeFails ;;
        _ <- perform (OpWrite fullCommand) ;;
        if failed
        then ret ((EmptyString, Some (Wrap "发送 AT 指令失败" IOError)),
                  (taken ++ taken')%list)
        else
          ' (r, more) <- readResponse e (tl (tl ahead)) ;;
          ret (r, (taken ++ taken' ++ more)%list)
  end.

Definition MakeCallWithMonitor (e : EC600N) (phoneNumber : string)
           (ahead : list nat) : M (MonitoredCall * list ReadResult) :=
  match port e with
  | None =>
      ret ({| monitor := false; spawned := false; cancelled := false;
              callErr := Some errNotConnected |}, [])
  | Some _ =>
      let phoneNumber := cleanPhoneNumber phoneNumber in
      if String.eqb phoneNumber EmptyString
      then ret ({| monitor := false; spawned := false; cancelled := false;
                   callErr := Some errEmptyNumber |}, [])
      else
        let command := dialCommand phoneNumber in
        ' ((response, err), taken) <- sendATCommand e command ahead ;;
        match err with
        | Some err =>
            ret ({| monitor := false; spawned := true; cancelled := true;
                    callErr := Some (Wrap "发送拨号指令失败" err) |}, taken)
        | None =>
            if Contains response "OK" || Contains response "CONNECT"
            then ret ({| monitor := true; spawned := true; cancelled := false;
                         callErr := None |}, taken)
            else ret ({| monitor := false; spawned := true; cancelled := true;
                         callErr := Some (WithText "拨打电话失败，响应" response) |},
                      taken)
        end
  end.

End Driver.
End WithMonitor.

(** ** Concrete environments

    A device that answers the successive calls of [ReadString] from a
    script and fails where the flags say so, and the trivial
    implementation of the Unicode interface; they give the statements
    below concrete instances. *)

Definition countReads (t : Trace) : nat :=
  List.length (filter (fun op => match op with OpReadString => true | _ => false end) t).

Definition scripted (flushBad writeBad closeBad : bool) (script : list ReadResult)
  : Device :=
  {| openFails := fun _ => false;
     flushFails := fun _ => flushBad;
     writeFails := fun _ => writeBad;
     readString := fun t => nth (countReads t) script (ReadErr EmptyString);
     closeFails := fun _ => closeBad;
     timeNow := fun t => Z.of_nat (List.length t) |}.

Definition bytewise : UnicodeOps :=
  {| TrimFuncIsSpace := fun s => s;
     TrimRightFuncIsSpace := fun s => s;
     MapToUpper := fun s => s |}.

Definition line (text : string) : ReadResult := Line (text ++ CRLF).

Definition sampleConfig : Config :=
  {| Enabled := true; SerialPort := "/dev/ttyUSB0"; BaudRate := 115200;
     HTTPPort := 8080; CallDuration := 30; NetworkCheckInterval := 5;
     CheckInterval := 5 |}.

Definition openController : EC600N :=
  {| config := sampleConfig;
     port := Some {| portName := "/dev/ttyUSB0"; portBaud := 115200 |};
     connected := true |}.

(** Concatenation of the lines written into the [strings.Builder]. *)
Definition joinLines (lines : list string) : string :=
  fold_right append EmptyString lines.

(** The outcome of the [i]-th [ReadString] after the log [t], when only
    reads happen in between. *)
Definition nthRead `{Device} (t : Trace) (i : nat) : ReadResult :=
  readString (repeat OpReadString i ++ t)%list.

(** [s] without its bytes equal to [d]. *)
Fixpoint removeByte (d : ascii) (s : string) : string :=
  match s with
  | EmptyString => EmptyString
  | String c r => if Ascii.eqb c d then removeByte d r else String c (removeByte d r)
  end.

(** What [readResponse] accepts: the first lines the port delivers, none
    of them but the last a sentinel. *)
Definition accepted `{Device} (t : Trace) (budget : nat) (lines : list string) (reads : nat)
  : Prop :=
  (List.length lines <= budget)%nat
  /\ (forall i, (i < List.length lines)%nat ->
                nthRead t i = Line (nth i lines EmptyString))
  /\ (forall i, (S i < List.length lines)%nat ->
                isSentinel (nth i lines EmptyString) = false)
  /\ ((exists front last, lines = (front ++ [last])%list
                          /\ isSentinel last = true
                          /\ reads = List.length lines)
      \/ (exists partial, nthRead t (List.length lines) = ReadErr partial
                          /\ reads = S (List.length lines))
      \/ (List.length lines = budget /\ reads = List.length lines)).

(** The events of a line sequence that is read to its end while nobody
    cancels the monitor. *)
Definition deliveredLines (lines : list string) : list MonitorEvent :=
  map (fun l => EvLine l true) lines.

(** The keywords of the monitor in the order they are tested, each with
    its status and whether the status ends the task. *)
Definition keywordTable : list (string * (CallStatus * bool)) :=
  [("NO CARRIER", (CallStatusNoCarrier, true));
   ("BUSY", (CallStatusBusy, true));
   ("NO ANSWER", (CallStatusNoAnswer, true));
   ("CONNECT", (CallStatusConnected, false));
   ("ERROR", (CallStatusError, false))].

Definition firstKeyword (text : string) : option (CallStatus * bool) :=
  option_map snd (find (fun entry => Contains text (fst entry)) keywordTable).

Definition isFinal `{UnicodeOps} (l : string) : bool :=
  match classifyLine l with
  | Some (_, final) => final
  | None => false
  end.

(** The statuses of the lines that carry a keyword. *)
Definition statusesOf `{UnicodeOps} (lines : list string) : list CallStatus :=
  flat_map (fun l => match classifyLine l with
                     | Some (status, _) => [status]
                     | None => []
                     end) lines.

(** Lines that arrive one after the other, each with the reader that
    takes it, while nobody cancels the monitor. *)
Definition arrivals (served : list (string * nat)) : list PortEvent :=
  map (fun x => PortLine (fst x) (snd x) true) served.

(** Lines that arrive one after the other and are taken by the readers
    in the order the readers started. *)
Definition inTurn (lines : list string) : list PortEvent :=
  arrivals (map (fun l => (l, 0%nat)) lines).

(** [n] periods of 500 ms in which nothing arrives at the port. *)
Definition silence (n : nat) : list PortEvent := repeat Timer n.

(** What the [select] of the loop receives of the events at the port:
    the timer, the cancellation, and the lines and errors read by the
    reader of the current turn. *)
Fixpoint selected (left : nat) (events : list PortEvent) : list MonitorEvent :=
  match events with
  | [] => []
  | Cancel :: rest => EvCancel :: selected left rest
  | Timer :: rest => EvTimeout :: selected (S left) rest
  | PortErr reader :: rest =>
      if (reader <? left)%nat then selected (Nat.pred left) rest
      else EvReadErr :: selected left rest
  | PortLine line reader delivered :: rest =>
      if (reader <? left)%nat then selected (Nat.pred left) rest
      else EvLine line delivered :: selected left rest
  end.

(** A query that failed returned the zero value of its type. *)
Definition zeroIfFailed {A : Type} (q : (A * option error) * Trace) (zero : A)
  : Prop :=
  match snd (fst q) with
  | Some _ => fst (fst q) = zero
  | None => True
  end.

(** The test of the current [getIMEI] on a trimmed line. *)
Definition isIMEI (s : string) : bool :=
  (String.length s =? IMEILength)%nat && Regexp.reIMEI s.

(** [s] begins with a well-formed fragment whose first number is [n]:
    the literal, optional white space, the digits [n], a comma and at
    least one more digit. *)
Definition fragmentAt (s n : string) : Prop :=
  exists ws m post,
    s = "+CSQ:" ++ ws ++ n ++ "," ++ m ++ post
    /\ forallb_str Regexp.reSpace ws = true
    /\ forallb_str isDigit n = true /\ n <> EmptyString
    /\ forallb_str isDigit m = true /\ m <> EmptyString.

Definition hasFragment (response : string) : Prop :=
  exists pre rest n, response = pre ++ rest /\ fragmentAt rest n.

(** [n] is the first number of the fragment of [response] that starts
    first. *)
Definition leftmostFragment (response n : string) : Prop :=
  exists pre rest,
    response = pre ++ rest
    /\ fragmentAt rest n
    /\ forall pre' rest' n',
         response = pre' ++ rest' ->
         (String.length pre' < String.length pre)%nat ->
         ~ fragmentAt rest' n'.

Definition headFails (p : ascii -> bool) (s : string) : Prop :=
  match s with
  | EmptyString => True
  | String c _ => p c = false
  end.

(** ** Vocabulary for the further properties *)

(** The operations of a command exchange: flush, write and read. *)
Definition isExchangeOp (op : Op) : bool :=
  match op with
  | OpFlush | OpWrite _ | OpReadString => true
  | OpOpen _ _ | OpClose => false
  end.

(** The data of the writes of a log, oldest first. *)
Definition commandsWritten (t : Trace) : list string :=
  flat_map (fun op => match op with OpWrite data => [data] | _ => [] end) (rev t).

(** The statuses that end the monitor. *)
Definition isTerminalStatus (status : CallStatus) : bool :=
  match status with
  | CallStatusNoCarrier | CallStatusBusy | CallStatusNoAnswer => true
  | _ => false
  end.

Definition statusEqb (a b : CallStatus) : bool :=
  match a, b with
  | CallStatusConnected, CallStatusConnected
  | CallStatusHangup, CallStatusHangup
  | CallStatusBusy, CallStatusBusy
  | CallStatusNoAnswer, CallStatusNoAnswer
  | CallStatusNoCarrier, CallStatusNoCarrier
  | CallStatusError, CallStatusError => true
  | _, _ => false
  end.

(** [s] begins with a well-formed registration fragment whose state
    code is [st]: the literal, optional white space, digits, a comma and
    the digits [st], up to the first byte that is not a digit. *)
Definition fragmentCREG (s st : string) : Prop :=
  exists ws n post,
    s = "+CREG:" ++ ws ++ n ++ "," ++ st ++ post
    /\ forallb_str Regexp.reSpace ws = true
    /\ forallb_str isDigit n = true /\ n <> EmptyString
    /\ forallb_str isDigit st = true /\ st <> EmptyString
    /\ headFails isDigit post.

(** [x] is what the fragment of [response] that starts first carries,
    for fragments described by [frag]. *)
Definition leftmostOf (frag : string -> string -> Prop) (response x : string)
  : Prop :=
  exists pre rest,
    response = pre ++ rest
    /\ frag rest x
    /\ forall pre' rest' x',
         response = pre' ++ rest' ->
         (String.length pre' < String.length pre)%nat ->
         ~ frag rest' x'.

Definition occursIn (frag : string -> string -> Prop) (response : string) : Prop :=
  exists pre rest x, response = pre ++ rest /\ frag rest x.

(** The text for a registration code: the entry of the table, and the
    unknown state for a code the table does not hold. *)
Definition registrationText (code : string) : string :=
  match networkRegStatusMap code with
  | Some status => status
  | None => statusUnknown
  end.

(** ** The notification sink

    Package [notification] posts a text to a webhook.  The HTTP client,
    the JSON encoder and the formatting of times belong to libraries:
    the client is an environment as the port is, and the encoder and the
    formats are an interface. *)

Record WebPost : Type := {
  postURL : string;
  postContentType : string;
  postBody : string
}.

(** What [client.Post] followed by [io.ReadAll] gives: no response, or
    a response with its status code and its body, [None] when reading
    the body failed. *)
Inductive PostResult : Type :=
| PostFailed
| Responded (statusCode : Z) (body : option string).

(** The log of the port and the requests posted so far, most recent
    first. *)
Record World : Type := {
  portLog : Trace;
  webLog : list WebPost
}.

Class Web : Type := {
  httpPost : World -> WebPost -> PostResult;
  (** [time.Now()], in nanoseconds since the Unix epoch *)
  wallClock : World -> Z
}.

Class Library : Type := {
  (** [json.Marshal] of the text message with the given content *)
  jsonPayload : string -> string;
  (** [Format] with the layout [2006-01-02 15:04:05] *)
  formatTime : Z -> string;
  (** [Format(time.RFC3339)] *)
  formatRFC3339 : Z -> string;
  (** a [time.Duration] printed with [%v] *)
  formatDuration : Z -> string;
  (** the text of an error a library returned *)
  libraryErrorText : string;
  (** [md5.Sum] *)
  md5Sum : string -> list ascii;
  (** the part of [strings.EqualFold] that folds Unicode code points,
      on what is left of the two strings *)
  equalFoldUnicode : string -> string -> bool
}.

Definition W (A : Type) : Type := World -> A * World.

Definition retW {A : Type} (a : A) : W A := fun w => (a, w).

Definition bindW {A B : Type} (m : W A) (k : A -> W B) : W B :=
  fun w => let (a, w') := m w in k a w'.

Declare Scope world_scope.
Delimit Scope world_scope with world.
Notation "x <- m ;; k" := (bindW m (fun x => k))
  (at level 61, m at next level, right associativity) : world_scope.
Notation "' p <- m ;; k" := (bindW m (fun x => match x with p => k end))
  (at level 61, p pattern, m at next level, right associativity) : world_scope.

(** A computation on the port, run in the world. *)
Definition onPort {A : Type} (m : M A) : W A :=
  fun w => let (a, t) := m (portLog w) in
           (a, {| portLog := t; webLog := webLog w |}).

Definition HTTPRequestTimeout : Z := 10.
Definition WechatMsgTypeText : string := "text".
Definition ContentTypeJSON : string := "application/json".
Definition StatusOK : Z := 200.

Record WechatNotify : Type := { webhookURL : string }.

(** [%d] of an [int]. *)
Definition formatInt (z : Z) : string :=
  DecimalString.NilZero.string_of_int (Z.to_int z).

(** [err.Error()]. *)
Fixpoint errorText `{Library} (err : error) : string :=
  match err with
  | IOError => libraryErrorText
  | New msg => msg
  | WithText msg text => msg ++ ": " ++ text
  | Wrap msg cause => msg ++ ": " ++ errorText cause
  | WrapAt msg name cause => msg ++ " [" ++ name ++ "]: " ++ errorText cause
  end.

Section Notification.

Context `{UnicodeOps} `{Device} `{Web} `{Library}.

Local Open Scope world_scope.

(** Marshalling the payload, a map of strings, cannot fail; the branch
    for its error is left out. *)
Definition SendToWechat (n : WechatNotify) (message : string) : W (option error) :=
  if String.eqb (webhookURL n) EmptyString then retW None
  else
    let data := jsonPayload message in
    let request := {| postURL := webhookURL n;
                      postContentType := ContentTypeJSON;
                      postBody := data |} in
    fun w =>
      let w' := {| portLog := portLog w; webLog := request :: webLog w |} in
      match httpPost w request with
      | PostFailed => (Some (Wrap "发送 webhook 请求失败" IOError), w')
      | Responded code None => (Some (Wrap "读取 webhook 响应失败" IOError), w')
      | Responded code (Some _) =>
          if negb (code =? StatusOK)%Z
          then (Some (WithText "webhook 返回错误状态码" (formatInt code)), w')
          else (None, w')
      end.

Definition formatNetworkStatus (status : NetworkStatus) : string :=
  "信号强度: " ++ formatInt (SignalStrength status) ++ str1 LF
  ++ "网络注册状态: " ++ NetworkRegStatus status ++ str1 LF
  ++ "SIM卡状态: " ++ SIMStatus status ++ str1 LF
  ++ "运营商: " ++ OperatorName status ++ str1 LF
  ++ "IMEI: " ++ IMEI status ++ str1 LF
  ++ "时间: " ++ formatTime (Timestamp status).

(** [notify] is the sink the controller holds. *)
Definition StartNetworkMonitoring (e : EC600N) (notify : WechatNotify)
  : W (option error) :=
  ' (status, err) <- onPort (CheckNetworkStatus e) ;;
  match err with
  | Some err =>
      fun w =>
        let message := "EC600N 网络检查失败: " ++ errorText err ++ str1 LF
                       ++ "时间: " ++ formatTime (wallClock w) in
        let (_, w') := SendToWechat notify message w in
        (Some (Wrap "检查网络状态失败" err), w')
  | None =>
      let statusText := if negb (isNetworkStatusNormal status) then "异常" else "正常" in
      let message := "EC600N 网络状态报告" ++ str1 LF
                     ++ "状态: " ++ statusText ++ str1 LF
                     ++ formatNetworkStatus status in
      err <- SendToWechat notify message ;;
      match err with
      | Some err => retW (Some (Wrap "发送网络状态报告失败" err))
      | None => retW None
      end
  end.

End Notification.

(** Concrete instances of the two interfaces, for examples. *)
Definition silentWeb : Web :=
  {| httpPost := fun _ _ => PostFailed;
     wallClock := fun w => Z.of_nat (List.length (portLog w)) |}.

Definition plainLibrary : Library :=
  {| jsonPayload := fun s => s;
     formatTime := formatInt;
     formatRFC3339 := formatInt;
     formatDuration := formatInt;
     libraryErrorText := "library error";
     md5Sum := fun s => list_ascii_of_string s;
     equalFoldUnicode := fun a b => String.eqb a b |}.

(** ** More of the Go library: joining, sorting, folding, parsing *)

(** [strings.Join(elems, sep)] *)
Fixpoint Join (elems : list string) (sep : string) : string :=
  match elems with
  | [] => EmptyString
  | x :: rest =>
      match rest with
      | [] => x
      | _ => x ++ sep ++ Join rest sep
      end
  end.

(** [sort.Strings]: the strings in increasing byte order.  Any sorting
    procedure gives the same list; insertion is the one written here. *)
Fixpoint insertString (x : string) (sorted : list string) : list string :=
  match sorted with
  | [] => [x]
  | y :: rest => if String.leb x y then x :: sorted else y :: insertString x rest
  end.

Definition sortStrings (l : list string) : list string :=
  fold_right insertString [] l.

Definition isUpper (c : ascii) : bool :=
  let n := nat_of_ascii c in ((65 <=? n) && (n <=? 90))%nat.

(** [strings.EqualFold(s, t)]: the loop over the bytes both strings
    have, which leaves for the Unicode part at the first byte at or above
    [RuneSelf], and the comparison of the lengths after it. *)
Fixpoint EqualFold `{Library} (s t : string) : bool :=
  match s, t with
  | EmptyString, EmptyString => true
  | EmptyString, String _ _ => false
  | String _ _, EmptyString => false
  | String sr s', String tr t' =>
      if negb (isASCIIByte sr && isASCIIByte tr) then equalFoldUnicode s t
      else if Ascii.eqb tr sr then EqualFold s' t'
      else
        let lo := if (nat_of_ascii tr <? nat_of_ascii sr)%nat then tr else sr in
        let hi := if (nat_of_ascii tr <? nat_of_ascii sr)%nat then sr else tr in
        if isUpper lo && (nat_of_ascii hi =? nat_of_ascii lo + 32)%nat
        then EqualFold s' t'
        else false
  end.

Definition hexDigit (n : nat) : ascii :=
  match get n "0123456789abcdef" with
  | Some c => c
  | None => "0"%char
  end.

(** [hex.EncodeToString] *)
Fixpoint hexEncode (bytes : list ascii) : string :=
  match bytes with
  | [] => EmptyString
  | b :: rest =>
      let n := nat_of_ascii b in
      String (hexDigit (n / 16)) (String (hexDigit (n mod 16)) (hexEncode rest))
  end.

Definition minInt : Z := - 2 ^ (intSize - 1).

(** [strconv.ParseInt(s, 10, 64)]: an optional sign and at least one
    digit, nothing else, and a value that fits 64 bits; [None] is the
    error. *)
Definition ParseInt (s : string) : option Z :=
  match s with
  | EmptyString => None
  | String c r =>
      let negative := Ascii.eqb c "-" in
      let digits := if Ascii.eqb c "+" || Ascii.eqb c "-" then r else s in
      if Regexp.isEmpty digits || negb (forallb_str isDigit digits) then None
      else
        let n := decimal digits in
        if negative
        then (if (n <=? - minInt)%Z then Some (- n)%Z else None)
        else (if (n <=? maxInt)%Z then Some n else None)
  end.

Definition Second : Z := 1000000000.
Definition Minute : Z := 60 * Second.
Definition minDuration : Z := - 2 ^ 63.
Definition maxDuration : Z := 2 ^ 63 - 1.

(** [t.Sub(u)] on instants in nanoseconds: the difference, or the
    largest or smallest duration when the difference does not fit. *)
Definition Sub (t u : Z) : Z :=
  let d := (t - u)%Z in
  if (d <? minDuration)%Z then minDuration
  else if (maxDuration <? d)%Z then maxDuration
  else d.

(** ** The HTTP interface

    Package [api].  A request is taken after the HTTP library has read
    it: its method, and what decoding its body as JSON gave. *)

Module API.

Definition DefaultHTTPPort : Z := 8080.
Definition TimestampTolerance : Z := 5.

Definition StatusBadRequest : Z := 400.
Definition StatusUnauthorized : Z := 401.
Definition StatusMethodNotAllowed : Z := 405.

Record NotifyRequest : Type := {
  Name : string;
  PhoneNumbers : string;
  Timestamp : string;
  Signature : string
}.

Record NotifyResponse : Type := {
  Success : bool;
  Message : string
}.

(** [Body = None]: the body could not be decoded. *)
Record Request : Type := {
  Method : string;
  Body : option NotifyRequest
}.

Record HTTPServer : Type := {
  config : Config;
  secretKey : string;
  ec600n : option EC600N;
  notify : option WechatNotify
}.

(** The task [processPhoneCalls] starts: the numbers it dials, with the
    controller the server holds and the time to wait before hanging
    up. *)
Record CallTask : Type := {
  taskController : EC600N;
  taskNumbers : list string;
  taskDuration : Z
}.

(** The keys of the map [params], as the source lists them. *)
Definition paramKeys : list string :=
  ["name"; "phoneNumbers"; "secretKey"; "timestamp"].

Section Server.

Context `{UnicodeOps} `{Device} `{Web} `{Library}.

Definition params (s : HTTPServer) (name phoneNumbers timestamp : string)
           (key : string) : string :=
  if String.eqb key "name" then name
  else if String.eqb key "phoneNumbers" then phoneNumbers
  else if String.eqb key "secretKey" then secretKey s
  else if String.eqb key "timestamp" then timestamp
  else EmptyString.

(** The string that is signed, when ranging over the map visits its
    keys in the order [visited]. *)
Definition signString (visited : list string) (s : HTTPServer)
           (name phoneNumbers timestamp : string) : string :=
  let keys := sortStrings visited in
  let parts := map (fun k => k ++ "=" ++ params s name phoneNumbers timestamp k) keys in
  Join parts "&".

Definition generateSignatureVisiting (visited : list string) (s : HTTPServer)
           (name phoneNumbers timestamp : string) : string :=
  hexEncode (md5Sum (signString visited s name phoneNumbers timestamp)).

Definition generateSignature (s : HTTPServer) (name phoneNumbers timestamp : string)
  : string :=
  generateSignatureVisiting paramKeys s name phoneNumbers timestamp.

Definition validateSignature (s : HTTPServer) (req : NotifyRequest) : bool :=
  let expectedSignature := generateSignature s (Name req) (PhoneNumbers req) (Timestamp req) in
  EqualFold expectedSignature (Signature req).

(** [now] is what [time.Now()] gives when the function reads it, in
    nanoseconds; [time.Unix(timestamp, 0)] is the instant
    [timestamp * Second]. *)
Definition validateTimestamp (now : Z) (timestampStr : string) : bool * option error :=
  match ParseInt timestampStr with
  | None => (false, Some (Wrap "时间戳格式错误" IOError))
  | Some timestamp =>
      let timestamp := if (9999999999 <? timestamp)%Z
                       then Z.quot timestamp 1000 else timestamp in
      let reqTime := (timestamp * Second)%Z in
      let diff := Sub now reqTime in
      let tolerance := (TimestampTolerance * Minute)%Z in
      if (tolerance <? diff)%Z || (diff <? - tolerance)%Z
      then (false,
            Some (WithText "时间戳超出容差范围，当前时间"
                    (formatRFC3339 now ++ ", 请求时间: " ++ formatRFC3339 reqTime
                     ++ ", 差值: " ++ formatDuration diff)))
      else (true, None)
  end.

Local Open Scope world_scope.

Definition parseAndValidateRequest (s : HTTPServer) (r : Request)
  : W (option NotifyRequest * option error) :=
  if negb (String.eqb (Method r) "POST") then retW (None, Some (New "method not allowed"))
  else
    match Body r with
    | None => retW (None, Some (Wrap "解析请求体失败" IOError))
    | Some req =>
        if negb (validateSignature s req) then retW (None, Some (New "签名验证失败"))
        else
          fun w =>
            match validateTimestamp (wallClock w) (Timestamp req) with
            | (false, Some err) => ((None, Some (Wrap "时间戳验证失败" err)), w)
            | (false, None) =>
                (* not reached: a rejection always carries its error *)
                ((None, Some (Wrap "时间戳验证失败" IOError)), w)
            | (true, _) => ((Some req, None), w)
            end
    end.

(** The loop of [parsePhoneNumbers] over the pieces. *)
Fixpoint cleanNumbers (numbers : list string) : list string :=
  match numbers with
  | [] => []
  | num :: rest =>
      let num := TrimSpace num in
      if negb (String.eqb num EmptyString) then num :: cleanNumbers rest
      else cleanNumbers rest
  end.

Definition parsePhoneNumbers (phoneNumbersStr : string) : list string :=
  if String.eqb phoneNumbersStr EmptyString then []
  else cleanNumbers (Split phoneNumbersStr ",").

Definition sendWechatNotification (s : HTTPServer) (name : string)
           (phoneNumbers : list string) : W unit :=
  match notify s with
  | None => retW tt
  | Some n =>
      if (List.length phoneNumbers =? 0)%nat then retW tt
      else
        fun w =>
          let message := "📞 名称: " ++ name ++ str1 LF
                         ++ "电话号码: " ++ Join phoneNumbers ", " ++ str1 LF
                         ++ "时间: " ++ formatTime (wallClock w) ++ str1 LF
                         ++ "即将开始拨打电话..." in
          let (_, w') := SendToWechat n message w in
          (tt, w')
  end.

(** [e] is the controller of the server, which [processPhoneCalls]
    found present before it started the task that calls this function;
    the wait between dialling and hanging up leaves no trace. *)
Definition makePhoneCall (e : EC600N) (phoneNumber : string) (duration : Z)
  : M string :=
  bind (MakeCall e phoneNumber) (fun err =>
    match err with
    | Some err => ret (phoneNumber ++ ": 失败 - " ++ errorText err)
    | None =>
        bind (HangupCall e) (fun err =>
          match err with
          | Some err => ret (phoneNumber ++ ": 拨打成功但挂断失败 - " ++ errorText err)
          | None => ret (phoneNumber ++ ": 成功")
          end)
    end).

(** The body of the task: the calls it makes, one after the other, with
    the text each call gives (the task itself drops the texts). *)
Fixpoint callAll (e : EC600N) (numbers : list string) (duration : Z)
  : M (list string) :=
  match numbers with
  | [] => ret []
  | phoneNumber :: rest =>
      bind (makePhoneCall e phoneNumber duration) (fun text =>
        bind (callAll e rest duration) (fun texts => ret (text :: texts)))
  end.

Definition runCallTask (task : CallTask) : M (list string) :=
  callAll (taskController task) (taskNumbers task) (taskDuration task).

(** The guard of [processPhoneCalls] reports a missing or disconnected
    module before it reports an empty text, whichever of the three tests
    made it fire; the cases below are the guard in that order. *)
Definition processPhoneCalls (s : HTTPServer) (name phoneNumbersStr : string)
  : W (option error * option CallTask) :=
  match ec600n s with
  | None => retW (Some (New "EC600N 模块未启用或未连接"), None)
  | Some e =>
      if negb (IsConnected e) then retW (Some (New "EC600N 模块未启用或未连接"), None)
      else if String.eqb phoneNumbersStr EmptyString
      then retW (Some (New "电话号码为空"), None)
      else
        let phoneNumbers := parsePhoneNumbers phoneNumbersStr in
        if (List.length phoneNumbers =? 0)%nat
        then retW (Some (New "电话号码为空"), None)
        else
          _ <- sendWechatNotification s name phoneNumbers ;;
          let callDuration := CallDuration (config s) in
          let callDuration := if (callDuration <=? 0)%Z then 10%Z else callDuration in
          retW (None, Some {| taskController := e;
                              taskNumbers := tl phoneNumbers;
                              taskDuration := callDuration |})
  end.

(** The status code and the body written, and the task started. *)
Definition handleNotify (s : HTTPServer) (r : Request)
  : W (Z * NotifyResponse * option CallTask) :=
  ' (req, err) <- parseAndValidateRequest s r ;;
  match req, err with
  | Some req, None =>
      ' (err, task) <- processPhoneCalls s (Name req) (PhoneNumbers req) ;;
      let message := match err with
                     | Some err => "验证成功，但拨打电话失败: " ++ errorText err
                     | None => "验证成功"
                     end in
      retW (StatusOK, {| Success := true; Message := message |}, task)
  | _, Some err =>
      let text := errorText err in
      let statusCode :=
        if Contains text "签名验证失败" || Contains text "时间戳验证失败"
        then StatusUnauthorized
        else if Contains text "method not allowed" then StatusMethodNotAllowed
        else StatusBadRequest in
      retW (statusCode, {| Success := false; Message := text |}, None)
  | None, None =>
      (* not reached: a nil error always comes with a request *)
      retW (StatusOK, {| Success := true; Message := "验证成功" |}, None)
  end.

End Server.

End API.

(** The commands a call may write: the hang-up, or the dialling of one
    of [numbers]. *)
Definition callCommand `{UnicodeOps} (numbers : list string) (cmd : string) : Prop :=
  cmd = "ATH" ++ CRLF
  \/ exists n, In n numbers /\ cmd = dialCommand (cleanPhoneNumber n) ++ CRLF.

(** * Properties *)

(** ** Strings *)

Lemma append_nil_r (s : string) : s ++ EmptyString = s.
Proof. induction s as [|c r IH]; simpl; [reflexivity | now rewrite IH]. Qed.

Lemma append_assoc (a b c : string) : (a ++ b) ++ c = a ++ (b ++ c).
Proof. induction a as [|x a IH]; simpl; [reflexivity | now rewrite IH]. Qed.

Lemma joinLines_snoc (lines : list string) (l : string) :
  joinLines (lines ++ [l])%list = joinLines lines ++ l.
Proof.
  induction lines as [|x xs IH]; simpl.
  - apply append_nil_r.
  - now rewrite IH, append_assoc.
Qed.

Lemma repeat_snoc {A : Type} (a : A) (n : nat) (l : list A) :
  (repeat a n ++ a :: l = repeat a (S n) ++ l)%list.
Proof. induction n as [|n IH]; simpl; [reflexivity | now rewrite IH]. Qed.

(** ** The command executor *)

Section CommandExecutor.

Context `{UnicodeOps} `{Device}.

Lemma nthRead_shift (t : Trace) (i : nat) :
  nthRead (OpReadString :: t) i = nthRead t (S i).
Proof. unfold nthRead. now rewrite repeat_snoc. Qed.

Lemma readLoop_accepts (budget : nat) :
  forall (response : string) (t : Trace),
  exists lines reads,
    readLoop budget response t
    = (response ++ joinLines lines, (repeat OpReadString reads ++ t)%list)
    /\ accepted t budget lines reads.
Proof.
  induction budget as [|budget IH]; intros response t.
  - exists [], 0%nat. simpl. rewrite append_nil_r. split; [reflexivity|].
    split; [simpl; lia|]. split; [simpl; intros; lia|].
    split; [simpl; intros; lia|].
    right; right. split; reflexivity.
  - simpl. unfold bind, ask, perform, ret.
    destruct (readString t) as [l|partial] eqn:Hread.
    + destruct (isSentinel l) eqn:Hs.
      * exists [l], 1%nat. simpl. rewrite append_nil_r.
        split; [reflexivity|].
        split; [simpl; lia|]. split.
        { simpl. intros i Hi. assert (i = 0)%nat by lia. subst i. exact Hread. }
        split; [simpl; intros; lia|].
        left. exists [], l. repeat split. exact Hs.
      * destruct (IH (response ++ l) (OpReadString :: t))
          as (lines & reads & Heq & Hlen & Hnth & Hno & Hstop).
        exists (l :: lines), (S reads). split.
        { rewrite Heq. simpl. rewrite append_assoc, repeat_snoc. reflexivity. }
        split; [simpl; lia|]. split.
        { simpl. intros [|i] Hi; [exact Hread|].
          rewrite <- nthRead_shift. apply Hnth. lia. }
        split.
        { simpl. intros [|i] Hi; [exact Hs|]. apply Hno. lia. }
        destruct Hstop as [(front & last & -> & Hl & ->)
                          |[(partial & Hp & ->)|[Hl ->]]].
        -- left. exists (l :: front), last. repeat split; assumption.
        -- right; left. exists partial. simpl.
           rewrite <- nthRead_shift. split; [exact Hp|reflexivity].
        -- right; right. simpl. split; [now rewrite Hl|reflexivity].
    + exists [], 1%nat. simpl. rewrite append_nil_r. split; [reflexivity|].
      split; [simpl; lia|]. split; [simpl; intros; lia|].
      split; [simpl; intros; lia|].
      right; left. exists partial. split; [exact Hread|reflexivity].
Qed.

Lemma readResponse_accepts (e : EC600N) (t : Trace) :
  exists lines reads,
    readResponse e t
    = ((joinLines lines, None), (repeat OpReadString reads ++ t)%list)
    /\ accepted t MaxResponseLines lines reads.
Proof.
  destruct (readLoop_accepts MaxResponseLines EmptyString t)
    as (lines & reads & Heq & Hacc).
  exists lines, reads. split; [|exact Hacc].
  unfold readResponse, bind, ret. rewrite Heq. reflexivity.
Qed.

Lemma sendATCommand_reads (e : EC600N) (command : string) (t : Trace) :
  port e <> None ->
  flushFails t = false ->
  writeFails (OpFlush :: t) = false ->
  sendATCommand e command t
  = readResponse e (OpWrite (command ++ CRLF) :: OpFlush :: t).
Proof.
  intros Hport Hflush Hwrite. unfold sendATCommand.
  destruct (port e) as [pt|]; [|congruence].
  unfold bind, ask, perform. rewrite Hflush, Hwrite. reflexivity.
Qed.

(** C1.  Once the command is written, [sendATCommand] returns with a nil
    error the concatenation of at most ten lines: the first lines the
    port delivers, stopping at and including the first one that contains
    OK or ERROR; when the tenth line is reached without a sentinel, or a
    read fails before, the text accumulated so far is returned, still
    with a nil error. *)
Theorem sendATCommand_bounded_sentinel (e : EC600N) (command : string) (t : Trace) :
  port e <> None ->
  flushFails t = false ->
  writeFails (OpFlush :: t) = false ->
  let t0 := OpWrite (command ++ CRLF) :: OpFlush :: t in
  exists lines reads,
    sendATCommand e command t
    = ((joinLines lines, None), (repeat OpReadString reads ++ t0)%list)
    /\ (List.length lines <= 10)%nat
    /\ (forall i, (i < List.length lines)%nat ->
                  nthRead t0 i = Line (nth i lines EmptyString))
    /\ (forall i, (S i < List.length lines)%nat ->
                  Contains (nth i lines EmptyString) "OK" = false
                  /\ Contains (nth i lines EmptyString) "ERROR" = false)
    /\ ((exists front last,
            lines = (front ++ [last])%list
            /\ (Contains last "OK" = true \/ Contains last "ERROR" = true)
            /\ reads = List.length lines)
        \/ (exists partial,
               nthRead t0 (List.length lines) = ReadErr partial
               /\ reads = S (List.length lines))
        \/ (List.length lines = 10%nat /\ reads = 10%nat)).
Proof.
  intros Hport Hflush Hwrite t0.
  rewrite (sendATCommand_reads e command t Hport Hflush Hwrite).
  destruct (readResponse_accepts e t0)
    as (lines & reads & Heq & Hlen & Hnth & Hno & Hstop).
  exists lines, reads. split; [exact Heq|].
  split; [exact Hlen|]. split; [exact Hnth|]. split.
  - intros i Hi. specialize (Hno i Hi). unfold isSentinel in Hno.
    now apply orb_false_iff in Hno.
  - destruct Hstop as [(front & last & Hl & Hs & Hr)
                      |[(partial & Hp & Hr)|[Hl Hr]]].
    + left. exists front, last. repeat split; try assumption.
      unfold isSentinel in Hs. now apply orb_true_iff in Hs.
    + right; left. exists partial. split; assumption.
    + right; right. unfold MaxResponseLines in Hl. split; congruence.
Qed.

End CommandExecutor.

Lemma sendATCommand_bounded_sentinel_witness :
  let D := scripted false false false
             [line ""; line "+CSQ: 15,99"; line ""; line "OK"; line "late"] in
  let t0 := [OpWrite ("AT+CSQ" ++ CRLF); OpFlush] in
  exists lines reads,
    @sendATCommand D openController "AT+CSQ" []
    = ((joinLines lines, None), (repeat OpReadString reads ++ t0)%list)
    /\ (List.length lines <= 10)%nat
    /\ (forall i, (i < List.length lines)%nat ->
                  @nthRead D t0 i = Line (nth i lines EmptyString))
    /\ (forall i, (S i < List.length lines)%nat ->
                  Contains (nth i lines EmptyString) "OK" = false
                  /\ Contains (nth i lines EmptyString) "ERROR" = false)
    /\ ((exists front last,
            lines = (front ++ [last])%list
            /\ (Contains last "OK" = true \/ Contains last "ERROR" = true)
            /\ reads = List.length lines)
        \/ (exists partial,
               @nthRead D t0 (List.length lines) = ReadErr partial
               /\ reads = S (List.length lines))
        \/ (List.length lines = 10%nat /\ reads = 10%nat)).
Proof.
  intros D t0.
  apply (@sendATCommand_bounded_sentinel D openController "AT+CSQ" []).
  - discriminate.
  - reflexivity.
  - reflexivity.
Defined.

(** ** Status and life cycle *)

Section Controller.

Context `{UnicodeOps} `{Device}.

(** C5.  [isNetworkStatusNormal] holds exactly when the signal strength
    is above 5, the registration state is the home-network one and the
    SIM state is the ready one. *)
Theorem isNetworkStatusNormal_iff (status : NetworkStatus) :
  isNetworkStatusNormal status = true
  <-> (5 < SignalStrength status)%Z
      /\ NetworkRegStatus status = regHome
      /\ SIMStatus status = simReady.
Proof.
  unfold isNetworkStatusNormal, MinSignalStrength.
  rewrite !andb_true_iff, Z.ltb_lt, !String.eqb_eq. tauto.
Qed.

Lemma isNetworkStatusNormal_examples :
  let st signal reg sim :=
    {| SignalStrength := signal; NetworkRegStatus := reg; SIMStatus := sim;
       OperatorName := "CHINA MOBILE"; IMEI := "861234567890123";
       Timestamp := 0 |} in
  isNetworkStatusNormal (st 6%Z regHome simReady) = true
  /\ isNetworkStatusNormal (st 5%Z regHome simReady) = false
  /\ isNetworkStatusNormal (st 6%Z regUnregistered simReady) = false
  /\ isNetworkStatusNormal (st 6%Z regRoaming simReady) = false
  /\ isNetworkStatusNormal (st 31%Z regHome simNeedsPIN) = false.
Proof. repeat split. Qed.

(** C9.  With the feature disabled in the configuration, [NewEC600N]
    returns neither a controller nor an error, and performs no operation
    on the port: in particular it does not open it. *)
Theorem NewEC600N_disabled (cfg : Config) (t : Trace) :
  Enabled cfg = false ->
  NewEC600N cfg t = ((None, None), t).
Proof. intros Hoff. unfold NewEC600N. rewrite Hoff. reflexivity. Qed.

(** With the feature enabled the port is opened first, and a controller
    that is returned holds the open port and is connected. *)
Lemma NewEC600N_enabled (cfg : Config) (t : Trace) (e : EC600N) (t' : Trace) :
  Enabled cfg = true ->
  NewEC600N cfg t = ((Some e, None), t') ->
  port e <> None /\ connected e = true /\ config e = cfg
  /\ exists later, t' = (later ++ OpOpen (SerialPort cfg) (BaudRate cfg) :: t)%list.
Proof.
  intros Hon. unfold NewEC600N, initSerial, testConnection, bind, ask, perform, ret.
  rewrite Hon. simpl.
  destruct (openFails t); [discriminate|].
  destruct (sendATCommand _ "AT" _) as [[response err] t1] eqn:Hsend.
  destruct err as [err|]; [discriminate|].
  destruct (negb (Contains response "OK")); [discriminate|].
  intros Heq. injection Heq as <- <-. simpl.
  split; [discriminate|]. split; [reflexivity|]. split; [reflexivity|].
  unfold sendATCommand in Hsend. simpl in Hsend.
  unfold bind, ask, perform, ret in Hsend.
  destruct (flushFails _); [discriminate|].
  destruct (writeFails _); [discriminate|].
  match type of Hsend with
  | readResponse ?e0 ?t0 = _ =>
      destruct (readResponse_accepts e0 t0) as (lines & reads & Hr & _)
  end.
  rewrite Hr in Hsend. injection Hsend as _ <-.
  exists (repeat OpReadString reads ++ [OpWrite ("AT" ++ CRLF); OpFlush])%list.
  now rewrite <- app_assoc.
Qed.

(** C10.  [Close] leaves the controller disconnected whatever the port
    answers; with no port it does nothing on the device and returns nil,
    otherwise it closes the port once and returns the port's answer. *)
Theorem Close_disconnects (e : EC600N) (t : Trace) :
  let '((e', err), t') := Close e t in
  IsConnected e' = false
  /\ port e' = port e
  /\ match port e with
     | None => err = None /\ t' = t
     | Some _ =>
         t' = OpClose :: t
         /\ err = (if closeFails t then Some IOError else None)
     end.
Proof.
  unfold Close, IsConnected, bind, ask, perform, ret. simpl.
  destruct (port e) as [pt|]; simpl; repeat split.
Qed.

Lemma Close_port_error_still_disconnects (e : EC600N) (t : Trace) :
  port e <> None ->
  closeFails t = true ->
  snd (fst (Close e t)) = Some IOError
  /\ IsConnected (fst (fst (Close e t))) = false.
Proof.
  intros Hport Hfail. unfold Close, IsConnected, bind, ask, perform, ret. simpl.
  destruct (port e) as [pt|]; [|congruence]. simpl. rewrite Hfail. now split.
Qed.

End Controller.

Lemma NewEC600N_disabled_witness :
  let cfg := {| Enabled := false; SerialPort := "/dev/ttyUSB0";
                BaudRate := 115200; HTTPPort := 8080; CallDuration := 30;
                NetworkCheckInterval := 5; CheckInterval := 5 |} in
  @NewEC600N (scripted false false false []) cfg [] = ((None, None), []).
Proof.
  intros cfg.
  apply (@NewEC600N_disabled (scripted false false false []) cfg []).
  reflexivity.
Defined.

(** ** Calls *)

Lemma prefix_nil (s : string) : prefix EmptyString s = true.
Proof. destruct s; reflexivity. Qed.

Lemma ReplaceAll_byte (d : ascii) (s : string) :
  ReplaceAll s (str1 d) EmptyString = removeByte d s.
Proof.
  unfold ReplaceAll. induction s as [|c r IH]; [reflexivity|].
  cbn [replaceFrom removeByte str1 prefix String.length append Nat.sub].
  rewrite prefix_nil.
  destruct (ascii_dec d c) as [->|Hne].
  - rewrite Ascii.eqb_refl. exact IH.
  - destruct (Ascii.eqb c d) eqn:Heq.
    + apply Ascii.eqb_eq in Heq. congruence.
    + now rewrite IH.
Qed.

Lemma removeByte_absent (d : ascii) (s : string) :
  memByte d (removeByte d s) = false.
Proof.
  induction s as [|c r IH]; [reflexivity|]. simpl.
  destruct (Ascii.eqb c d) eqn:Heq; [exact IH|]. simpl.
  rewrite Ascii.eqb_sym, Heq. exact IH.
Qed.

Lemma removeByte_keeps_absent (c d : ascii) (s : string) :
  memByte c s = false -> memByte c (removeByte d s) = false.
Proof.
  induction s as [|x r IH]; [reflexivity|]. simpl. intros Hm.
  apply orb_false_iff in Hm as [Hx Hr].
  destruct (Ascii.eqb x d); simpl; [auto|]. rewrite Hx. auto.
Qed.

Section Calls.

Context `{UnicodeOps} `{Device}.

Lemma cleanPhoneNumber_removes (phoneNumber : string) :
  cleanPhoneNumber phoneNumber
  = removeByte " " (removeByte "-" (TrimSpace phoneNumber)).
Proof.
  unfold cleanPhoneNumber.
  change "-" with (str1 "-"%char). change " " with (str1 " "%char).
  now rewrite !ReplaceAll_byte.
Qed.

Lemma sendATCommand_log (e : EC600N) (command : string) (t : Trace) :
  port e <> None ->
  snd (sendATCommand e command t)
  = if flushFails t then OpFlush :: t
    else if writeFails (OpFlush :: t)
         then OpWrite (command ++ CRLF) :: OpFlush :: t
         else snd (readResponse e (OpWrite (command ++ CRLF) :: OpFlush :: t)).
Proof.
  intros Hport. unfold sendATCommand.
  destruct (port e) as [pt|]; [|congruence].
  unfold bind, ask, perform, ret.
  destruct (flushFails t); [reflexivity|].
  destruct (writeFails _); reflexivity.
Qed.

(** C3.  A phone number that is empty once cleaned makes [MakeCall] and
    [MakeCallWithMonitor] return without any operation on the port (no
    flush, no write, no read) and, for the latter, without starting the
    monitor; on a controller that holds a port, as every controller
    [NewEC600N] returns does, the error returned is the empty-number
    error. *)
Theorem MakeCall_empty_number (e : EC600N) (phoneNumber : string) (t : Trace) :
  cleanPhoneNumber phoneNumber = EmptyString ->
  (snd (MakeCall e phoneNumber t) = t
   /\ snd (MakeCallWithMonitor e phoneNumber t) = t
   /\ spawned (fst (MakeCallWithMonitor e phoneNumber t)) = false
   /\ fst (MakeCall e phoneNumber t) <> None)
  /\ (port e <> None ->
      MakeCall e phoneNumber t = (Some errEmptyNumber, t)
      /\ MakeCallWithMonitor e phoneNumber t
         = ({| monitor := false; spawned := false; cancelled := false;
               callErr := Some errEmptyNumber |}, t)).
Proof.
  intros Hclean. unfold MakeCall, MakeCallWithMonitor.
  destruct (port e) as [pt|]; rewrite ?Hclean; cbn.
  - repeat split; discriminate.
  - split; [repeat split; discriminate | intros Hport; congruence].
Qed.

(** Without a port the calls are refused earlier still, and the port is
    not touched either. *)
Lemma MakeCall_no_port (e : EC600N) (phoneNumber : string) (t : Trace) :
  port e = None ->
  MakeCall e phoneNumber t = (Some errNotConnected, t)
  /\ snd (MakeCallWithMonitor e phoneNumber t) = t.
Proof.
  intros Hport. unfold MakeCall, MakeCallWithMonitor. rewrite Hport.
  split; reflexivity.
Qed.

Lemma cleanPhoneNumber_blank :
  cleanPhoneNumber EmptyString = EmptyString
  /\ cleanPhoneNumber "   " = EmptyString
  /\ cleanPhoneNumber (" - " ++ str1 TAB ++ CRLF) = EmptyString.
Proof. repeat split. Qed.

(** C4.  [MakeCall] cleans the number by trimming it and then removing
    every dash and every space, and the only command it writes is
    ATD, the cleaned number and a semicolon, followed by CR LF; the write
    comes right after the flush and only reads follow it.  When the
    flush fails nothing is written. *)
Theorem MakeCall_writes_clean_number (e : EC600N) (phoneNumber : string) (t : Trace) :
  port e <> None ->
  cleanPhoneNumber phoneNumber <> EmptyString ->
  cleanPhoneNumber phoneNumber
  = removeByte " " (removeByte "-" (TrimSpace phoneNumber))
  /\ memByte "-" (cleanPhoneNumber phoneNumber) = false
  /\ memByte " " (cleanPhoneNumber phoneNumber) = false
  /\ (flushFails t = true -> snd (MakeCall e phoneNumber t) = OpFlush :: t)
  /\ (flushFails t = false ->
      exists reads,
        snd (MakeCall e phoneNumber t)
        = (repeat OpReadString reads
           ++ OpWrite (("ATD" ++ cleanPhoneNumber phoneNumber ++ ";") ++ CRLF)
           :: OpFlush :: t)%list).
Proof.
  intros Hport Hclean.
  split; [apply cleanPhoneNumber_removes|].
  split.
  { rewrite cleanPhoneNumber_removes.
    apply removeByte_keeps_absent, removeByte_absent. }
  split.
  { rewrite cleanPhoneNumber_removes. apply removeByte_absent. }
  assert (Hlog := sendATCommand_log e (dialCommand (cleanPhoneNumber phoneNumber))
                    t Hport).
  assert (Hrun : snd (MakeCall e phoneNumber t)
                 = snd (sendATCommand e (dialCommand (cleanPhoneNumber phoneNumber)) t)).
  { unfold MakeCall. destruct (port e) as [pt|]; [|congruence].
    destruct (String.eqb (cleanPhoneNumber phoneNumber) EmptyString) eqn:Hempty.
    { apply String.eqb_eq in Hempty. contradiction. }
    unfold bind.
    destruct (sendATCommand e (dialCommand (cleanPhoneNumber phoneNumber)) t)
      as [[response [err|]] t1]; [reflexivity|].
    destruct (Contains response "OK" || Contains response "CONNECT"); reflexivity. }
  rewrite Hrun, Hlog. split.
  - intros ->. reflexivity.
  - intros ->. destruct (writeFails (OpFlush :: t)).
    + exists 0%nat. reflexivity.
    + destruct (readResponse_accepts e
                  (OpWrite (dialCommand (cleanPhoneNumber phoneNumber) ++ CRLF)
                     :: OpFlush :: t)) as (lines & reads & Hr & _).
      rewrite Hr. exists reads. reflexivity.
Qed.

Lemma MakeCall_example :
  cleanPhoneNumber " 138-0013-8000 " = "13800138000"
  /\ dialCommand (cleanPhoneNumber " 138-0013-8000 ") = "ATD13800138000;".
Proof. split; reflexivity. Qed.

End Calls.

Lemma MakeCall_empty_number_witness :
  let D := scripted false false false [line "OK"] in
  @MakeCall bytewise D openController "   " [] = (Some errEmptyNumber, [])
  /\ @MakeCallWithMonitor bytewise D openController "   " []
     = ({| monitor := false; spawned := false; cancelled := false;
           callErr := Some errEmptyNumber |}, []).
Proof.
  intros D.
  destruct (@MakeCall_empty_number bytewise D openController "   " [])
    as [_ Hopen].
  - reflexivity.
  - apply Hopen. discriminate.
Defined.

Lemma MakeCall_writes_clean_number_witness :
  let D := scripted false false false [line ""; line "OK"] in
  exists reads,
    snd (@MakeCall bytewise D openController " 138-0013-8000 " [])
    = (repeat OpReadString reads
       ++ [OpWrite ("ATD13800138000;" ++ CRLF); OpFlush])%list.
Proof.
  intros D.
  destruct (@MakeCall_writes_clean_number bytewise D openController
              " 138-0013-8000 " [])
    as (_ & _ & _ & _ & Hwrite).
  - discriminate.
  - discriminate.
  - destruct (Hwrite eq_refl) as [reads Hlog]. exists reads. exact Hlog.
Defined.

(** ** The call monitor *)

Section Monitor.

Context `{UnicodeOps}.

Lemma classifyLine_firstKeyword (l : string) :
  classifyLine l = firstKeyword (ToUpper (TrimSpace l)).
Proof.
  unfold classifyLine, firstKeyword, keywordTable. cbn [find fst].
  repeat match goal with
         | |- context [Contains ?u ?k] => destruct (Contains u k); [reflexivity|]
         end.
  reflexivity.
Qed.

Lemma classifyLine_final (l : string) (status : CallStatus) (final : bool) :
  classifyLine l = Some (status, final) ->
  final = match status with
          | CallStatusNoCarrier | CallStatusBusy | CallStatusNoAnswer => true
          | _ => false
          end.
Proof.
  unfold classifyLine.
  repeat match goal with
         | |- context [Contains ?u ?k] =>
             destruct (Contains u k);
             [intros Heq; injection Heq as <- <-; reflexivity|]
         end.
  discriminate.
Qed.

Lemma monitorLoop_until_final (pre : list string) :
  forall (l : string) (post : list string) (status : CallStatus),
  Forall (fun x => isFinal x = false) pre ->
  classifyLine l = Some (status, true) ->
  monitorLoop (deliveredLines (pre ++ l :: post))
  = ((statusesOf pre ++ [status])%list, true).
Proof.
  induction pre as [|x pre IH]; intros l post status Hpre Hl.
  - cbn. rewrite Hl. reflexivity.
  - inversion Hpre as [|? ? Hx Hrest]; subst.
    specialize (IH l post status Hrest Hl).
    change (deliveredLines ((x :: pre) ++ l :: post))
      with (EvLine x true :: deliveredLines (pre ++ l :: post)).
    unfold statusesOf in *. cbn [flat_map monitorLoop negb].
    unfold isFinal in Hx.
    destruct (classifyLine x) as [[st final]|].
    + subst final. rewrite IH. reflexivity.
    + exact IH.
Qed.

Lemma monitorLoop_no_final (lines : list string) :
  Forall (fun x => isFinal x = false) lines ->
  monitorLoop (deliveredLines lines) = (statusesOf lines, false).
Proof.
  induction lines as [|x lines IH]; intros Hall; [reflexivity|].
  inversion Hall as [|? ? Hx Hrest]; subst.
  specialize (IH Hrest).
  change (deliveredLines (x :: lines)) with (EvLine x true :: deliveredLines lines).
  unfold statusesOf in *. cbn [flat_map monitorLoop negb].
  unfold isFinal in Hx.
  destruct (classifyLine x) as [[st final]|].
  - subst final. rewrite IH. reflexivity.
  - exact IH.
Qed.

Lemma monitorLoopOnPort_selected (events : list PortEvent) :
  forall left, monitorLoopOnPort left events = monitorLoop (selected left events).
Proof.
  induction events as [|ev rest IH]; intros left; [reflexivity|].
  destruct ev as [l reader delivered|reader| |]; cbn [monitorLoopOnPort selected].
  - destruct (reader <? left)%nat; [apply IH|].
    cbn [monitorLoop]. rewrite IH. reflexivity.
  - destruct (reader <? left)%nat; [apply IH|]. cbn [monitorLoop]. apply IH.
  - cbn [monitorLoop]. apply IH.
  - reflexivity.
Qed.

Lemma monitorLoopOnPort_until_final (served : list (string * nat)) :
  forall (l : string) (reader : nat) (post : list PortEvent) (status : CallStatus),
  Forall (fun x => isFinal (fst x) = false) served ->
  classifyLine l = Some (status, true) ->
  monitorLoopOnPort 0 (arrivals served ++ PortLine l reader true :: post)
  = ((statusesOf (map fst served) ++ [status])%list, true).
Proof.
  induction served as [|[x r] served IH]; intros l reader post status Hpre Hl.
  - cbn [arrivals map app monitorLoopOnPort Nat.ltb Nat.leb negb]. rewrite Hl.
    reflexivity.
  - inversion Hpre as [|? ? Hx Hrest]; subst.
    specialize (IH l reader post status Hrest Hl).
    unfold arrivals in *.
    cbn [map app fst snd monitorLoopOnPort Nat.ltb Nat.leb negb].
    unfold statusesOf in *. cbn [flat_map].
    unfold isFinal in Hx. cbn [fst] in Hx.
    destruct (classifyLine x) as [[st final]|].
    + subst final. rewrite IH. reflexivity.
    + exact IH.
Qed.

Lemma monitorLoopOnPort_no_final (served : list (string * nat)) :
  Forall (fun x => isFinal (fst x) = false) served ->
  monitorLoopOnPort 0 (arrivals served) = (statusesOf (map fst served), false).
Proof.
  induction served as [|[x r] served IH]; intros Hall; [reflexivity|].
  inversion Hall as [|? ? Hx Hrest]; subst.
  specialize (IH Hrest).
  unfold arrivals in *.
  cbn [map fst snd monitorLoopOnPort Nat.ltb Nat.leb negb].
  unfold statusesOf in *. cbn [flat_map].
  unfold isFinal in Hx. cbn [fst] in Hx.
  destruct (classifyLine x) as [[st final]|].
  - subst final. rewrite IH. reflexivity.
  - exact IH.
Qed.

Lemma monitorLoopOnPort_silence (n : nat) :
  forall left rest,
  monitorLoopOnPort left (silence n ++ rest) = monitorLoopOnPort (n + left) rest.
Proof.
  induction n as [|n IH]; intros left rest; [reflexivity|].
  unfold silence in *. cbn [repeat app monitorLoopOnPort].
  rewrite IH. f_equal. lia.
Qed.

Lemma monitorLoopOnPort_left_behind (lines : list string) :
  forall left rest,
  (List.length lines <= left)%nat ->
  monitorLoopOnPort left (inTurn lines ++ rest)
  = monitorLoopOnPort (left - List.length lines) rest.
Proof.
  induction lines as [|l lines IH]; intros left rest Hlen.
  - cbn. now rewrite Nat.sub_0_r.
  - cbn [List.length] in Hlen. destruct left as [|left]; [lia|].
    unfold inTurn, arrivals in *.
    cbn [map app fst snd monitorLoopOnPort Nat.ltb Nat.leb Nat.pred List.length].
    rewrite IH by lia. reflexivity.
Qed.

(** C2.  The monitor trims and upper-cases a line it receives and takes
    the first of the keywords NO CARRIER, BUSY, NO ANSWER, CONNECT, ERROR
    the line contains; one of the first three sends its status and ends
    the task, which closes the channel, CONNECT and ERROR send their
    status and the scan goes on.  While the 500 ms timer has not fired
    every line is received and treated so, and the lines RING, NO
    CARRIER give the single status no-carrier and a closed channel.  It
    does not hold for every sequence of lines: each period of silence
    leaves a reader behind in its read, and when the readers are served
    in the order they started, the lines that come after [n] periods of
    silence are lost to them, [n] of them, and never tested.  After
    RING and one period of silence the line NO CARRIER gives no status
    and the channel stays open. *)
Theorem monitorCallStatus_loses_lines_after_silence (e : EC600N) :
  port e <> None ->
  (forall l, classifyLine l = firstKeyword (ToUpper (TrimSpace l)))
  /\ (forall l status final,
         classifyLine l = Some (status, final) ->
         final = match status with
                 | CallStatusNoCarrier | CallStatusBusy | CallStatusNoAnswer => true
                 | _ => false
                 end)
  /\ (forall served l reader post status,
         Forall (fun x => isFinal (fst x) = false) served ->
         classifyLine l = Some (status, true) ->
         monitorCallStatusOnPort e (arrivals served ++ PortLine l reader true :: post)
         = ((statusesOf (map fst served) ++ [status])%list, true))
  /\ (forall served,
         Forall (fun x => isFinal (fst x) = false) served ->
         monitorCallStatusOnPort e (arrivals served)
         = (statusesOf (map fst served), false))
  /\ monitorCallStatusOnPort e (inTurn ["RING" ++ CRLF; "NO CARRIER" ++ CRLF])
     = ([CallStatusNoCarrier], true)
  /\ (forall n lines rest,
         List.length lines = n ->
         monitorCallStatusOnPort e (silence n ++ inTurn lines ++ rest)
         = monitorCallStatusOnPort e rest)
  /\ monitorCallStatusOnPort e
       (inTurn ["RING" ++ CRLF] ++ silence 1 ++ inTurn ["NO CARRIER" ++ CRLF])
     = ([], false)
  /\ monitorCallStatusOnPort e
       (inTurn ["RING" ++ CRLF] ++ silence 1
        ++ inTurn ["NO CARRIER" ++ CRLF; "BUSY" ++ CRLF])
     = ([CallStatusBusy], true).
Proof.
  intros Hport. unfold monitorCallStatusOnPort.
  destruct (port e) as [pt|]; [|congruence].
  split; [exact classifyLine_firstKeyword|].
  split; [exact classifyLine_final|].
  split; [intros; now apply monitorLoopOnPort_until_final|].
  split; [exact monitorLoopOnPort_no_final|].
  split; [reflexivity|].
  split; [|split; reflexivity].
  intros n lines rest Hlen.
  rewrite monitorLoopOnPort_silence, monitorLoopOnPort_left_behind by lia.
  f_equal. lia.
Qed.

(** Further behaviour of the monitor: a controller without a port gives
    the error status and a closed channel; a cancellation closes the
    channel without a further status; read errors and timeouts are
    skipped. *)
Lemma monitorCallStatus_other_events (e : EC600N) (events : list MonitorEvent) :
  (port e = None -> monitorCallStatus e events = ([CallStatusError], true))
  /\ monitorLoop (EvCancel :: events) = ([], true)
  /\ monitorLoop (EvReadErr :: events) = monitorLoop events
  /\ monitorLoop (EvTimeout :: events) = monitorLoop events
  /\ monitorLoop (deliveredLines ["connect 9600"; "+CME ERROR: 3"; "no answer"; "BUSY"])
     = ([CallStatusConnected; CallStatusError; CallStatusNoAnswer], true).
Proof.
  repeat split. intros Hport. unfold monitorCallStatus. now rewrite Hport.
Qed.

End Monitor.

Lemma monitorCallStatus_loses_lines_after_silence_witness :
  @monitorCallStatusOnPort bytewise openController
    (inTurn ["RING" ++ CRLF] ++ silence 1 ++ inTurn ["NO CARRIER" ++ CRLF])
  = ([], false).
Proof.
  destruct (@monitorCallStatus_loses_lines_after_silence bytewise openController)
    as (_ & _ & _ & _ & _ & _ & Hlost & _).
  - discriminate.
  - exact Hlost.
Defined.

(** ** The status snapshot *)

Section Snapshot.

Context `{UnicodeOps} `{Device}.

Ltac run_query :=
  unfold bind, ret;
  match goal with
  | |- context [sendATCommand ?e ?c ?t] =>
      destruct (sendATCommand e c t) as [[response [err|]] t1]
  end; cbn [fst snd].

Lemma getSignalStrength_zero (e : EC600N) (t : Trace) :
  zeroIfFailed (getSignalStrength e t) 0%Z.
Proof.
  unfold zeroIfFailed, getSignalStrength. run_query; [reflexivity|].
  destruct (List.length (Regexp.reCSQ response) <? 3)%nat; [reflexivity|].
  destruct (Sscanf_d _); cbn; trivial.
Qed.

Lemma getNetworkRegistrationStatus_zero (e : EC600N) (t : Trace) :
  zeroIfFailed (getNetworkRegistrationStatus e t) EmptyString.
Proof.
  unfold zeroIfFailed, getNetworkRegistrationStatus. run_query; [reflexivity|].
  destruct (List.length (Regexp.reCREG response) <? 2)%nat; [reflexivity|].
  destruct (networkRegStatusMap _); cbn; trivial.
Qed.

Lemma getSIMStatus_zero (e : EC600N) (t : Trace) :
  zeroIfFailed (getSIMStatus e t) EmptyString.
Proof.
  unfold zeroIfFailed, getSIMStatus. run_query; [reflexivity|].
  repeat match goal with
         | |- context [Contains ?u ?k] => destruct (Contains u k); [cbn; trivial|]
         end.
  cbn; trivial.
Qed.

Lemma getOperatorName_zero (e : EC600N) (t : Trace) :
  zeroIfFailed (getOperatorName e t) EmptyString.
Proof.
  unfold zeroIfFailed, getOperatorName. run_query; [reflexivity|].
  destruct (List.length (Regexp.reCOPS response) <? 2)%nat; cbn; trivial.
Qed.

Lemma getIMEI_zero (e : EC600N) (t : Trace) :
  zeroIfFailed (getIMEI e t) EmptyString.
Proof.
  unfold zeroIfFailed, getIMEI. run_query; [reflexivity|].
  destruct (scanIMEI _); cbn; trivial.
Qed.

Lemma CheckNetworkStatus_run (e : EC600N) (t : Trace) :
  let q1 := getSignalStrength e t in
  let q2 := getNetworkRegistrationStatus e (snd q1) in
  let q3 := getSIMStatus e (snd q2) in
  let q4 := getOperatorName e (snd q3) in
  let q5 := getIMEI e (snd q4) in
  CheckNetworkStatus e t
  = (({| SignalStrength := fst (fst q1);
         NetworkRegStatus := fst (fst q2);
         SIMStatus := fst (fst q3);
         OperatorName := fst (fst q4);
         IMEI := fst (fst q5);
         Timestamp := timeNow t |}, None), snd q5).
Proof.
  unfold CheckNetworkStatus, bind, ask, ret. cbv zeta.
  destruct (getSignalStrength e t) as [[signal e1] t1]. cbn [fst snd].
  destruct (getNetworkRegistrationStatus e t1) as [[reg e2] t2]. cbn [fst snd].
  destruct (getSIMStatus e t2) as [[sim e3] t3]. cbn [fst snd].
  destruct (getOperatorName e t3) as [[operator e4] t4]. cbn [fst snd].
  destruct (getIMEI e t4) as [[imei e5] t5]. reflexivity.
Qed.

(** C8.  [CheckNetworkStatus] returns a snapshot with a nil error
    whatever the port does.  It runs the five queries one after the
    other, each from where the previous one left the port, whether or
    not the previous ones failed; every field holds what its query
    returned, and a query that failed returned the zero value. *)
Theorem CheckNetworkStatus_never_fails (e : EC600N) (t : Trace) :
  let q1 := getSignalStrength e t in
  let q2 := getNetworkRegistrationStatus e (snd q1) in
  let q3 := getSIMStatus e (snd q2) in
  let q4 := getOperatorName e (snd q3) in
  let q5 := getIMEI e (snd q4) in
  CheckNetworkStatus e t
  = (({| SignalStrength := fst (fst q1);
         NetworkRegStatus := fst (fst q2);
         SIMStatus := fst (fst q3);
         OperatorName := fst (fst q4);
         IMEI := fst (fst q5);
         Timestamp := timeNow t |}, None), snd q5)
  /\ zeroIfFailed q1 0%Z
  /\ zeroIfFailed q2 EmptyString
  /\ zeroIfFailed q3 EmptyString
  /\ zeroIfFailed q4 EmptyString
  /\ zeroIfFailed q5 EmptyString.
Proof.
  intros q1 q2 q3 q4 q5. split; [apply CheckNetworkStatus_run|].
  repeat split;
    [apply getSignalStrength_zero | apply getNetworkRegistrationStatus_zero
    | apply getSIMStatus_zero | apply getOperatorName_zero | apply getIMEI_zero].
Qed.

(** A port that rejects every flush makes all five queries fail; the
    snapshot is still returned, with every field at its zero value. *)
Lemma CheckNetworkStatus_all_failed (e : EC600N) (t : Trace) :
  (forall t', flushFails t' = true) ->
  port e <> None ->
  fst (CheckNetworkStatus e t)
  = ({| SignalStrength := 0; NetworkRegStatus := EmptyString;
        SIMStatus := EmptyString; OperatorName := EmptyString;
        IMEI := EmptyString; Timestamp := timeNow t |}, None).
Proof.
  intros Hflush Hport.
  unfold CheckNetworkStatus, getSignalStrength, getNetworkRegistrationStatus,
    getSIMStatus, getOperatorName, getIMEI, sendATCommand.
  destruct (port e) as [pt|]; [|congruence].
  unfold bind, ask, perform, ret. rewrite !Hflush. reflexivity.
Qed.

End Snapshot.

(** ** IMEI *)

Ltac by_bytes c :=
  destruct c as [[] [] [] [] [] [] [] []]; vm_compute;
  intros; try discriminate; repeat split; try discriminate.

Lemma isDigit_class (c : ascii) :
  isDigit c = true ->
  asciiSpace c = false /\ isASCIIByte c = true /\ Regexp.reSpace c = false
  /\ Ascii.eqb Regexp.COMMA c = false.
Proof. by_bytes c. Qed.

Lemma lastByte_forallb (p : ascii -> bool) (s : string) (c : ascii) :
  forallb_str p s = true -> lastByte s = Some c -> p c = true.
Proof.
  induction s as [|x r IH]; simpl; [discriminate|].
  intros Hall Hlast. apply andb_true_iff in Hall as [Hx Hr].
  destruct r as [|y r']; [congruence|]. now apply IH.
Qed.

Lemma dropTrailingSpace_digits (s : string) :
  forallb_str isDigit s = true -> dropTrailingSpace s = s.
Proof.
  induction s as [|c r IH]; [reflexivity|]. simpl.
  intros Hall. apply andb_true_iff in Hall as [Hc Hr].
  rewrite (IH Hr). destruct r; [|reflexivity].
  destruct (isDigit_class c Hc) as (-> & _). reflexivity.
Qed.

Section IMEI.

Context `{UnicodeOps} `{Device}.

Lemma TrimSpace_digits (s : string) :
  forallb_str isDigit s = true -> TrimSpace s = s.
Proof.
  intros Hall. unfold TrimSpace.
  assert (Hleft : trimLeftScan s = (false, s)).
  { destruct s as [|c r]; [reflexivity|]. simpl in *.
    apply andb_true_iff in Hall as [Hc _].
    destruct (isDigit_class c Hc) as (-> & -> & _). reflexivity. }
  rewrite Hleft, (dropTrailingSpace_digits s Hall).
  destruct (lastByte s) as [c|] eqn:Hlast; [|reflexivity].
  destruct (isDigit_class c (lastByte_forallb isDigit s c Hall Hlast))
    as (_ & -> & _).
  reflexivity.
Qed.

Lemma isIMEI_iff (s : string) :
  isIMEI s = true
  <-> String.length s = 15%nat /\ forallb_str isDigit s = true.
Proof.
  unfold isIMEI, Regexp.reIMEI, IMEILength.
  rewrite !andb_true_iff, Nat.eqb_eq. tauto.
Qed.

Lemma scanIMEI_first (lines : list string) :
  match scanIMEI lines with
  | Some l =>
      exists pre raw post,
        lines = (pre ++ raw :: post)%list
        /\ l = TrimSpace raw
        /\ isIMEI l = true
        /\ Forall (fun x => isIMEI (TrimSpace x) = false) pre
  | None => Forall (fun x => isIMEI (TrimSpace x) = false) lines
  end.
Proof.
  induction lines as [|x rest IH]; [constructor|].
  cbn [scanIMEI]. fold (isIMEI (TrimSpace x)).
  destruct (isIMEI (TrimSpace x)) eqn:Hx.
  - exists [], x, rest. repeat split; [exact Hx | constructor].
  - destruct (scanIMEI rest) as [l|].
    + destruct IH as (pre & raw & post & -> & -> & Hl & Hpre).
      exists (x :: pre), raw, post. repeat split; [exact Hl|].
      constructor; assumption.
    + constructor; assumption.
Qed.

(** The current revision of [getIMEI] accepts fifteen digits and nothing
    else: it returns the first line that, trimmed, is fifteen ASCII
    digits, and reports an error when there is none. *)
Lemma getIMEI_fifteen_digits (e : EC600N) (t t' : Trace) (response : string) :
  sendATCommand e "AT+CGSN" t = ((response, None), t') ->
  match getIMEI e t with
  | ((imei, None), t1) =>
      t1 = t'
      /\ String.length imei = 15%nat
      /\ forallb_str isDigit imei = true
      /\ exists pre raw post,
           Split response (str1 LF) = (pre ++ raw :: post)%list
           /\ imei = TrimSpace raw
           /\ Forall (fun x => isIMEI (TrimSpace x) = false) pre
  | ((imei, Some err), t1) =>
      t1 = t'
      /\ imei = EmptyString
      /\ err = WithText "无法解析 IMEI，响应" response
      /\ Forall (fun x => isIMEI (TrimSpace x) = false) (Split response (str1 LF))
  end.
Proof.
  intros Hsend. unfold getIMEI, bind, ret. rewrite Hsend.
  assert (Hscan := scanIMEI_first (Split response (str1 LF))).
  destruct (scanIMEI (Split response (str1 LF))) as [l|].
  - destruct Hscan as (pre & raw & post & Hsplit & Hl & Himei & Hpre).
    apply isIMEI_iff in Himei as [Hlen Hdig].
    split; [reflexivity|]. split; [exact Hlen|]. split; [exact Hdig|].
    exists pre, raw, post. repeat split; assumption.
  - repeat split. exact Hscan.
Qed.

Lemma isIMEI_rejects (s : string) :
  (forallb_str isDigit s = true -> String.length s <> 15%nat ->
   isIMEI (TrimSpace s) = false)
  /\ (forallb_str isDigit (TrimSpace s) = false -> isIMEI (TrimSpace s) = false).
Proof.
  split.
  - intros Hdig Hlen. rewrite (TrimSpace_digits s Hdig).
    destruct (isIMEI s) eqn:Hs; [|reflexivity].
    apply isIMEI_iff in Hs. tauto.
  - intros Hnd. destruct (isIMEI (TrimSpace s)) eqn:Hs; [|reflexivity].
    apply isIMEI_iff in Hs. destruct Hs. congruence.
Qed.

Lemma scanIMEI_examples :
  scanIMEI ["86123456789012"] = None
  /\ scanIMEI ["8612345678901234"] = None
  /\ scanIMEI ["86123456789012x"] = None
  /\ scanIMEI ["1abcdefghijklmn"] = None
  /\ scanIMEI ["AT+CGSN" ++ str1 CR; " 861234567890123" ++ str1 CR;
               "OK" ++ str1 CR; EmptyString]
     = Some "861234567890123".
Proof. repeat split. Qed.

End IMEI.

(** C6.  The earlier revision of [getIMEI] accepts a fifteen-byte line
    as soon as its first byte is a digit: on the answer below it returns
    a text with fourteen letters as the IMEI, where the current revision
    reports that no IMEI could be read. *)
Theorem Earlier_getIMEI_accepts_letters :
  let D := scripted false false false [line "1abcdefghijklmn"; line "OK"] in
  fst (@Earlier.getIMEI bytewise D openController [])
  = ("1abcdefghijklmn", None)
  /\ fst (@getIMEI bytewise D openController [])
     = (EmptyString,
        Some (WithText "无法解析 IMEI，响应" ("1abcdefghijklmn" ++ CRLF ++ "OK" ++ CRLF))).
Proof. split; reflexivity. Qed.

(** ** Signal strength *)

Lemma span_spec (p : ascii -> bool) (s : string) :
  forall a b, Regexp.span p s = (a, b) ->
  s = a ++ b /\ forallb_str p a = true /\ headFails p b.
Proof.
  induction s as [|c r IH]; simpl; intros a b Heq.
  - injection Heq as <- <-. repeat split.
  - destruct (p c) eqn:Hc.
    + destruct (Regexp.span p r) as [a' b'].
      injection Heq as <- <-.
      destruct (IH a' b' eq_refl) as (-> & Ha & Hb).
      simpl. rewrite Hc, Ha. repeat split. exact Hb.
    + injection Heq as <- <-. simpl. repeat split. exact Hc.
Qed.

Lemma span_app (p : ascii -> bool) (a b : string) :
  forallb_str p a = true ->
  Regexp.span p (a ++ b)
  = (a ++ fst (Regexp.span p b), snd (Regexp.span p b)).
Proof.
  induction a as [|c a IH]; simpl; intros Ha.
  - now destruct (Regexp.span p b).
  - apply andb_true_iff in Ha as [Hc Ha]. rewrite Hc, (IH Ha). reflexivity.
Qed.

Lemma span_stop (p : ascii -> bool) (a b : string) :
  forallb_str p a = true -> headFails p b -> Regexp.span p (a ++ b) = (a, b).
Proof.
  intros Ha Hb. rewrite (span_app p a b Ha).
  destruct b as [|c r]; simpl in *.
  - now rewrite append_nil_r.
  - rewrite Hb. simpl. now rewrite append_nil_r.
Qed.

Lemma stripPrefix_app (lit r : string) : Regexp.stripPrefix lit (lit ++ r) = Some r.
Proof.
  induction lit as [|c lit IH]; simpl; [now destruct r|].
  now rewrite Ascii.eqb_refl.
Qed.

Lemma stripPrefix_some (lit s r : string) :
  Regexp.stripPrefix lit s = Some r -> s = lit ++ r.
Proof.
  revert s. induction lit as [|c lit IH]; intros s; simpl.
  - destruct s; intros Heq; now injection Heq as <-.
  - destruct s as [|d s']; [discriminate|].
    destruct (Ascii.eqb c d) eqn:Hcd; [|discriminate].
    apply Ascii.eqb_eq in Hcd as <-. intros Heq. now rewrite (IH _ Heq).
Qed.

Lemma isEmpty_false (s : string) : s <> EmptyString <-> Regexp.isEmpty s = false.
Proof. destruct s; simpl; split; congruence. Qed.

Lemma some_spec (p : ascii -> bool) (s a b : string) :
  Regexp.some p s = Some (a, b) ->
  s = a ++ b /\ forallb_str p a = true /\ a <> EmptyString /\ headFails p b.
Proof.
  unfold Regexp.some. destruct (Regexp.span p s) as [a' b'] eqn:Hspan.
  destruct (Regexp.isEmpty a') eqn:He; [discriminate|].
  intros Heq. injection Heq as <- <-.
  destruct (span_spec p s a' b' Hspan) as (Hs & Ha & Hb).
  repeat split; try assumption. now apply isEmpty_false.
Qed.

Lemma matchCSQ_sound (s : string) (groups : list string) :
  Regexp.matchCSQ s = Some groups ->
  exists whole n m, groups = [whole; n; m] /\ fragmentAt s n.
Proof.
  unfold Regexp.matchCSQ.
  destruct (Regexp.stripPrefix "+CSQ:" s) as [r|] eqn:Hlit; [|discriminate].
  destruct (Regexp.span Regexp.reSpace r) as [ws r1] eqn:Hws.
  destruct (Regexp.some isDigit r1) as [[n r2]|] eqn:Hn; [|discriminate].
  destruct (Regexp.expect Regexp.COMMA r2) as [r3|] eqn:Hcomma; [|discriminate].
  destruct (Regexp.some isDigit r3) as [[m r4]|] eqn:Hm; [|discriminate].
  intros Heq. injection Heq as <-.
  exists ("+CSQ:" ++ ws ++ n ++ "," ++ m), n, m. split; [reflexivity|].
  apply stripPrefix_some in Hlit.
  destruct (span_spec _ _ _ _ Hws) as (Hr & Hspace & _).
  destruct (some_spec _ _ _ _ Hn) as (Hr1 & Hnd & Hne & _).
  apply stripPrefix_some in Hcomma.
  destruct (some_spec _ _ _ _ Hm) as (Hr3 & Hmd & Hme & _).
  exists ws, m, r4. subst s r r1 r2 r3. repeat split; assumption.
Qed.

Lemma matchCSQ_complete (s n : string) :
  fragmentAt s n ->
  exists whole m, Regexp.matchCSQ s = Some [whole; n; m].
Proof.
  intros (ws & m & post & -> & Hws & Hn & Hne & Hm & Hme).
  unfold Regexp.matchCSQ. rewrite stripPrefix_app.
  assert (Hhead : headFails Regexp.reSpace (n ++ "," ++ m ++ post)).
  { destruct n as [|d n']; [congruence|]. simpl in *.
    apply andb_true_iff in Hn as [Hd _].
    now destruct (isDigit_class d Hd) as (_ & _ & -> & _). }
  rewrite (span_stop _ ws _ Hws Hhead).
  unfold Regexp.some.
  rewrite (span_stop isDigit n ("," ++ m ++ post) Hn eq_refl).
  apply isEmpty_false in Hne. rewrite Hne.
  change (Regexp.expect Regexp.COMMA ("," ++ m ++ post)) with (Some (m ++ post)).
  cbv beta iota.
  rewrite (span_app isDigit m post Hm).
  assert (Hmx : Regexp.isEmpty (m ++ fst (Regexp.span isDigit post)) = false).
  { destruct m; [congruence|reflexivity]. }
  rewrite Hmx. eexists _, _. reflexivity.
Qed.

Lemma fragmentAt_unique (s n n' : string) :
  fragmentAt s n -> fragmentAt s n' -> n = n'.
Proof.
  intros Hn Hn'.
  destruct (matchCSQ_complete s n Hn) as (w & m & Heq).
  destruct (matchCSQ_complete s n' Hn') as (w' & m' & Heq').
  congruence.
Qed.

Lemma append_same_length (a b a' b' : string) :
  a ++ b = a' ++ b' -> String.length a = String.length a' -> a = a' /\ b = b'.
Proof.
  revert a'. induction a as [|c a IH]; intros [|c' a']; simpl; try discriminate.
  - auto.
  - intros Heq Hlen. injection Heq as <- Heq. injection Hlen as Hlen.
    destruct (IH a' Heq Hlen) as [-> ->]. auto.
Qed.

Lemma reCSQ_spec (s : string) :
  (exists whole n m, Regexp.reCSQ s = [whole; n; m] /\ leftmostFragment s n)
  \/ (Regexp.reCSQ s = [] /\ ~ hasFragment s).
Proof.
  unfold Regexp.reCSQ.
  induction s as [|c r IH]; cbn [Regexp.FindStringSubmatch].
  - destruct (Regexp.matchCSQ EmptyString) as [groups|] eqn:Hm.
    + destruct (matchCSQ_sound _ _ Hm) as (whole & n & m & -> & Hfrag).
      left. exists whole, n, m. split; [reflexivity|].
      exists EmptyString, EmptyString. repeat split; [exact Hfrag|].
      simpl. intros; lia.
    + right. split; [reflexivity|].
      intros (pre & rest & n & Heq & Hfrag).
      destruct pre; [|discriminate]. simpl in Heq. subst rest.
      destruct (matchCSQ_complete _ _ Hfrag) as (w & m & Hsome). congruence.
  - destruct (Regexp.matchCSQ (String c r)) as [groups|] eqn:Hm.
    + destruct (matchCSQ_sound _ _ Hm) as (whole & n & m & -> & Hfrag).
      left. exists whole, n, m. split; [reflexivity|].
      exists EmptyString, (String c r). repeat split; [exact Hfrag|].
      simpl. intros; lia.
    + assert (Hhere : forall n, ~ fragmentAt (String c r) n).
      { intros n Hfrag.
        destruct (matchCSQ_complete _ _ Hfrag) as (w & m & Hsome). congruence. }
      destruct IH as [(whole & n & m & Heq & pre & rest & -> & Hfrag & Hleft)
                     |[Heq Hnone]].
      * left. exists whole, n, m. split; [exact Heq|].
        exists (String c pre), rest. repeat split; [exact Hfrag|].
        intros [|c' pre'] rest' n' Hsplit Hlen.
        -- simpl in Hsplit. subst rest'. apply Hhere.
        -- simpl in Hsplit, Hlen. injection Hsplit as <- Hsplit.
           apply (Hleft pre' rest' n' Hsplit). lia.
      * right. split; [exact Heq|].
        intros ([|c' pre] & rest & n & Hsplit & Hfrag).
        -- simpl in Hsplit. subst rest. exact (Hhere n Hfrag).
        -- simpl in Hsplit. injection Hsplit as <- Hsplit.
           apply Hnone. exists pre, rest, n. split; assumption.
Qed.

Lemma leftmostFragment_unique (s n n' : string) :
  leftmostFragment s n -> leftmostFragment s n' -> n = n'.
Proof.
  intros (pre & rest & Hs & Hfrag & Hleft) (pre' & rest' & Hs' & Hfrag' & Hleft').
  destruct (Nat.lt_trichotomy (String.length pre) (String.length pre'))
    as [Hlt|[Heq|Hgt]].
  - exfalso. exact (Hleft' pre rest n Hs Hlt Hfrag).
  - rewrite Hs in Hs'. destruct (append_same_length _ _ _ _ Hs' Heq) as [_ <-].
    exact (fragmentAt_unique rest n n' Hfrag Hfrag').
  - exfalso. exact (Hleft pre' rest' n' Hs' Hgt Hfrag').
Qed.

Section Signal.

Context `{UnicodeOps} `{Device}.

(** C7.  When the module has answered, [getSignalStrength] looks for the
    fragment that starts first.  It returns the first number of that
    fragment when the number fits [int], and 0 with an error when it
    does not; with no fragment in the response it returns 0 with the
    parse error.  The snapshot stores the value the query returned. *)
Theorem getSignalStrength_leftmost_fragment
        (e : EC600N) (t t' : Trace) (response : string) :
  sendATCommand e "AT+CSQ" t = ((response, None), t') ->
  (forall n, leftmostFragment response n ->
             getSignalStrength e t
             = ((if (decimal n <=? maxInt)%Z
                 then (decimal n, None)
                 else (0%Z, Some (Wrap "解析信号强度数值失败" IOError))), t'))
  /\ (hasFragment response -> exists n, leftmostFragment response n)
  /\ (~ hasFragment response ->
      getSignalStrength e t
      = ((0%Z, Some (WithText "无法解析信号强度，响应" response)), t'))
  /\ SignalStrength (fst (fst (CheckNetworkStatus e t)))
     = fst (fst (getSignalStrength e t)).
Proof.
  intros Hsend.
  assert (Hrun : getSignalStrength e t
                 = (let matches := Regexp.reCSQ response in
                    if (List.length matches <? 3)%nat
                    then (0%Z, Some (WithText "无法解析信号强度，响应" response))
                    else match Sscanf_d (nth 1 matches EmptyString) with
                         | None => (0%Z, Some (Wrap "解析信号强度数值失败" IOError))
                         | Some signal => (signal, None)
                         end, t')).
  { unfold getSignalStrength, bind, ret. rewrite Hsend. cbv zeta.
    destruct (List.length (Regexp.reCSQ response) <? 3)%nat; [reflexivity|].
    destruct (Sscanf_d _); reflexivity. }
  destruct (reCSQ_spec response)
    as [(whole & n0 & m & Hre & Hleft0)|[Hre Hnone]].
  - split.
    { intros n Hleft. rewrite (leftmostFragment_unique _ _ _ Hleft Hleft0).
      rewrite Hrun, Hre. cbn [List.length Nat.ltb Nat.leb nth]. unfold Sscanf_d.
      destruct (decimal n0 <=? maxInt)%Z; reflexivity. }
    split; [intros _; now exists n0|].
    split.
    { intros Hno. exfalso. apply Hno.
      destruct Hleft0 as (pre & rest & Hs & Hfrag & _).
      now exists pre, rest, n0. }
    rewrite (CheckNetworkStatus_run e t). reflexivity.
  - split.
    { intros n (pre & rest & Hs & Hfrag & _). exfalso. apply Hnone.
      now exists pre, rest, n. }
    split; [intros Hyes; contradiction|].
    split; [intros _; rewrite Hrun, Hre; reflexivity|].
    rewrite (CheckNetworkStatus_run e t). reflexivity.
Qed.

End Signal.

Lemma getSignalStrength_leftmost_fragment_witness :
  let D := scripted false false false
             [line ""; line "+CSQ: 15,99"; line ""; line "OK"] in
  let response := CRLF ++ "+CSQ: 15,99" ++ CRLF ++ CRLF ++ "OK" ++ CRLF in
  let t' := [OpReadString; OpReadString; OpReadString; OpReadString;
             OpWrite ("AT+CSQ" ++ CRLF); OpFlush] in
  (forall n, leftmostFragment response n ->
             @getSignalStrength D openController []
             = ((if (decimal n <=? maxInt)%Z
                 then (decimal n, None)
                 else (0%Z, Some (Wrap "解析信号强度数值失败" IOError))), t'))
  /\ (hasFragment response -> exists n, leftmostFragment response n)
  /\ (~ hasFragment response ->
      @getSignalStrength D openController []
      = ((0%Z, Some (WithText "无法解析信号强度，响应" response)), t'))
  /\ SignalStrength (fst (fst (@CheckNetworkStatus bytewise D openController [])))
     = fst (fst (@getSignalStrength D openController [])).
Proof.
  intros D response t'.
  apply (@getSignalStrength_leftmost_fragment bytewise D openController [] t' response).
  reflexivity.
Defined.

Lemma getSignalStrength_examples :
  let ask script := fst (@getSignalStrength (scripted false false false script)
                           openController []) in
  ask [line ""; line "+CSQ: 15,99"; line ""; line "OK"] = (15%Z, None)
  /\ ask [line "+CSQ:007,1"; line "OK"] = (7%Z, None)
  /\ ask [line "+CSQ: 1+CSQ: 22,3"; line "OK"] = (22%Z, None)
  /\ ask [line "+CSQ: 15"; line "OK"]
     = (0%Z, Some (WithText "无法解析信号强度，响应"
                     ("+CSQ: 15" ++ CRLF ++ "OK" ++ CRLF)))
  /\ ask [line "+CME ERROR: 10"]
     = (0%Z, Some (WithText "无法解析信号强度，响应" ("+CME ERROR: 10" ++ CRLF))).
Proof. repeat split. Qed.

(** C7, as first stated, fails here: the response below holds a
    well-formed fragment whose first number is 2^63, and
    [getSignalStrength] returns 0 and an error, not the number. *)
Lemma getSignalStrength_overflow :
  let D := scripted false false false
             [line "+CSQ: 9223372036854775808,99"; line "OK"] in
  let response := "+CSQ: 9223372036854775808,99" ++ CRLF ++ "OK" ++ CRLF in
  fst (@sendATCommand D openController "AT+CSQ" []) = (response, None)
  /\ leftmostFragment response "9223372036854775808"
  /\ fst (@getSignalStrength D openController [])
     = (0%Z, Some (Wrap "解析信号强度数值失败" IOError))
  /\ fst (fst (@getSignalStrength D openController []))
     <> decimal "9223372036854775808".
Proof.
  intros D response. split; [reflexivity|]. split.
  - exists EmptyString, response. split; [reflexivity|]. split.
    + exists " ", "99", (CRLF ++ "OK" ++ CRLF). repeat split; discriminate.
    + simpl. intros; lia.
  - split; [reflexivity|]. vm_compute. discriminate.
Qed.

(** * Further properties of the driver *)

(** ** Command exchanges *)

Section Exchange.

Context `{UnicodeOps} `{Device}.

(** X1.  [sendATCommand] fails exactly when the controller has no port,
    or the flush fails, or the flush succeeds and the write fails.  A
    failed flush prevents the write, a failed write prevents the reads,
    and a failure returns the empty text. *)
Theorem sendATCommand_fails_iff (e : EC600N) (command : string) (t : Trace) :
  let r := sendATCommand e command t in
  (snd (fst r) <> None
   <-> port e = None
       \/ flushFails t = true
       \/ (flushFails t = false /\ writeFails (OpFlush :: t) = true))
  /\ match port e with
     | None => r = ((EmptyString, Some errNotConnected), t)
     | Some _ =>
         if flushFails t
         then fst (fst r) = EmptyString /\ snd r = OpFlush :: t
         else if writeFails (OpFlush :: t)
              then fst (fst r) = EmptyString
                   /\ snd r = OpWrite (command ++ CRLF) :: OpFlush :: t
              else exists reads,
                     snd r = (repeat OpReadString reads
                              ++ OpWrite (command ++ CRLF) :: OpFlush :: t)%list
     end.
Proof.
  cbv zeta. unfold sendATCommand, bind, ask, perform, ret.
  destruct (port e) as [pt|].
  - destruct (flushFails t) eqn:Hf; cbn.
    + split; [split; [auto | discriminate]|]. split; reflexivity.
    + destruct (writeFails (OpFlush :: t)) eqn:Hw; cbn.
      * split; [split; [auto | discriminate]|]. split; reflexivity.
      * destruct (readResponse_accepts e (OpWrite (command ++ CRLF) :: OpFlush :: t))
          as (lines & reads & Hr & _).
        rewrite Hr. cbn. split.
        -- split; [congruence|].
           intros [Hp|[Hx|[_ Hx]]]; discriminate.
        -- exists reads. reflexivity.
  - cbn. split; [split; [auto | discriminate]|]. reflexivity.
Qed.

(** Every operation of a command exchange is a flush, a write or a
    read. *)
Lemma sendATCommand_ops (e : EC600N) (command : string) (t : Trace) :
  exists ops,
    snd (sendATCommand e command t) = (ops ++ t)%list
    /\ forallb isExchangeOp ops = true
    /\ commandsWritten ops
       = match port e with
         | None => []
         | Some _ => if flushFails t then [] else [command ++ CRLF]
         end.
Proof.
  unfold sendATCommand, bind, ask, perform, ret.
  destruct (port e) as [pt|].
  - destruct (flushFails t).
    + exists [OpFlush]. repeat split.
    + destruct (writeFails (OpFlush :: t)).
      * exists [OpWrite (command ++ CRLF); OpFlush]. repeat split.
      * destruct (readResponse_accepts e (OpWrite (command ++ CRLF) :: OpFlush :: t))
          as (lines & reads & Hr & _).
        rewrite Hr. cbn [snd].
        exists (repeat OpReadString reads ++ [OpWrite (command ++ CRLF); OpFlush])%list.
        split; [now rewrite <- app_assoc|]. split.
        -- rewrite forallb_app. apply andb_true_iff. split; [|reflexivity].
           clear. induction reads; simpl; auto.
        -- unfold commandsWritten. rewrite rev_app_distr, flat_map_app.
           cbn [rev app flat_map].
           replace (flat_map (fun op : Op => match op with
                                             | OpWrite data => [data]
                                             | _ => []
                                             end) (rev (repeat OpReadString reads)))
             with (@nil string); [reflexivity|].
           rewrite rev_repeat. clear. induction reads; simpl; auto.
  - exists []. repeat split.
Qed.

End Exchange.

Lemma commandsWritten_app (ops t : Trace) :
  commandsWritten (ops ++ t)%list = (commandsWritten t ++ commandsWritten ops)%list.
Proof. unfold commandsWritten. now rewrite rev_app_distr, flat_map_app. Qed.

Lemma unchanged_log (ops t : Trace) : t = (ops ++ t)%list -> ops = [].
Proof. intros Heq. apply (app_inv_tail t). symmetry. exact Heq. Qed.

Section Queries.

Context `{UnicodeOps} `{Device}.

Lemma getSignalStrength_log (e : EC600N) (t : Trace) :
  snd (getSignalStrength e t) = snd (sendATCommand e "AT+CSQ" t).
Proof.
  unfold getSignalStrength, bind, ret.
  destruct (sendATCommand e "AT+CSQ" t) as [[response [err|]] t1]; [reflexivity|].
  destruct (List.length (Regexp.reCSQ response) <? 3)%nat; [reflexivity|].
  destruct (Sscanf_d _); reflexivity.
Qed.

Lemma getNetworkRegistrationStatus_log (e : EC600N) (t : Trace) :
  snd (getNetworkRegistrationStatus e t) = snd (sendATCommand e "AT+CREG?" t).
Proof.
  unfold getNetworkRegistrationStatus, bind, ret.
  destruct (sendATCommand e "AT+CREG?" t) as [[response [err|]] t1]; [reflexivity|].
  destruct (List.length (Regexp.reCREG response) <? 2)%nat; [reflexivity|].
  destruct (networkRegStatusMap _); reflexivity.
Qed.

Lemma getSIMStatus_log (e : EC600N) (t : Trace) :
  snd (getSIMStatus e t) = snd (sendATCommand e "AT+CPIN?" t).
Proof.
  unfold getSIMStatus, bind, ret.
  destruct (sendATCommand e "AT+CPIN?" t) as [[response [err|]] t1]; [reflexivity|].
  repeat match goal with
         | |- context [Contains ?u ?k] => destruct (Contains u k); [reflexivity|]
         end.
  reflexivity.
Qed.

Lemma getOperatorName_log (e : EC600N) (t : Trace) :
  snd (getOperatorName e t) = snd (sendATCommand e "AT+COPS?" t).
Proof.
  unfold getOperatorName, bind, ret.
  destruct (sendATCommand e "AT+COPS?" t) as [[response [err|]] t1]; [reflexivity|].
  destruct (List.length (Regexp.reCOPS response) <? 2)%nat; reflexivity.
Qed.

Lemma getIMEI_log (e : EC600N) (t : Trace) :
  snd (getIMEI e t) = snd (sendATCommand e "AT+CGSN" t).
Proof.
  unfold getIMEI, bind, ret.
  destruct (sendATCommand e "AT+CGSN" t) as [[response [err|]] t1]; [reflexivity|].
  destruct (scanIMEI _); reflexivity.
Qed.

(** How an exchange extends a log that earlier exchanges extended. *)
Lemma exchange_after (e : EC600N) (command : string) (done t : Trace) :
  forallb isExchangeOp done = true ->
  exists ops,
    snd (sendATCommand e command (done ++ t)%list) = (ops ++ t)%list
    /\ forallb isExchangeOp ops = true
    /\ commandsWritten ops
       = (commandsWritten done
          ++ match port e with
             | None => []
             | Some _ => if flushFails (done ++ t)%list then []
                         else [(command ++ CRLF)%string]
             end)%list.
Proof.
  intros Hdone.
  destruct (sendATCommand_ops e command (done ++ t)%list) as (ops & Hlog & Hops & Hw).
  exists (ops ++ done)%list. split; [now rewrite Hlog, app_assoc|]. split.
  - rewrite forallb_app, Hops, Hdone. reflexivity.
  - now rewrite commandsWritten_app, Hw.
Qed.

(** X2.  [CheckNetworkStatus] only flushes, writes and reads: it never
    opens or closes the port, and without a port it does nothing.  On a
    port that accepts every flush it writes the five status commands, in
    the order signal, registration, SIM, operator, IMEI, whatever the
    module answers. *)
Theorem CheckNetworkStatus_commands (e : EC600N) (t : Trace) :
  exists ops,
    snd (CheckNetworkStatus e t) = (ops ++ t)%list
    /\ forallb isExchangeOp ops = true
    /\ (port e = None -> ops = [])
    /\ (port e <> None -> (forall t', flushFails t' = false) ->
        commandsWritten ops
        = ["AT+CSQ" ++ CRLF; "AT+CREG?" ++ CRLF; "AT+CPIN?" ++ CRLF;
           "AT+COPS?" ++ CRLF; "AT+CGSN" ++ CRLF]).
Proof.
  rewrite (CheckNetworkStatus_run e t). cbv zeta. cbn [snd].
  rewrite getIMEI_log, getOperatorName_log, getSIMStatus_log,
    getNetworkRegistrationStatus_log, getSignalStrength_log.
  destruct (exchange_after e "AT+CSQ" [] t eq_refl) as (o1 & L1 & F1 & W1).
  cbn [app] in L1. rewrite L1.
  destruct (exchange_after e "AT+CREG?" o1 t F1) as (o2 & L2 & F2 & W2). rewrite L2.
  destruct (exchange_after e "AT+CPIN?" o2 t F2) as (o3 & L3 & F3 & W3). rewrite L3.
  destruct (exchange_after e "AT+COPS?" o3 t F3) as (o4 & L4 & F4 & W4). rewrite L4.
  destruct (exchange_after e "AT+CGSN" o4 t F4) as (o5 & L5 & F5 & W5). rewrite L5.
  exists o5. split; [reflexivity|]. split; [exact F5|]. split.
  - intros Hport. unfold sendATCommand in L1, L2, L3, L4, L5.
    rewrite Hport in *. cbn in L1, L2, L3, L4, L5.
    apply unchanged_log in L1. subst o1.
    apply unchanged_log in L2. subst o2.
    apply unchanged_log in L3. subst o3.
    apply unchanged_log in L4. subst o4.
    apply unchanged_log in L5. exact L5.
  - intros Hport Hflush.
    destruct (port e) as [pt|]; [|congruence].
    rewrite W5, W4, W3, W2, W1, !Hflush. reflexivity.
Qed.

End Queries.

Lemma CheckNetworkStatus_commands_witness :
  let D := scripted false false false [line "+CSQ: 15,99"; line "OK"] in
  exists ops,
    snd (@CheckNetworkStatus bytewise D openController []) = ops
    /\ commandsWritten ops
       = ["AT+CSQ" ++ CRLF; "AT+CREG?" ++ CRLF; "AT+CPIN?" ++ CRLF;
          "AT+COPS?" ++ CRLF; "AT+CGSN" ++ CRLF].
Proof.
  intros D.
  destruct (@CheckNetworkStatus_commands bytewise D openController [])
    as (ops & Hlog & _ & _ & Hw).
  exists ops. split.
  - rewrite Hlog. apply app_nil_r.
  - apply Hw; [discriminate | reflexivity].
Defined.

(** ** Construction *)

Section Construction.

Context `{UnicodeOps} `{Device}.

(** X3.  With the feature enabled [NewEC600N] opens the port first and,
    after that, only flushes, writes and reads: it never closes the port
    it opened, also when the connection test fails.  It returns either a
    controller or an error, never both and never neither; the controller
    holds the opened port and is connected, and it is returned exactly
    when the port opened, the AT command went out and its answer
    contains OK. *)
Theorem NewEC600N_enabled_outcome (cfg : Config) (t : Trace) :
  Enabled cfg = true ->
  let pt := {| portName := SerialPort cfg; portBaud := BaudRate cfg |} in
  let ec := {| config := cfg; port := Some pt; connected := false |} in
  let t0 := OpOpen (SerialPort cfg) (BaudRate cfg) :: t in
  (exists ops, snd (NewEC600N cfg t) = (ops ++ t0)%list
               /\ forallb isExchangeOp ops = true
               /\ (openFails t = true -> ops = []))
  /\ match fst (NewEC600N cfg t) with
     | (Some e, None) =>
         e = {| config := cfg; port := Some pt; connected := true |}
     | (None, Some _) => True
     | _ => False
     end
  /\ (snd (fst (NewEC600N cfg t)) = None
      <-> openFails t = false
          /\ exists response,
               fst (sendATCommand ec "AT" t0) = (response, None)
               /\ Contains response "OK" = true).
Proof.
  intros Hon pt ec t0.
  unfold NewEC600N, initSerial, testConnection, bind, ask, perform, ret.
  rewrite Hon. cbn [negb config port connected].
  destruct (openFails t) eqn:Hopen.
  - cbn. split; [exists []; repeat split|]. split; [exact I|].
    split; [discriminate|]. intros [Hx _]. discriminate.
  - fold pt. fold ec. fold t0.
    destruct (sendATCommand_ops ec "AT" t0) as (ops & Hlog & Hops & _).
    destruct (sendATCommand ec "AT" t0) as [[response [err|]] t1] eqn:Hsend;
      cbn [fst snd] in *.
    + split; [exists ops; repeat split; [exact Hlog | exact Hops | discriminate]|].
      split; [exact I|]. split; [discriminate|].
      intros (_ & r & Hr & _). discriminate.
    + destruct (Contains response "OK") eqn:Hok; cbn [negb fst snd].
      * split; [exists ops; repeat split; [exact Hlog | exact Hops | discriminate]|].
        split; [reflexivity|]. split; [|reflexivity].
        intros _. split; [reflexivity|]. now exists response.
      * split; [exists ops; repeat split; [exact Hlog | exact Hops | discriminate]|].
        split; [exact I|]. split; [discriminate|].
        intros (_ & r & Hr & Hc). injection Hr as <-. congruence.
Qed.

End Construction.

Lemma NewEC600N_enabled_outcome_witness :
  let D := scripted false false false [line "AT"; line "ERROR"] in
  exists ops,
    snd (@NewEC600N D sampleConfig [])
    = (ops ++ [OpOpen "/dev/ttyUSB0" 115200])%list
    /\ forallb isExchangeOp ops = true
    /\ (@openFails D [] = true -> ops = []).
Proof.
  intros D.
  destruct (@NewEC600N_enabled_outcome D sampleConfig [] eq_refl) as (Hops & _).
  exact Hops.
Defined.

(** ** The call monitor, further *)

Section MonitorInvariants.

Context `{UnicodeOps}.

Lemma classifyLine_never_hangup (l : string) (final : bool) :
  classifyLine l <> Some (CallStatusHangup, final).
Proof.
  unfold classifyLine.
  repeat match goal with
         | |- context [Contains ?u ?k] => destruct (Contains u k); [discriminate|]
         end.
  discriminate.
Qed.

Lemma classifyLine_terminal (l : string) (status : CallStatus) (final : bool) :
  classifyLine l = Some (status, final) -> final = isTerminalStatus status.
Proof.
  unfold classifyLine.
  repeat match goal with
         | |- context [Contains ?u ?k] =>
             destruct (Contains u k);
             [intros Heq; injection Heq as <- <-; reflexivity|]
         end.
  discriminate.
Qed.

(** X4.  The monitor never sends the hang-up status, whatever it reads:
    a call the other side ends is reported as no-carrier. *)
Theorem monitor_never_hangup (e : EC600N) (events : list MonitorEvent) :
  ~ In CallStatusHangup (fst (monitorCallStatus e events)).
Proof.
  unfold monitorCallStatus. destruct (port e) as [pt|].
  - induction events as [|ev rest IH]; [intros []|].
    destruct ev as [l delivered| | |]; cbn [monitorLoop]; try exact IH;
      [|intros []].
    destruct (classifyLine l) as [[status final]|] eqn:Hl; [|exact IH].
    destruct delivered; cbn [negb]; [|intros []].
    destruct final.
    + cbn. intros [->|[]]. exact (classifyLine_never_hangup l true Hl).
    + destruct (monitorLoop rest) as [sent closed]. cbn in *.
      intros [->|Hin]; [exact (classifyLine_never_hangup l false Hl) | auto].
  - cbn. intros [Hx|[]]. discriminate.
Qed.

(** X5.  A terminal status (no-carrier, busy, no-answer) is the last
    status the monitor sends and comes with the closing of the channel:
    every status before the last one is connected or error, and while
    the channel is open no terminal status has been sent. *)
Theorem monitor_terminal_is_last (events : list MonitorEvent) :
  let (sent, closed) := monitorLoop events in
  forallb (fun s => negb (isTerminalStatus s)) (removelast sent) = true
  /\ (closed = false -> forallb (fun s => negb (isTerminalStatus s)) sent = true).
Proof.
  induction events as [|ev rest IH]; [split; reflexivity|].
  destruct ev as [l delivered| | |]; cbn [monitorLoop]; try exact IH;
    [|split; [reflexivity | discriminate]].
  destruct (classifyLine l) as [[status final]|] eqn:Hl; [|exact IH].
  destruct delivered; cbn [negb]; [|split; [reflexivity | discriminate]].
  apply classifyLine_terminal in Hl.
  destruct final.
  - split; [reflexivity | discriminate].
  - destruct (monitorLoop rest) as [sent closed]. destruct IH as [IH1 IH2].
    assert (Hs : negb (isTerminalStatus status) = true) by now rewrite <- Hl.
    split.
    + destruct sent as [|s sent']; [reflexivity|].
      change (removelast (status :: s :: sent'))
        with (status :: removelast (s :: sent')).
      cbn [forallb]. now rewrite Hs, IH1.
    + intros Hc. cbn [forallb]. now rewrite Hs, (IH2 Hc).
Qed.

(** X6.  Events that arrive after the channel is closed change nothing,
    and a cancellation closes the channel without adding a status to
    those already sent. *)
Theorem monitor_closed_is_final (pre post : list MonitorEvent) :
  (snd (monitorLoop pre) = true -> monitorLoop (pre ++ post) = monitorLoop pre)
  /\ monitorLoop (pre ++ EvCancel :: post) = (fst (monitorLoop pre), true).
Proof.
  induction pre as [|ev pre IH]; [split; [discriminate | reflexivity]|].
  destruct IH as [IH1 IH2].
  destruct ev as [l delivered| | |]; cbn [monitorLoop app];
    try (split; [exact IH1 | exact IH2]); [|split; reflexivity].
  destruct (classifyLine l) as [[status final]|];
    [|split; [exact IH1 | exact IH2]].
  destruct delivered; cbn [negb]; [|split; reflexivity].
  destruct final; [split; reflexivity|].
  rewrite IH2. destruct (monitorLoop pre) as [sent closed]. cbn [fst snd] in *.
  split; [|reflexivity].
  intros Hc. now rewrite (IH1 Hc).
Qed.

End MonitorInvariants.

Lemma monitor_closed_is_final_witness :
  @monitorLoop bytewise
    (deliveredLines ["CONNECT"; "NO CARRIER"] ++ deliveredLines ["BUSY"])
  = ([CallStatusConnected; CallStatusNoCarrier], true).
Proof.
  destruct (@monitor_closed_is_final bytewise
              (deliveredLines ["CONNECT"; "NO CARRIER"]) (deliveredLines ["BUSY"]))
    as [Hclosed _].
  rewrite Hclosed; reflexivity.
Defined.

(** ** Substrings *)

Lemma prefix_iff (k s : string) :
  prefix k s = true <-> exists post, s = k ++ post.
Proof.
  revert s. induction k as [|c k IH]; intros s.
  - rewrite prefix_nil. split; [intros _; now exists s | reflexivity].
  - destruct s as [|d s]; simpl.
    + split; [discriminate | intros [post Hx]; discriminate].
    + destruct (ascii_dec c d) as [->|Hne].
      * rewrite IH. split; intros [post Hp]; exists post; [now rewrite Hp|].
        now injection Hp.
      * split; [discriminate|]. intros [post Hp]. injection Hp as Hc _. congruence.
Qed.

Lemma Contains_iff (s k : string) :
  Contains s k = true <-> exists pre post, s = pre ++ k ++ post.
Proof.
  induction s as [|c s IH]; cbn [Contains].
  - rewrite orb_false_r, prefix_iff. split.
    + intros [post Hp]. now exists EmptyString, post.
    + intros ([|x pre] & post & Hp); [now exists post | discriminate].
  - rewrite orb_true_iff, prefix_iff, IH. split.
    + intros [[post Hp]|(pre & post & Hp)].
      * now exists EmptyString, post.
      * exists (String c pre), post. simpl. now rewrite Hp.
    + intros ([|x pre] & post & Hp).
      * left. now exists post.
      * right. simpl in Hp. injection Hp as _ Hp. now exists pre, post.
Qed.

Section SIM.

Context `{UnicodeOps} `{Device}.

(** X7.  Once the module has answered, [getSIMStatus] never returns an
    error, whatever the answer is.  An answer in which READY occurs
    anywhere is reported as ready, so the answer NOT READY is too; SIM
    PIN and SIM PUK are looked for in that order only when READY does not
    occur, and any other answer, an error answer of the module included,
    is reported as unknown. *)
Theorem getSIMStatus_by_substring
        (e : EC600N) (t t' : Trace) (response : string) :
  sendATCommand e "AT+CPIN?" t = ((response, None), t') ->
  exists status,
    getSIMStatus e t = ((status, None), t')
    /\ ((exists pre post, response = pre ++ "READY" ++ post) <-> status = simReady)
    /\ (status = simNeedsPIN
        <-> Contains response "READY" = false
            /\ exists pre post, response = pre ++ "SIM PIN" ++ post)
    /\ (status = simNeedsPUK
        <-> Contains response "READY" = false
            /\ Contains response "SIM PIN" = false
            /\ exists pre post, response = pre ++ "SIM PUK" ++ post)
    /\ (status = statusUnknown
        <-> Contains response "READY" = false
            /\ Contains response "SIM PIN" = false
            /\ Contains response "SIM PUK" = false).
Proof.
  intros Hsend. unfold getSIMStatus, bind, ret. rewrite Hsend.
  assert (Hfin : forall status (r p k : bool),
             Contains response "READY" = r ->
             Contains response "SIM PIN" = p ->
             Contains response "SIM PUK" = k ->
             (r = true <-> status = simReady) ->
             (status = simNeedsPIN <-> r = false /\ p = true) ->
             (status = simNeedsPUK <-> r = false /\ p = false /\ k = true) ->
             (status = statusUnknown <-> r = false /\ p = false /\ k = false) ->
             ((exists pre post, response = pre ++ "READY" ++ post) <-> status = simReady)
             /\ (status = simNeedsPIN
                 <-> Contains response "READY" = false
                     /\ exists pre post, response = pre ++ "SIM PIN" ++ post)
             /\ (status = simNeedsPUK
                 <-> Contains response "READY" = false
                     /\ Contains response "SIM PIN" = false
                     /\ exists pre post, response = pre ++ "SIM PUK" ++ post)
             /\ (status = statusUnknown
                 <-> Contains response "READY" = false
                     /\ Contains response "SIM PIN" = false
                     /\ Contains response "SIM PUK" = false)).
  { intros status r p k Hr Hp Hk H1 H2 H3 H4.
    rewrite <- !Contains_iff, Hr, Hp, Hk. tauto. }
  destruct (Contains response "READY") eqn:Hr.
  { exists simReady. split; [reflexivity|].
    apply (Hfin simReady true (Contains response "SIM PIN")
                (Contains response "SIM PUK")); try reflexivity;
      split; try discriminate; try tauto; intros Hx; decompose [and] Hx; discriminate. }
  destruct (Contains response "SIM PIN") eqn:Hp.
  { exists simNeedsPIN. split; [reflexivity|].
    apply (Hfin simNeedsPIN false true (Contains response "SIM PUK"));
      try reflexivity;
      split; try discriminate; try tauto; intros Hx; decompose [and] Hx; discriminate. }
  destruct (Contains response "SIM PUK") eqn:Hk.
  { exists simNeedsPUK. split; [reflexivity|].
    apply (Hfin simNeedsPUK false false true); try reflexivity;
      split; try discriminate; try tauto; intros Hx; decompose [and] Hx; discriminate. }
  exists statusUnknown. split; [reflexivity|].
  apply (Hfin statusUnknown false false false); try reflexivity;
    split; try discriminate; try tauto; intros Hx; decompose [and] Hx; discriminate.
Qed.

End SIM.

Lemma getSIMStatus_by_substring_witness :
  let D := scripted false false false [line "+CPIN: NOT READY"; line "OK"] in
  fst (@getSIMStatus D openController []) = (simReady, None).
Proof.
  intros D.
  destruct (@getSIMStatus_by_substring D openController []
              [OpReadString; OpReadString; OpWrite ("AT+CPIN?" ++ CRLF); OpFlush]
              ("+CPIN: NOT READY" ++ CRLF ++ "OK" ++ CRLF) eq_refl)
    as (status & Hrun & Hready & _).
  rewrite Hrun. cbn [fst]. f_equal. apply Hready.
  exists "+CPIN: NOT ", (CRLF ++ "OK" ++ CRLF). reflexivity.
Defined.

(** ** Registration state and operator name *)

(** [FindStringSubmatch] returns the groups of the anchored match at the
    first position that has one. *)
Lemma FindStringSubmatch_spec (anchored : string -> option (list string)) (s : string) :
  (exists pre rest groups,
      s = pre ++ rest
      /\ anchored rest = Some groups
      /\ Regexp.FindStringSubmatch anchored s = groups
      /\ forall pre' rest',
           s = pre' ++ rest' ->
           (String.length pre' < String.length pre)%nat ->
           anchored rest' = None)
  \/ (Regexp.FindStringSubmatch anchored s = []
      /\ forall pre rest, s = pre ++ rest -> anchored rest = None).
Proof.
  induction s as [|c r IH]; cbn [Regexp.FindStringSubmatch].
  - destruct (anchored EmptyString) as [groups|] eqn:Hm.
    + left. exists EmptyString, EmptyString, groups.
      repeat split; [exact Hm|]. simpl. intros; lia.
    + right. split; [reflexivity|].
      intros [|x pre] rest Heq; [|discriminate]. simpl in Heq. now subst rest.
  - destruct (anchored (String c r)) as [groups|] eqn:Hm.
    + left. exists EmptyString, (String c r), groups.
      repeat split; [exact Hm|]. simpl. intros; lia.
    + destruct IH as [(pre & rest & groups & -> & Hrest & Hfind & Hleft)
                     |[Hfind Hnone]].
      * left. exists (String c pre), rest, groups.
        repeat split; [exact Hrest | exact Hfind|].
        intros [|x pre'] rest' Heq Hlen.
        -- simpl in Heq. now subst rest'.
        -- simpl in Heq, Hlen. injection Heq as <- Heq.
           apply (Hleft pre' rest' Heq). lia.
      * right. split; [exact Hfind|].
        intros [|x pre] rest Heq.
        -- simpl in Heq. now subst rest.
        -- simpl in Heq. injection Heq as <- Heq. exact (Hnone pre rest Heq).
Qed.

Lemma matchCREG_sound (s : string) (groups : list string) :
  Regexp.matchCREG s = Some groups ->
  exists whole st, groups = [whole; st] /\ fragmentCREG s st.
Proof.
  unfold Regexp.matchCREG.
  destruct (Regexp.stripPrefix "+CREG:" s) as [r|] eqn:Hlit; [|discriminate].
  destruct (Regexp.span Regexp.reSpace r) as [ws r1] eqn:Hws.
  destruct (Regexp.some isDigit r1) as [[n r2]|] eqn:Hn; [|discriminate].
  destruct (Regexp.expect Regexp.COMMA r2) as [r3|] eqn:Hcomma; [|discriminate].
  destruct (Regexp.some isDigit r3) as [[st r4]|] eqn:Hst; [|discriminate].
  intros Heq. injection Heq as <-.
  exists ("+CREG:" ++ ws ++ n ++ "," ++ st), st. split; [reflexivity|].
  apply stripPrefix_some in Hlit.
  destruct (span_spec _ _ _ _ Hws) as (Hr & Hspace & _).
  destruct (some_spec _ _ _ _ Hn) as (Hr1 & Hnd & Hne & _).
  apply stripPrefix_some in Hcomma.
  destruct (some_spec _ _ _ _ Hst) as (Hr3 & Hsd & Hse & Hpost).
  exists ws, n, r4. subst s r r1 r2 r3. repeat split; assumption.
Qed.

Lemma matchCREG_complete (s st : string) :
  fragmentCREG s st ->
  exists whole, Regexp.matchCREG s = Some [whole; st].
Proof.
  intros (ws & n & post & -> & Hws & Hn & Hne & Hst & Hse & Hpost).
  unfold Regexp.matchCREG. rewrite stripPrefix_app.
  assert (Hhead : headFails Regexp.reSpace (n ++ "," ++ st ++ post)).
  { destruct n as [|d n']; [congruence|]. simpl in *.
    apply andb_true_iff in Hn as [Hd _].
    now destruct (isDigit_class d Hd) as (_ & _ & -> & _). }
  rewrite (span_stop _ ws _ Hws Hhead).
  unfold Regexp.some.
  rewrite (span_stop isDigit n ("," ++ st ++ post) Hn eq_refl).
  apply isEmpty_false in Hne. rewrite Hne.
  change (Regexp.expect Regexp.COMMA ("," ++ st ++ post)) with (Some (st ++ post)).
  cbv beta iota.
  rewrite (span_stop isDigit st post Hst Hpost).
  apply isEmpty_false in Hse. rewrite Hse. eexists. reflexivity.
Qed.

Lemma leftmostOf_unique (frag : string -> string -> Prop) (s x y : string) :
  (forall rest a b, frag rest a -> frag rest b -> a = b) ->
  leftmostOf frag s x -> leftmostOf frag s y -> x = y.
Proof.
  intros Huniq (pre & rest & Hs & Hfrag & Hleft) (pre' & rest' & Hs' & Hfrag' & Hleft').
  destruct (Nat.lt_trichotomy (String.length pre) (String.length pre'))
    as [Hlt|[Heq|Hgt]].
  - exfalso. exact (Hleft' pre rest x Hs Hlt Hfrag).
  - rewrite Hs in Hs'. destruct (append_same_length _ _ _ _ Hs' Heq) as [_ <-].
    exact (Huniq rest x y Hfrag Hfrag').
  - exfalso. exact (Hleft pre' rest' y Hs' Hgt Hfrag').
Qed.

Lemma reCREG_spec (s : string) :
  (exists whole st, Regexp.reCREG s = [whole; st] /\ leftmostOf fragmentCREG s st)
  \/ (Regexp.reCREG s = [] /\ ~ occursIn fragmentCREG s).
Proof.
  unfold Regexp.reCREG.
  destruct (FindStringSubmatch_spec Regexp.matchCREG s)
    as [(pre & rest & groups & Hs & Hm & Hfind & Hleft)|[Hfind Hnone]].
  - destruct (matchCREG_sound _ _ Hm) as (whole & st & -> & Hfrag).
    left. exists whole, st. split; [exact Hfind|].
    exists pre, rest. repeat split; [exact Hs | exact Hfrag|].
    intros pre' rest' st' Hs' Hlen Hfrag'.
    destruct (matchCREG_complete _ _ Hfrag') as (w & Hsome).
    rewrite (Hleft pre' rest' Hs' Hlen) in Hsome. discriminate.
  - right. split; [exact Hfind|].
    intros (pre & rest & st & Hs & Hfrag).
    destruct (matchCREG_complete _ _ Hfrag) as (w & Hsome).
    rewrite (Hnone pre rest Hs) in Hsome. discriminate.
Qed.

Lemma networkRegStatusMap_codes (code : string) :
  networkRegStatusMap code = None
  <-> ~ In code ["0"; "1"; "2"; "3"; "5"].
Proof.
  unfold networkRegStatusMap.
  repeat match goal with
         | |- context [String.eqb code ?k] =>
             destruct (String.eqb_spec code k) as [->|?];
             [split; [discriminate | intros Hx; exfalso; apply Hx; simpl; tauto]|]
         end.
  split; [|reflexivity]. intros _ [Hx|[Hx|[Hx|[Hx|[Hx|[]]]]]]; congruence.
Qed.

Section Registration.

Context `{UnicodeOps} `{Device}.

(** X8.  Once the module has answered, [getNetworkRegistrationStatus]
    takes the registration fragment that starts first and never fails on
    its state code: the codes 0, 1, 2, 3 and 5 give their texts and
    every other run of digits, such as 4, 01 or 10, gives the unknown
    state with a nil error.  Only an answer without a fragment is an
    error, returned with the empty text. *)
Theorem getNetworkRegistrationStatus_by_code
        (e : EC600N) (t t' : Trace) (response : string) :
  sendATCommand e "AT+CREG?" t = ((response, None), t') ->
  (forall st, leftmostOf fragmentCREG response st ->
              getNetworkRegistrationStatus e t = ((registrationText st, None), t')
              /\ (~ In st ["0"; "1"; "2"; "3"; "5"] ->
                  registrationText st = statusUnknown))
  /\ (occursIn fragmentCREG response ->
      exists st, leftmostOf fragmentCREG response st)
  /\ (~ occursIn fragmentCREG response ->
      getNetworkRegistrationStatus e t
      = ((EmptyString, Some (WithText "无法解析注册状态，响应" response)), t'))
  /\ registrationText "0" = regUnregistered
  /\ registrationText "1" = regHome
  /\ registrationText "2" = regSearching
  /\ registrationText "3" = regDenied
  /\ registrationText "5" = regRoaming.
Proof.
  intros Hsend.
  assert (Huniq : forall rest a b, fragmentCREG rest a -> fragmentCREG rest b -> a = b).
  { intros rest a b Ha Hb.
    destruct (matchCREG_complete _ _ Ha) as (w & Hw).
    destruct (matchCREG_complete _ _ Hb) as (w' & Hw'). congruence. }
  assert (Hrun : forall whole st,
             Regexp.reCREG response = [whole; st] ->
             getNetworkRegistrationStatus e t = ((registrationText st, None), t')).
  { intros whole st Hre. unfold getNetworkRegistrationStatus, bind, ret.
    rewrite Hsend, Hre. cbn [List.length Nat.ltb Nat.leb nth].
    unfold registrationText. destruct (networkRegStatusMap st); reflexivity. }
  destruct (reCREG_spec response) as [(whole & st0 & Hre & Hleft0)|[Hre Hnone]].
  - split.
    { intros st Hleft. rewrite (leftmostOf_unique _ _ _ _ Huniq Hleft Hleft0).
      split; [exact (Hrun whole st0 Hre)|].
      intros Hout. unfold registrationText.
      now rewrite (proj2 (networkRegStatusMap_codes st0) Hout). }
    split; [intros _; now exists st0|].
    split; [|repeat split].
    intros Hno. exfalso. apply Hno.
    destruct Hleft0 as (pre & rest & Hs & Hfrag & _). now exists pre, rest, st0.
  - split.
    { intros st (pre & rest & Hs & Hfrag & _). exfalso. apply Hnone.
      now exists pre, rest, st. }
    split; [intros Hyes; contradiction|].
    split; [|repeat split].
    intros _. unfold getNetworkRegistrationStatus, bind, ret.
    rewrite Hsend, Hre. reflexivity.
Qed.

End Registration.

Lemma getNetworkRegistrationStatus_by_code_witness :
  let D := scripted false false false [line "+CREG: 0,4"; line "OK"] in
  fst (@getNetworkRegistrationStatus D openController []) = (statusUnknown, None).
Proof.
  intros D.
  destruct (@getNetworkRegistrationStatus_by_code D openController []
              [OpReadString; OpReadString; OpWrite ("AT+CREG?" ++ CRLF); OpFlush]
              ("+CREG: 0,4" ++ CRLF ++ "OK" ++ CRLF) eq_refl)
    as (Hcode & _).
  destruct (Hcode "4") as [Hrun _].
  - exists EmptyString, ("+CREG: 0,4" ++ CRLF ++ "OK" ++ CRLF).
    split; [reflexivity|]. split.
    + exists " ", "0", (CRLF ++ "OK" ++ CRLF). repeat split; discriminate.
    + simpl. intros; lia.
  - rewrite Hrun. reflexivity.
Defined.

Lemma notQuote_absent (name : string) :
  forallb_str Regexp.notQuote name = true -> memByte Regexp.QUOTE name = false.
Proof.
  induction name as [|c r IH]; [reflexivity|]. cbn [memByte forallb_str].
  intros Hall. apply andb_true_iff in Hall as [Hc Hr].
  unfold Regexp.notQuote in Hc. apply negb_true_iff in Hc.
  rewrite Ascii.eqb_sym, Hc. exact (IH Hr).
Qed.

Lemma matchCOPS_sound (s : string) (groups : list string) :
  Regexp.matchCOPS s = Some groups ->
  exists whole name ws n m post,
    groups = [whole; name]
    /\ s = "+COPS:" ++ ws ++ n ++ "," ++ m ++ ","
           ++ str1 Regexp.QUOTE ++ name ++ str1 Regexp.QUOTE ++ post
    /\ name <> EmptyString
    /\ forallb_str Regexp.notQuote name = true
    /\ forallb_str isDigit n = true /\ forallb_str isDigit m = true.
Proof.
  unfold Regexp.matchCOPS.
  destruct (Regexp.stripPrefix "+COPS:" s) as [r|] eqn:Hlit; [|discriminate].
  destruct (Regexp.span Regexp.reSpace r) as [ws r1] eqn:Hws.
  destruct (Regexp.some isDigit r1) as [[n r2]|] eqn:Hn; [|discriminate].
  destruct (Regexp.expect Regexp.COMMA r2) as [r3|] eqn:Hcomma; [|discriminate].
  destruct (Regexp.some isDigit r3) as [[m r4]|] eqn:Hm; [|discriminate].
  destruct (Regexp.stripPrefix (String Regexp.COMMA (str1 Regexp.QUOTE)) r4)
    as [r5|] eqn:Hq; [|discriminate].
  destruct (Regexp.some Regexp.notQuote r5) as [[name r6]|] eqn:Hname; [|discriminate].
  destruct (Regexp.expect Regexp.QUOTE r6) as [r7|] eqn:Hq2; [|discriminate].
  intros Heq. injection Heq as <-.
  apply stripPrefix_some in Hlit, Hcomma, Hq, Hq2.
  destruct (span_spec _ _ _ _ Hws) as (Hr & _ & _).
  destruct (some_spec _ _ _ _ Hn) as (Hr1 & Hnd & _ & _).
  destruct (some_spec _ _ _ _ Hm) as (Hr3 & Hmd & _ & _).
  destruct (some_spec _ _ _ _ Hname) as (Hr5 & Hnq & Hne & _).
  eexists _, name, ws, n, m, r7. split; [reflexivity|].
  split; [subst s r r1 r2 r3 r4 r5 r6; reflexivity|].
  repeat split; assumption.
Qed.

Section Operator.

Context `{UnicodeOps} `{Device}.

(** X9.  Once the module has answered, an operator name that
    [getOperatorName] returns is never empty, holds no quotation mark and
    stands in the answer between two quotation marks, after the literal,
    two numbers and their commas; when it reports an error instead, the
    name returned is empty. *)
Theorem getOperatorName_between_quotes
        (e : EC600N) (t t' : Trace) (response : string) :
  sendATCommand e "AT+COPS?" t = ((response, None), t') ->
  match getOperatorName e t with
  | ((name, None), t1) =>
      t1 = t'
      /\ name <> EmptyString
      /\ memByte Regexp.QUOTE name = false
      /\ exists pre ws n m post,
           response = pre ++ "+COPS:" ++ ws ++ n ++ "," ++ m ++ ","
                      ++ str1 Regexp.QUOTE ++ name ++ str1 Regexp.QUOTE ++ post
           /\ forallb_str isDigit n = true /\ forallb_str isDigit m = true
  | ((name, Some err), t1) =>
      t1 = t'
      /\ name = EmptyString
      /\ err = WithText "无法解析运营商名称" response
  end.
Proof.
  intros Hsend. unfold getOperatorName, bind, ret. rewrite Hsend.
  unfold Regexp.reCOPS.
  destruct (FindStringSubmatch_spec Regexp.matchCOPS response)
    as [(pre & rest & groups & Hs & Hm & Hfind & _)|[Hfind _]]; rewrite Hfind.
  - destruct (matchCOPS_sound _ _ Hm)
      as (whole & name & ws & n & m & post & -> & Hrest & Hne & Hnq & Hn & Hmd).
    cbn [List.length Nat.ltb Nat.leb nth].
    split; [reflexivity|]. split; [exact Hne|].
    split; [exact (notQuote_absent name Hnq)|].
    exists pre, ws, n, m, post. subst response rest. repeat split; assumption.
  - cbn. repeat split.
Qed.

End Operator.

Lemma getOperatorName_between_quotes_witness :
  let D := scripted false false false
             [Line ("+COPS: 0,0," ++ str1 Regexp.QUOTE ++ "CHINA MOBILE"
                    ++ str1 Regexp.QUOTE ++ ",7" ++ CRLF); line "OK"] in
  fst (@getOperatorName D openController []) = ("CHINA MOBILE", None).
Proof.
  intros D.
  assert (Hspec := @getOperatorName_between_quotes D openController []
            [OpReadString; OpReadString; OpWrite ("AT+COPS?" ++ CRLF); OpFlush]
            ("+COPS: 0,0," ++ str1 Regexp.QUOTE ++ "CHINA MOBILE"
             ++ str1 Regexp.QUOTE ++ ",7" ++ CRLF ++ "OK" ++ CRLF) eq_refl).
  reflexivity.
Defined.

(** ** Calls with a monitor *)

Section MonitoredCalls.

Context `{UnicodeOps} `{Device}.

Lemma monitorReads_ops (n : nat) :
  forall t, exists ops,
    snd (WithMonitor.monitorReads n t) = (ops ++ t)%list
    /\ forallb isExchangeOp ops = true
    /\ commandsWritten ops = [].
Proof.
  induction n as [|n IH]; intros t; [exists []; repeat split|].
  cbn [WithMonitor.monitorReads]. unfold bind, ask, perform, ret.
  destruct (IH (OpReadString :: t)) as (ops & Hlog & Hex & Hcmd).
  destruct (WithMonitor.monitorReads n (OpReadString :: t)) as [rest t1].
  cbn [snd] in *. subst t1.
  exists (ops ++ [OpReadString])%list. split; [now rewrite <- app_assoc|].
  split; [rewrite forallb_app, Hex; reflexivity|].
  rewrite commandsWritten_app, Hcmd. reflexivity.
Qed.

Lemma WithMonitor_readLoop_ops (budget : nat) :
  forall ahead response t, exists ops,
    snd (WithMonitor.readLoop budget ahead response t) = (ops ++ t)%list
    /\ forallb isExchangeOp ops = true
    /\ commandsWritten ops = [].
Proof.
  induction budget as [|budget IH]; intros ahead response t;
    [exists []; repeat split|].
  cbn [WithMonitor.readLoop]. unfold bind, ask, perform, ret.
  destruct (monitorReads_ops (hd 0%nat ahead) t) as (ops0 & Hlog0 & Hex0 & Hcmd0).
  destruct (WithMonitor.monitorReads (hd 0%nat ahead) t) as [taken t0].
  cbn [snd] in Hlog0. subst t0.
  assert (Hone : exists ops,
             (OpReadString :: ops0 ++ t = ops ++ t)%list
             /\ forallb isExchangeOp ops = true /\ commandsWritten ops = []).
  { exists (OpReadString :: ops0). repeat split.
    - cbn [forallb isExchangeOp]. exact Hex0.
    - change (OpReadString :: ops0) with ([OpReadString] ++ ops0)%list.
      rewrite commandsWritten_app, Hcmd0. reflexivity. }
  destruct (readString (ops0 ++ t)%list) as [l|partial]; [|exact Hone].
  destruct (isSentinel l); [exact Hone|].
  destruct (IH (tl ahead) (response ++ l) (OpReadString :: ops0 ++ t)%list)
    as (ops1 & Hlog1 & Hex1 & Hcmd1).
  destruct (WithMonitor.readLoop budget (tl ahead) (response ++ l)
              (OpReadString :: ops0 ++ t)%list) as [[response' more] t1].
  cbn [snd] in *. subst t1.
  exists (ops1 ++ OpReadString :: ops0)%list.
  split; [now rewrite <- app_assoc|].
  split; [rewrite forallb_app, Hex1; cbn [forallb isExchangeOp]; exact Hex0|].
  change (ops1 ++ OpReadString :: ops0)%list
    with (ops1 ++ [OpReadString] ++ ops0)%list.
  rewrite !commandsWritten_app, Hcmd0, Hcmd1. reflexivity.
Qed.

Lemma WithMonitor_sendATCommand_ops (e : EC600N) (command : string)
      (ahead : list nat) (t : Trace) :
  exists ops,
    snd (WithMonitor.sendATCommand e command ahead t) = (ops ++ t)%list
    /\ forallb isExchangeOp ops = true
    /\ (commandsWritten ops = [] \/ commandsWritten ops = [command ++ CRLF]).
Proof.
  unfold WithMonitor.sendATCommand, WithMonitor.readResponse, bind, ask, perform, ret.
  destruct (port e) as [pt|]; [|exists []; repeat split; now left].
  destruct (monitorReads_ops (hd 0%nat ahead) t) as (ops0 & Hlog0 & Hex0 & Hcmd0).
  destruct (WithMonitor.monitorReads (hd 0%nat ahead) t) as [taken t0].
  cbn [snd] in Hlog0. subst t0.
  destruct (flushFails (ops0 ++ t)%list).
  { exists (OpFlush :: ops0). repeat split; [exact Hex0|]. left.
    change (OpFlush :: ops0) with ([OpFlush] ++ ops0)%list.
    rewrite commandsWritten_app, Hcmd0. reflexivity. }
  destruct (monitorReads_ops (hd 0%nat (tl ahead)) (OpFlush :: ops0 ++ t)%list)
    as (ops1 & Hlog1 & Hex1 & Hcmd1).
  destruct (WithMonitor.monitorReads (hd 0%nat (tl ahead)) (OpFlush :: ops0 ++ t)%list)
    as [taken' t1].
  cbn [snd] in Hlog1. subst t1.
  assert (Hwritten : commandsWritten
                       (OpWrite (command ++ CRLF) :: ops1 ++ OpFlush :: ops0)%list
                     = [command ++ CRLF]).
  { change (OpWrite (command ++ CRLF) :: ops1 ++ OpFlush :: ops0)%list
      with ([OpWrite (command ++ CRLF)] ++ ops1 ++ [OpFlush] ++ ops0)%list.
    rewrite !commandsWritten_app, Hcmd0, Hcmd1. reflexivity. }
  assert (Hexch : forallb isExchangeOp
                    (OpWrite (command ++ CRLF) :: ops1 ++ OpFlush :: ops0)%list = true).
  { cbn [forallb isExchangeOp]. rewrite forallb_app, Hex1.
    cbn [forallb isExchangeOp]. exact Hex0. }
  destruct (writeFails (ops1 ++ OpFlush :: ops0 ++ t)%list).
  { exists (OpWrite (command ++ CRLF) :: ops1 ++ OpFlush :: ops0)%list.
    split; [cbn [snd app]; now rewrite <- app_assoc|].
    split; [exact Hexch|]. right. exact Hwritten. }
  destruct (WithMonitor_readLoop_ops MaxResponseLines (tl (tl ahead)) EmptyString
              (OpWrite (command ++ CRLF) :: ops1 ++ OpFlush :: ops0 ++ t)%list)
    as (ops2 & Hlog2 & Hex2 & Hcmd2).
  destruct (WithMonitor.readLoop MaxResponseLines (tl (tl ahead)) EmptyString
              (OpWrite (command ++ CRLF) :: ops1 ++ OpFlush :: ops0 ++ t)%list)
    as [[response more] t2].
  cbn [snd] in *. subst t2.
  exists (ops2 ++ OpWrite (command ++ CRLF) :: ops1 ++ OpFlush :: ops0)%list.
  split; [rewrite <- !app_assoc; cbn [app]; now rewrite <- !app_assoc|].
  split; [rewrite forallb_app, Hex2; exact Hexch|].
  right. rewrite commandsWritten_app, Hcmd2, Hwritten. reflexivity.
Qed.

Lemma WithMonitor_readLoop_idle (budget : nat) :
  forall ahead response t,
  Forall (fun n => n = 0%nat) ahead ->
  WithMonitor.readLoop budget ahead response t
  = ((fst (readLoop budget response t), []), snd (readLoop budget response t)).
Proof.
  induction budget as [|budget IH]; intros ahead response t Hidle; [reflexivity|].
  assert (Hhd : hd 0%nat ahead = 0%nat)
    by (destruct Hidle; [reflexivity | assumption]).
  assert (Htl : Forall (fun n => n = 0%nat) (tl ahead))
    by (destruct Hidle; [constructor | assumption]).
  cbn [WithMonitor.readLoop readLoop]. rewrite Hhd.
  unfold bind, ask, perform, ret. cbn [WithMonitor.monitorReads]. unfold ret.
  destruct (readString t) as [l|partial]; [|reflexivity].
  destruct (isSentinel l); [reflexivity|].
  rewrite (IH (tl ahead) (response ++ l) (OpReadString :: t) Htl).
  destruct (readLoop budget (response ++ l) (OpReadString :: t)) as [r t1].
  reflexivity.
Qed.

Lemma WithMonitor_sendATCommand_idle (e : EC600N) (command : string)
      (ahead : list nat) (t : Trace) :
  Forall (fun n => n = 0%nat) ahead ->
  WithMonitor.sendATCommand e command ahead t
  = ((fst (sendATCommand e command t), []), snd (sendATCommand e command t)).
Proof.
  intros Hidle.
  assert (Hhd : hd 0%nat ahead = 0%nat)
    by (destruct Hidle; [reflexivity | assumption]).
  assert (Htl : Forall (fun n => n = 0%nat) (tl ahead))
    by (destruct Hidle; [constructor | assumption]).
  assert (Hhd' : hd 0%nat (tl ahead) = 0%nat)
    by (destruct Htl; [reflexivity | assumption]).
  assert (Htl' : Forall (fun n => n = 0%nat) (tl (tl ahead)))
    by (destruct Htl; [constructor | assumption]).
  unfold WithMonitor.sendATCommand, sendATCommand, WithMonitor.readResponse,
    readResponse.
  destruct (port e) as [pt|]; [|reflexivity].
  rewrite Hhd, Hhd'. unfold bind, ask, perform, ret.
  cbn [WithMonitor.monitorReads]. unfold ret.
  destruct (flushFails t); [reflexivity|].
  destruct (writeFails (OpFlush :: t)); [reflexivity|].
  rewrite (WithMonitor_readLoop_idle MaxResponseLines (tl (tl ahead)) EmptyString
             (OpWrite (command ++ CRLF) :: OpFlush :: t) Htl').
  destruct (readLoop MaxResponseLines EmptyString
              (OpWrite (command ++ CRLF) :: OpFlush :: t)) as [r t1].
  reflexivity.
Qed.

(** With a monitor that takes nothing the call is [MakeCallWithMonitor]. *)
Lemma WithMonitor_MakeCallWithMonitor_idle (e : EC600N) (phoneNumber : string)
      (ahead : list nat) (t : Trace) :
  Forall (fun n => n = 0%nat) ahead ->
  WithMonitor.MakeCallWithMonitor e phoneNumber ahead t
  = ((fst (MakeCallWithMonitor e phoneNumber t), []),
     snd (MakeCallWithMonitor e phoneNumber t)).
Proof.
  intros Hidle. unfold WithMonitor.MakeCallWithMonitor, MakeCallWithMonitor.
  destruct (port e) as [pt|]; [|reflexivity].
  destruct (String.eqb (cleanPhoneNumber phoneNumber) EmptyString); [reflexivity|].
  unfold bind, ret.
  rewrite (WithMonitor_sendATCommand_idle e _ ahead t Hidle).
  destruct (sendATCommand e (dialCommand (cleanPhoneNumber phoneNumber)) t)
    as [[response [err|]] t1]; cbn [fst snd]; [reflexivity|].
  destruct (Contains response "OK" || Contains response "CONNECT"); reflexivity.
Qed.

Lemma WithMonitor_readLoop_after_one (budget : nat) (response : string) (t : Trace) :
  WithMonitor.readLoop (S budget) [1%nat] response t
  = ((fst (readLoop (S budget) response (OpReadString :: t)), [readString t]),
     snd (readLoop (S budget) response (OpReadString :: t))).
Proof.
  cbn [WithMonitor.readLoop readLoop hd tl WithMonitor.monitorReads].
  unfold bind, ask, perform, ret.
  destruct (readString (OpReadString :: t)) as [l|partial]; [|reflexivity].
  destruct (isSentinel l); [reflexivity|].
  rewrite (WithMonitor_readLoop_idle budget [] (response ++ l)
             (OpReadString :: OpReadString :: t) (Forall_nil _)).
  destruct (readLoop budget (response ++ l) (OpReadString :: OpReadString :: t))
    as [r t1].
  reflexivity.
Qed.

(** X10.  [MakeCallWithMonitor] starts the monitor, before it dials,
    exactly when there is a port and the cleaned number is not empty;
    it hands the status channel back exactly when it returns no error,
    and cancels a monitor it started exactly when it does not hand it
    back.  Whatever the readers of the monitor take meanwhile, the call
    only flushes, writes and reads, and the one command it can write is
    the dial command.  It returns what [MakeCall] returns as long as
    the monitor takes nothing; but the monitor can take the answer:
    when the port answers the dial with a line that holds OK and a
    reader of the monitor has it, the call reads on, and if what it
    reads itself holds neither OK nor CONNECT, the call [MakeCall]
    accepts is reported as failed and the monitor is cancelled. *)
Theorem MakeCallWithMonitor_shares_port
        (e : EC600N) (phoneNumber : string) (ahead : list nat) (t : Trace) :
  let number := cleanPhoneNumber phoneNumber in
  let r := WithMonitor.MakeCallWithMonitor e phoneNumber ahead t in
  let call := fst (fst r) in
  monitor call = match callErr call with None => true | Some _ => false end
  /\ spawned call = match port e with
                    | None => false
                    | Some _ => negb (String.eqb number EmptyString)
                    end
  /\ cancelled call = spawned call && negb (monitor call)
  /\ (exists ops,
         snd r = (ops ++ t)%list
         /\ forallb isExchangeOp ops = true
         /\ (commandsWritten ops = []
             \/ commandsWritten ops = [dialCommand number ++ CRLF])
         /\ (spawned call = false -> ops = []))
  /\ (Forall (fun n => n = 0%nat) ahead ->
      callErr call = fst (MakeCall e phoneNumber t)
      /\ snd (fst r) = []
      /\ snd r = snd (MakeCall e phoneNumber t))
  /\ (port e <> None ->
      number <> EmptyString ->
      flushFails t = false ->
      writeFails (OpFlush :: t) = false ->
      forall answer,
        let written := (OpWrite (dialCommand number ++ CRLF) :: OpFlush :: t)%list in
        let own := fst (readLoop MaxResponseLines EmptyString (OpReadString :: written)) in
        readString written = Line answer ->
        Contains answer "OK" = true ->
        Contains own "OK" || Contains own "CONNECT" = false ->
        fst (MakeCall e phoneNumber t) = None
        /\ fst (WithMonitor.MakeCallWithMonitor e phoneNumber [0; 0; 1]%nat t)
           = ({| monitor := false; spawned := true; cancelled := true;
                 callErr := Some (WithText "拨打电话失败，响应" own) |},
              [Line answer])).
Proof.
  cbv zeta.
  split; [|split; [|split; [|split; [|split]]]].
  - unfold WithMonitor.MakeCallWithMonitor.
    destruct (port e) as [pt|]; [|reflexivity].
    destruct (String.eqb (cleanPhoneNumber phoneNumber) EmptyString); [reflexivity|].
    unfold bind, ret.
    destruct (WithMonitor.sendATCommand e _ ahead t) as [[[response [err|]] taken] t1];
      [reflexivity|].
    destruct (Contains response "OK" || Contains response "CONNECT"); reflexivity.
  - unfold WithMonitor.MakeCallWithMonitor.
    destruct (port e) as [pt|]; [|reflexivity].
    destruct (String.eqb (cleanPhoneNumber phoneNumber) EmptyString); [reflexivity|].
    unfold bind, ret.
    destruct (WithMonitor.sendATCommand e _ ahead t) as [[[response [err|]] taken] t1];
      [reflexivity|].
    destruct (Contains response "OK" || Contains response "CONNECT"); reflexivity.
  - unfold WithMonitor.MakeCallWithMonitor.
    destruct (port e) as [pt|]; [|reflexivity].
    destruct (String.eqb (cleanPhoneNumber phoneNumber) EmptyString); [reflexivity|].
    unfold bind, ret.
    destruct (WithMonitor.sendATCommand e _ ahead t) as [[[response [err|]] taken] t1];
      [reflexivity|].
    destruct (Contains response "OK" || Contains response "CONNECT"); reflexivity.
  - unfold WithMonitor.MakeCallWithMonitor.
    destruct (port e) as [pt|] eqn:Hport;
      [|exists []; repeat split; now left].
    destruct (String.eqb (cleanPhoneNumber phoneNumber) EmptyString);
      [exists []; repeat split; now left|].
    destruct (WithMonitor_sendATCommand_ops e
                (dialCommand (cleanPhoneNumber phoneNumber)) ahead t)
      as (ops & Hlog & Hex & Hcmd).
    unfold bind, ret.
    destruct (WithMonitor.sendATCommand e _ ahead t) as [[[response [err|]] taken] t1];
      cbn [snd] in Hlog; subst t1.
    + exists ops. cbn [fst snd spawned]. repeat split; try assumption.
      intros Hx; discriminate Hx.
    + destruct (Contains response "OK" || Contains response "CONNECT");
        exists ops; cbn [fst snd spawned]; repeat split; try assumption;
        intros Hx; discriminate Hx.
  - intros Hidle. unfold WithMonitor.MakeCallWithMonitor, MakeCall.
    destruct (port e) as [pt|] eqn:Hport; [|repeat split].
    destruct (String.eqb (cleanPhoneNumber phoneNumber) EmptyString); [repeat split|].
    unfold bind, ret.
    rewrite (WithMonitor_sendATCommand_idle e _ ahead t Hidle).
    destruct (sendATCommand e (dialCommand (cleanPhoneNumber phoneNumber)) t)
      as [[response [err|]] t1]; cbn [fst snd]; [repeat split|].
    destruct (Contains response "OK" || Contains response "CONNECT"); repeat split.
  - intros Hport Hnumber Hflush Hwrite answer Hanswer Hok Hown.
    assert (Hsent : isSentinel answer = true)
      by (unfold isSentinel; rewrite Hok; reflexivity).
    unfold WithMonitor.MakeCallWithMonitor, MakeCall.
    destruct (port e) as [pt|] eqn:Hp; [|congruence].
    destruct (String.eqb_spec (cleanPhoneNumber phoneNumber) EmptyString) as [Heq|_];
      [contradiction|].
    unfold WithMonitor.sendATCommand, sendATCommand, WithMonitor.readResponse,
      readResponse. rewrite Hp.
    cbn [hd tl WithMonitor.monitorReads].
    unfold bind, ask, perform, ret. rewrite Hflush, Hwrite.
    change MaxResponseLines with (S 9) in *.
    rewrite WithMonitor_readLoop_after_one, Hanswer.
    destruct (readLoop (S 9) EmptyString
                (OpReadString
                 :: OpWrite (dialCommand (cleanPhoneNumber phoneNumber) ++ CRLF)
                 :: OpFlush :: t)) as [own t1] eqn:Hrun.
    cbn [fst snd] in *. rewrite Hown.
    split; [|reflexivity].
    cbn [readLoop]. unfold bind, ask, perform, ret. rewrite Hanswer, Hsent.
    cbn [append fst]. rewrite Hok. reflexivity.
Qed.

End MonitoredCalls.

Lemma MakeCallWithMonitor_shares_port_witness :
  let D := scripted false false false [line "OK"; line "NO CARRIER"] in
  fst (@MakeCall bytewise D openController "13800138000" []) = None
  /\ fst (@WithMonitor.MakeCallWithMonitor bytewise D openController "13800138000"
            [0; 0; 1]%nat [])
     = ({| monitor := false; spawned := true; cancelled := true;
           callErr := Some (WithText "拨打电话失败，响应" ("NO CARRIER" ++ CRLF)) |},
        [line "OK"]).
Proof.
  cbv zeta.
  destruct (@MakeCallWithMonitor_shares_port bytewise
              (scripted false false false [line "OK"; line "NO CARRIER"])
              openController "13800138000" [] []) as (_ & _ & _ & _ & _ & Htaken).
  apply (Htaken ltac:(discriminate) ltac:(discriminate) eq_refl eq_refl
           ("OK" ++ CRLF) eq_refl eq_refl eq_refl).
Defined.

(** ** The two revisions *)

Section Revisions.

Context `{UnicodeOps} `{Device}.

Lemma Earlier_sendATCommand_same (e : EC600N) (command : string) (t : Trace) :
  Earlier.sendATCommand e command t = sendATCommand e command t.
Proof. reflexivity. Qed.

Lemma Earlier_getSignalStrength_same (e : EC600N) (t : Trace) :
  Earlier.getSignalStrength e t = getSignalStrength e t.
Proof.
  unfold Earlier.getSignalStrength, getSignalStrength, bind, ret.
  rewrite Earlier_sendATCommand_same.
  destruct (sendATCommand e "AT+CSQ" t) as [[response [err|]] t1]; [reflexivity|].
  cbv zeta. rewrite Nat.leb_antisym.
  destruct (List.length (Regexp.reCSQ response) <? 3)%nat; reflexivity.
Qed.

Lemma Earlier_getNetworkRegistrationStatus_same (e : EC600N) (t : Trace) :
  Earlier.getNetworkRegistrationStatus e t = getNetworkRegistrationStatus e t.
Proof.
  unfold Earlier.getNetworkRegistrationStatus, getNetworkRegistrationStatus,
    networkRegStatusMap, bind, ret.
  rewrite Earlier_sendATCommand_same.
  destruct (sendATCommand e "AT+CREG?" t) as [[response [err|]] t1]; [reflexivity|].
  cbv zeta. rewrite Nat.leb_antisym.
  destruct (List.length (Regexp.reCREG response) <? 2)%nat; [reflexivity|].
  cbn [negb].
  repeat match goal with
         | |- context [String.eqb ?a ?b] => destruct (String.eqb a b); [reflexivity|]
         end.
  reflexivity.
Qed.

Lemma Earlier_getSIMStatus_same (e : EC600N) (t : Trace) :
  Earlier.getSIMStatus e t = getSIMStatus e t.
Proof. reflexivity. Qed.

Lemma Earlier_getOperatorName_same (e : EC600N) (t : Trace) :
  Earlier.getOperatorName e t = getOperatorName e t.
Proof.
  unfold Earlier.getOperatorName, getOperatorName, bind, ret.
  rewrite Earlier_sendATCommand_same.
  destruct (sendATCommand e "AT+COPS?" t) as [[response [err|]] t1]; [reflexivity|].
  cbv zeta. rewrite Nat.leb_antisym.
  destruct (List.length (Regexp.reCOPS response) <? 2)%nat; reflexivity.
Qed.

Lemma Earlier_getIMEI_zero (e : EC600N) (t : Trace) :
  zeroIfFailed (Earlier.getIMEI e t) EmptyString.
Proof.
  unfold zeroIfFailed, Earlier.getIMEI, bind, ret.
  destruct (sendATCommand e "AT+CGSN" t) as [[response [err|]] t1]; [reflexivity|].
  destruct (Earlier.scanIMEI _); cbn; trivial.
Qed.

Lemma Earlier_getIMEI_log (e : EC600N) (t : Trace) :
  snd (Earlier.getIMEI e t) = snd (getIMEI e t).
Proof.
  unfold Earlier.getIMEI, getIMEI, bind, ret.
  destruct (sendATCommand e "AT+CGSN" t) as [[response [err|]] t1]; [reflexivity|].
  destruct (Earlier.scanIMEI _), (scanIMEI _); reflexivity.
Qed.

(** X11.  The earlier revision and the current one agree: their status
    queries and [HangupCall] return the same results and leave the same
    log, and the earlier [CheckNetworkStatus], which assigns a field
    only when its query succeeded, builds the snapshot of the current
    one, which assigns every field, because a failed query returns the
    zero value.  The only difference is the IMEI, which each revision
    takes from its own [getIMEI]. *)
Theorem revisions_agree (e : EC600N) (t : Trace) :
  Earlier.getSignalStrength e t = getSignalStrength e t
  /\ Earlier.getNetworkRegistrationStatus e t = getNetworkRegistrationStatus e t
  /\ Earlier.getSIMStatus e t = getSIMStatus e t
  /\ Earlier.getOperatorName e t = getOperatorName e t
  /\ Earlier.HangupCall e t = HangupCall e t
  /\ let current := CheckNetworkStatus e t in
     let t4 := snd (getOperatorName e (snd (getSIMStatus e (snd
                 (getNetworkRegistrationStatus e (snd (getSignalStrength e t))))))) in
     let status := fst (fst current) in
     Earlier.CheckNetworkStatus e t
     = (({| SignalStrength := SignalStrength status;
            NetworkRegStatus := NetworkRegStatus status;
            SIMStatus := SIMStatus status;
            OperatorName := OperatorName status;
            IMEI := fst (fst (Earlier.getIMEI e t4));
            Timestamp := Timestamp status |}, None), snd current).
Proof.
  split; [apply Earlier_getSignalStrength_same|].
  split; [apply Earlier_getNetworkRegistrationStatus_same|].
  split; [apply Earlier_getSIMStatus_same|].
  split; [apply Earlier_getOperatorName_same|].
  split.
  { unfold Earlier.HangupCall, HangupCall, bind, ret.
    rewrite Earlier_sendATCommand_same.
    destruct (sendATCommand e "ATH" t) as [[response [err|]] t1]; [reflexivity|].
    destruct (Contains response "OK"); reflexivity. }
  cbv zeta. rewrite (CheckNetworkStatus_run e t). cbn [fst snd SignalStrength
    NetworkRegStatus SIMStatus OperatorName Timestamp].
  rewrite getIMEI_log, <- getIMEI_log, <- Earlier_getIMEI_log.
  unfold Earlier.CheckNetworkStatus, bind, ask, ret.
  rewrite Earlier_getSignalStrength_same.
  assert (Z1 := getSignalStrength_zero e t).
  destruct (getSignalStrength e t) as [[signal e1] t1] eqn:Q1. cbn [fst snd].
  rewrite Earlier_getNetworkRegistrationStatus_same.
  assert (Z2 := getNetworkRegistrationStatus_zero e t1).
  destruct (getNetworkRegistrationStatus e t1) as [[reg e2] t2] eqn:Q2. cbn [fst snd].
  rewrite Earlier_getSIMStatus_same.
  assert (Z3 := getSIMStatus_zero e t2).
  destruct (getSIMStatus e t2) as [[sim e3] t3] eqn:Q3. cbn [fst snd].
  rewrite Earlier_getOperatorName_same.
  assert (Z4 := getOperatorName_zero e t3).
  destruct (getOperatorName e t3) as [[operator e4] t4] eqn:Q4. cbn [fst snd].
  assert (Z5 := Earlier_getIMEI_zero e t4).
  destruct (Earlier.getIMEI e t4) as [[imei e5] t5] eqn:Q5. cbn [fst snd].
  unfold zeroIfFailed in Z1, Z2, Z3, Z4, Z5. cbn [fst snd] in Z1, Z2, Z3, Z4, Z5.
  destruct e1, e2, e3, e4, e5; cbn [Earlier.isNil];
    rewrite ?Z1, ?Z2, ?Z3, ?Z4, ?Z5; reflexivity.
Qed.

End Revisions.

(** ** Notifications *)

Section NotificationProperties.

Context `{UnicodeOps} `{Device} `{Web} `{Library}.

(** X12.  [SendToWechat] never touches the port and posts at most one
    request.  Without a webhook address it posts nothing and returns
    nil; with one it posts the encoded message to that address exactly
    once, and returns nil exactly when a response came, its body could
    be read and its status code is 200. *)
Theorem SendToWechat_outcome (n : WechatNotify) (message : string) (w : World) :
  let request := {| postURL := webhookURL n;
                    postContentType := "application/json";
                    postBody := jsonPayload message |} in
  let (err, w') := SendToWechat n message w in
  portLog w' = portLog w
  /\ if String.eqb (webhookURL n) EmptyString
     then err = None /\ w' = w
     else webLog w' = request :: webLog w
          /\ (err = None
              <-> exists body, httpPost w request = Responded 200 (Some body)).
Proof.
  cbv zeta. unfold SendToWechat, retW.
  destruct (String.eqb (webhookURL n) EmptyString); [repeat split|].
  unfold ContentTypeJSON, StatusOK.
  destruct (httpPost w _) as [|code [body|]] eqn:Hpost; cbn.
  - repeat split; [discriminate|]. intros [b Hb]. discriminate.
  - destruct (code =? 200)%Z eqn:Hcode; cbn.
    + apply Z.eqb_eq in Hcode. subst code. repeat split. intros _. now exists body.
    + apply Z.eqb_neq in Hcode. repeat split; [discriminate|].
      intros [b Hb]. injection Hb as Hc _. contradiction.
  - repeat split; [discriminate|]. intros [b Hb]. discriminate.
Qed.

(** X13.  [StartNetworkMonitoring] never takes its branch for a failed
    status check: it always builds the report, whose status line says
    normal exactly when [isNetworkStatusNormal] holds of the snapshot,
    and hands it to the sink once.  The only error it can return is the
    sink's, wrapped; in particular with no webhook address it returns
    nil whatever the port did. *)
Theorem StartNetworkMonitoring_reports (e : EC600N) (notify : WechatNotify) (w : World) :
  let checked := CheckNetworkStatus e (portLog w) in
  let status := fst (fst checked) in
  let w1 := {| portLog := snd checked; webLog := webLog w |} in
  let message := "EC600N 网络状态报告" ++ str1 LF
                 ++ "状态: " ++ (if isNetworkStatusNormal status then "正常" else "异常")
                 ++ str1 LF ++ formatNetworkStatus status in
  StartNetworkMonitoring e notify w
  = (let (err, w2) := SendToWechat notify message w1 in
     (option_map (Wrap "发送网络状态报告失败") err, w2))
  /\ (webhookURL notify = EmptyString ->
      StartNetworkMonitoring e notify w = (None, w1)).
Proof.
  cbv zeta.
  assert (Hrun : StartNetworkMonitoring e notify w
                 = (let (err, w2) :=
                      SendToWechat notify
                        ("EC600N 网络状态报告" ++ str1 LF ++ "状态: "
                         ++ (if isNetworkStatusNormal
                                  (fst (fst (CheckNetworkStatus e (portLog w))))
                             then "正常" else "异常")
                         ++ str1 LF
                         ++ formatNetworkStatus
                              (fst (fst (CheckNetworkStatus e (portLog w)))))
                        {| portLog := snd (CheckNetworkStatus e (portLog w));
                           webLog := webLog w |} in
                    (option_map (Wrap "发送网络状态报告失败") err, w2))).
  { unfold StartNetworkMonitoring, bindW, onPort, retW.
    rewrite (CheckNetworkStatus_run e (portLog w)). cbv zeta. cbn [fst snd].
    match goal with
    | |- context [isNetworkStatusNormal ?s] => destruct (isNetworkStatusNormal s)
    end; cbn [negb];
      match goal with
      | |- context [SendToWechat ?n ?m ?x] =>
          destruct (SendToWechat n m x) as [[err|] w2]
      end; reflexivity. }
  split; [exact Hrun|].
  intros Hurl. rewrite Hrun. unfold SendToWechat. rewrite Hurl. reflexivity.
Qed.

End NotificationProperties.

Lemma StartNetworkMonitoring_reports_witness :
  let D := scripted true false false [] in
  let w := {| portLog := []; webLog := [] |} in
  @StartNetworkMonitoring bytewise D silentWeb plainLibrary openController
    {| webhookURL := EmptyString |} w
  = (None,
     {| portLog := snd (@CheckNetworkStatus bytewise D openController []);
        webLog := [] |}).
Proof.
  intros D w.
  destruct (@StartNetworkMonitoring_reports bytewise D silentWeb plainLibrary
              openController {| webhookURL := EmptyString |} w) as [_ Hsilent].
  apply Hsilent. reflexivity.
Defined.

(** * Properties of the HTTP interface *)

(** ** Splitting and joining *)

Lemma splitFrom_nonempty (sep cur s : string) (skip : nat) :
  splitFrom sep skip cur s <> [].
Proof.
  revert skip cur. induction s as [|a s IH]; intros skip cur;
    cbn [splitFrom]; [discriminate|].
  destruct skip; [|apply IH].
  destruct (prefix sep (String a s)); [intros Hx; discriminate Hx | apply IH].
Qed.

Lemma Join_cons (x : string) (rest : list string) (sep : string) :
  rest <> [] -> Join (x :: rest) sep = x ++ sep ++ Join rest sep.
Proof. destruct rest; [congruence | reflexivity]. Qed.

Lemma memByte_app (c : ascii) (a b : string) :
  memByte c (a ++ b) = memByte c a || memByte c b.
Proof.
  induction a as [|x a IH]; [reflexivity|]. simpl. now rewrite IH, orb_assoc.
Qed.

(** Splitting at a byte and joining with it gives the string back, and
    no piece holds the byte. *)
Lemma Split_byte (c : ascii) (s : string) :
  Join (Split s (str1 c)) (str1 c) = s
  /\ Forall (fun piece => memByte c piece = false) (Split s (str1 c)).
Proof.
  unfold Split.
  assert (Hgen : forall cur,
             memByte c cur = false ->
             Join (splitFrom (str1 c) 0 cur s) (str1 c) = cur ++ s
             /\ Forall (fun piece => memByte c piece = false)
                       (splitFrom (str1 c) 0 cur s)).
  { induction s as [|a s IH]; intros cur Hcur.
    - cbn. rewrite append_nil_r. split; [reflexivity|]. now constructor.
    - cbn [splitFrom str1 prefix String.length Nat.sub]. rewrite prefix_nil.
      destruct (ascii_dec c a) as [Heq|Hne].
      + subst a. destruct (IH EmptyString eq_refl) as [Hj Hf].
        rewrite Join_cons by apply splitFrom_nonempty. rewrite Hj.
        split; [reflexivity|]. now constructor.
      + assert (Hcur' : memByte c (cur ++ str1 a) = false).
        { rewrite memByte_app, Hcur. cbn.
          destruct (Ascii.eqb c a) eqn:Hca; [|reflexivity].
          apply Ascii.eqb_eq in Hca. contradiction. }
        destruct (IH (cur ++ str1 a) Hcur') as [Hj Hf].
        rewrite Hj, append_assoc. split; [reflexivity | exact Hf]. }
  exact (Hgen EmptyString eq_refl).
Qed.

Section PhoneNumbers.

Context `{UnicodeOps} `{Device} `{Web} `{Library}.

Lemma cleanNumbers_filter (numbers : list string) :
  API.cleanNumbers numbers
  = filter (fun n => negb (String.eqb n EmptyString)) (map TrimSpace numbers).
Proof.
  induction numbers as [|x rest IH]; [reflexivity|]. cbn.
  destruct (String.eqb (TrimSpace x) EmptyString); cbn; now rewrite IH.
Qed.

(** X14.  [parsePhoneNumbers] cuts the text at its commas, so that the
    pieces joined by commas are the text again and hold no comma, trims
    each piece and keeps, in order, the ones that are not empty: it
    never returns an empty number, and the test for the empty text at
    its start changes nothing. *)
Theorem parsePhoneNumbers_pieces (phoneNumbersStr : string) :
  let pieces := Split phoneNumbersStr "," in
  Join pieces "," = phoneNumbersStr
  /\ Forall (fun piece => memByte "," piece = false) pieces
  /\ API.parsePhoneNumbers phoneNumbersStr
     = filter (fun n => negb (String.eqb n EmptyString)) (map TrimSpace pieces)
  /\ Forall (fun n => n <> EmptyString) (API.parsePhoneNumbers phoneNumbersStr).
Proof.
  cbv zeta.
  destruct (Split_byte "," phoneNumbersStr) as [Hjoin Hpieces].
  change (str1 ",") with "," in *.
  split; [exact Hjoin|]. split; [exact Hpieces|].
  assert (Heq : API.parsePhoneNumbers phoneNumbersStr
                = filter (fun n => negb (String.eqb n EmptyString))
                         (map TrimSpace (Split phoneNumbersStr ","))).
  { unfold API.parsePhoneNumbers.
    destruct (String.eqb_spec phoneNumbersStr EmptyString) as [->|Hne].
    - reflexivity.
    - apply cleanNumbers_filter. }
  split; [exact Heq|].
  rewrite Heq. apply Forall_forall. intros n Hin.
  apply filter_In in Hin as [_ Hn]. apply negb_true_iff in Hn.
  now apply String.eqb_neq.
Qed.

Lemma parsePhoneNumbers_examples :
  API.parsePhoneNumbers "13800138000, 13900139000 ,, " = ["13800138000"; "13900139000"]
  /\ API.parsePhoneNumbers " , ," = []
  /\ API.parsePhoneNumbers EmptyString = [].
Proof. repeat split. Qed.

End PhoneNumbers.

(** ** Calls made for a request *)

Section CallTasks.

Context `{UnicodeOps} `{Device} `{Web} `{Library}.

Lemma SendToWechat_port (n : WechatNotify) (message : string) (w : World) :
  portLog (snd (SendToWechat n message w)) = portLog w.
Proof.
  unfold SendToWechat, retW.
  destruct (String.eqb (webhookURL n) EmptyString); [reflexivity|].
  destruct (httpPost w _) as [|code [body|]]; try reflexivity.
  destruct (negb (code =? StatusOK)%Z); reflexivity.
Qed.

Lemma MakeCall_ops (e : EC600N) (phoneNumber : string) (t : Trace) :
  exists ops,
    snd (MakeCall e phoneNumber t) = (ops ++ t)%list
    /\ forallb isExchangeOp ops = true
    /\ commandsWritten ops
       = match port e with
         | None => []
         | Some _ =>
             if String.eqb (cleanPhoneNumber phoneNumber) EmptyString then []
             else if flushFails t then []
                  else [dialCommand (cleanPhoneNumber phoneNumber) ++ CRLF]
         end.
Proof.
  unfold MakeCall. destruct (port e) as [pt|] eqn:Hport; [|exists []; repeat split].
  destruct (String.eqb (cleanPhoneNumber phoneNumber) EmptyString);
    [exists []; repeat split|].
  destruct (sendATCommand_ops e (dialCommand (cleanPhoneNumber phoneNumber)) t)
    as (ops & Hlog & Hops & Hw).
  rewrite Hport in Hw. exists ops. split; [|split; assumption].
  unfold bind.
  destruct (sendATCommand e (dialCommand (cleanPhoneNumber phoneNumber)) t)
    as [[response [err|]] t1]; cbn [snd] in *; [exact Hlog|].
  destruct (Contains response "OK" || Contains response "CONNECT"); exact Hlog.
Qed.

Lemma HangupCall_ops (e : EC600N) (t : Trace) :
  exists ops,
    snd (HangupCall e t) = (ops ++ t)%list
    /\ forallb isExchangeOp ops = true
    /\ commandsWritten ops
       = match port e with
         | None => []
         | Some _ => if flushFails t then [] else ["ATH" ++ CRLF]
         end.
Proof.
  destruct (sendATCommand_ops e "ATH" t) as (ops & Hlog & Hops & Hw).
  exists ops. split; [|split; assumption].
  unfold HangupCall, bind.
  destruct (sendATCommand e "ATH" t) as [[response [err|]] t1]; cbn [snd] in *;
    [exact Hlog|].
  destruct (negb (Contains response "OK")); exact Hlog.
Qed.

Lemma makePhoneCall_run (e : EC600N) (phoneNumber : string) (duration : Z) (t : Trace) :
  API.makePhoneCall e phoneNumber duration t
  = match fst (MakeCall e phoneNumber t) with
    | Some err =>
        (phoneNumber ++ ": 失败 - " ++ errorText err, snd (MakeCall e phoneNumber t))
    | None =>
        (match fst (HangupCall e (snd (MakeCall e phoneNumber t))) with
         | Some err => phoneNumber ++ ": 拨打成功但挂断失败 - " ++ errorText err
         | None => phoneNumber ++ ": 成功"
         end, snd (HangupCall e (snd (MakeCall e phoneNumber t))))
    end.
Proof.
  unfold API.makePhoneCall, bind, ret.
  destruct (MakeCall e phoneNumber t) as [[err|] t1]; cbn [fst snd]; [reflexivity|].
  destruct (HangupCall e t1) as [[err|] t2]; reflexivity.
Qed.

(** X15.  [makePhoneCall] hangs up only after a dial that was accepted:
    when [MakeCall] returns an error nothing more is done on the port
    and the text says so; otherwise [HangupCall] follows on the log the
    dial left.  On a connected port that accepts every flush the
    commands written are the dial command, followed by ATH exactly when
    the dial was accepted. *)
Theorem makePhoneCall_hangs_up_after_dial
        (e : EC600N) (phoneNumber : string) (duration : Z) (t : Trace) :
  let dial := MakeCall e phoneNumber t in
  match fst dial with
  | Some err =>
      API.makePhoneCall e phoneNumber duration t
      = (phoneNumber ++ ": 失败 - " ++ errorText err, snd dial)
  | None =>
      API.makePhoneCall e phoneNumber duration t
      = (match fst (HangupCall e (snd dial)) with
         | Some err => phoneNumber ++ ": 拨打成功但挂断失败 - " ++ errorText err
         | None => phoneNumber ++ ": 成功"
         end, snd (HangupCall e (snd dial)))
  end
  /\ (port e <> None ->
      cleanPhoneNumber phoneNumber <> EmptyString ->
      (forall t', flushFails t' = false) ->
      exists ops,
        snd (API.makePhoneCall e phoneNumber duration t) = (ops ++ t)%list
        /\ commandsWritten ops
           = ((dialCommand (cleanPhoneNumber phoneNumber) ++ CRLF)%string
              :: match fst dial with
                 | None => [("ATH" ++ CRLF)%string]
                 | Some _ => []
                 end)%list).
Proof.
  cbv zeta. assert (Hrun := makePhoneCall_run e phoneNumber duration t).
  split.
  - rewrite Hrun. destruct (fst (MakeCall e phoneNumber t)); reflexivity.
  - intros Hport Hclean Hflush.
    destruct (MakeCall_ops e phoneNumber t) as (ops1 & Hlog1 & _ & Hw1).
    apply String.eqb_neq in Hclean. rewrite Hclean, Hflush in Hw1.
    rewrite Hrun. destruct (fst (MakeCall e phoneNumber t)) as [err|].
    + exists ops1. cbn [snd]. destruct (port e); [|congruence]. now split.
    + destruct (HangupCall_ops e (snd (MakeCall e phoneNumber t)))
        as (ops2 & Hlog2 & _ & Hw2).
      rewrite Hflush in Hw2. cbn [snd].
      exists (ops2 ++ ops1)%list. rewrite Hlog2, Hlog1. split; [now rewrite app_assoc|].
      rewrite commandsWritten_app, Hw1, Hw2.
      destruct (port e); [reflexivity | congruence].
Qed.

Lemma makePhoneCall_ops (e : EC600N) (phoneNumber : string) (duration : Z) (t : Trace) :
  exists ops,
    snd (API.makePhoneCall e phoneNumber duration t) = (ops ++ t)%list
    /\ forallb isExchangeOp ops = true
    /\ forall cmd, In cmd (commandsWritten ops) -> callCommand [phoneNumber] cmd.
Proof.
  rewrite makePhoneCall_run.
  destruct (MakeCall_ops e phoneNumber t) as (ops1 & Hlog1 & Hops1 & Hw1).
  assert (Hdial : forall cmd, In cmd (commandsWritten ops1) ->
                              callCommand [phoneNumber] cmd).
  { intros cmd Hin. rewrite Hw1 in Hin. right. exists phoneNumber.
    split; [now left|].
    destruct (port e); [|destruct Hin].
    destruct (String.eqb _ _); [destruct Hin|].
    destruct (flushFails t); [destruct Hin|].
    destruct Hin as [<-|[]]. reflexivity. }
  destruct (fst (MakeCall e phoneNumber t)) as [err|]; cbn [snd].
  - exists ops1. repeat split; assumption.
  - destruct (HangupCall_ops e (snd (MakeCall e phoneNumber t)))
      as (ops2 & Hlog2 & Hops2 & Hw2).
    rewrite Hlog2, Hlog1.
    exists (ops2 ++ ops1)%list. split; [now rewrite app_assoc|]. split.
    + now rewrite forallb_app, Hops2, Hops1.
    + intros cmd Hin. rewrite commandsWritten_app in Hin.
      apply in_app_or in Hin as [Hin|Hin]; [now apply Hdial|].
      left. rewrite Hw2 in Hin.
      destruct (port e); [|destruct Hin].
      destruct (flushFails (snd (MakeCall e phoneNumber t))); [destruct Hin|].
      destruct Hin as [<-|[]]. reflexivity.
Qed.

Lemma callCommand_more (numbers more : list string) (cmd : string) :
  (forall n, In n numbers -> In n more) ->
  callCommand numbers cmd -> callCommand more cmd.
Proof.
  intros Hsub [Hath|(n & Hin & Hcmd)]; [now left|].
  right. exists n. split; [now apply Hsub | exact Hcmd].
Qed.

Lemma callAll_ops (e : EC600N) (numbers : list string) (duration : Z) :
  forall t,
  exists ops,
    snd (API.callAll e numbers duration t) = (ops ++ t)%list
    /\ forallb isExchangeOp ops = true
    /\ forall cmd, In cmd (commandsWritten ops) -> callCommand numbers cmd.
Proof.
  induction numbers as [|n rest IH]; intros t.
  - exists []. repeat split. intros cmd [].
  - cbn [API.callAll]. unfold bind, ret.
    destruct (makePhoneCall_ops e n duration t) as (ops1 & Hlog1 & Hops1 & Hcmd1).
    destruct (API.makePhoneCall e n duration t) as [text t1]. cbn [snd] in Hlog1.
    destruct (IH t1) as (ops2 & Hlog2 & Hops2 & Hcmd2).
    destruct (API.callAll e rest duration t1) as [texts t2]. cbn [snd] in *.
    subst t2 t1. exists (ops2 ++ ops1)%list. split; [now rewrite app_assoc|]. split.
    + now rewrite forallb_app, Hops2, Hops1.
    + intros cmd Hin. rewrite commandsWritten_app in Hin.
      apply in_app_or in Hin as [Hin|Hin].
      * apply (callCommand_more [n]); [|now apply Hcmd1].
        intros x [<-|[]]. now left.
      * apply (callCommand_more rest); [|now apply Hcmd2].
        intros x Hx. now right.
Qed.

(** X16.  When [processPhoneCalls] accepts a request, the task it starts
    never dials the first number: it dials the numbers after the first,
    so every command the task writes is ATH or the dial command of one
    of those, and for a request with a single number the task does
    nothing at all on the port.  The function returns either an error or
    a task, never both and never neither. *)
Theorem processPhoneCalls_skips_first
        (s : API.HTTPServer) (name phoneNumbersStr : string) (w : World) :
  match fst (API.processPhoneCalls s name phoneNumbersStr w) with
  | (None, Some task) =>
      exists first rest,
        API.parsePhoneNumbers phoneNumbersStr = first :: rest
        /\ API.taskNumbers task = rest
        /\ API.ec600n s = Some (API.taskController task)
        /\ (forall t, exists ops,
               snd (API.runCallTask task t) = (ops ++ t)%list
               /\ forallb isExchangeOp ops = true
               /\ forall cmd, In cmd (commandsWritten ops) -> callCommand rest cmd)
        /\ (rest = [] -> forall t, API.runCallTask task t = ([], t))
  | (Some _, None) => True
  | _ => False
  end.
Proof.
  unfold API.processPhoneCalls, retW, bindW.
  destruct (API.ec600n s) as [e|]; [|exact I].
  destruct (negb (IsConnected e)); [exact I|].
  destruct (String.eqb phoneNumbersStr EmptyString); [exact I|].
  destruct (API.parsePhoneNumbers phoneNumbersStr) as [|first rest] eqn:Hparse;
    [exact I|].
  cbn [List.length Nat.eqb].
  destruct (API.sendWechatNotification s name (first :: rest) w) as [u w1].
  cbn [fst tl].
  exists first, rest. split; [reflexivity|]. split; [reflexivity|].
  split; [reflexivity|]. split.
  - intros t. unfold API.runCallTask. cbn [API.taskController API.taskNumbers
      API.taskDuration]. apply callAll_ops.
  - intros -> t. reflexivity.
Qed.

Lemma SendToWechat_posts (n : WechatNotify) (message : string) (w : World) :
  webLog (snd (SendToWechat n message w))
  = if String.eqb (webhookURL n) EmptyString then webLog w
    else {| postURL := webhookURL n;
            postContentType := "application/json";
            postBody := jsonPayload message |} :: webLog w.
Proof.
  unfold SendToWechat, retW.
  destruct (String.eqb (webhookURL n) EmptyString); [reflexivity|].
  destruct (httpPost w _) as [|code [body|]]; try reflexivity.
  destruct (negb (code =? StatusOK)%Z); reflexivity.
Qed.

(** X17.  [processPhoneCalls] refuses a request, without posting a
    notification and without starting a task, when the server has no
    controller or the controller is not connected, and otherwise when no
    number is left after parsing; the first reason is reported even when
    the text is empty too.  A request it accepts is accepted whatever
    becomes of the notification: the function returns nil and a task,
    and what it posts itself is one request to the webhook address, none
    when the server has no notifier or the notifier no address.  The
    message of that request holds the name and all the parsed numbers,
    the first included, joined by a comma and a space. *)
Theorem processPhoneCalls_guards
        (s : API.HTTPServer) (name phoneNumbersStr : string) (w : World) :
  let r := API.processPhoneCalls s name phoneNumbersStr w in
  let usable := match API.ec600n s with
                | Some e => IsConnected e
                | None => false
                end in
  if negb usable
  then r = ((Some (New "EC600N 模块未启用或未连接"), None), w)
  else
    match API.parsePhoneNumbers phoneNumbersStr with
    | [] => r = ((Some (New "电话号码为空"), None), w)
    | numbers =>
        let message := "📞 名称: " ++ name ++ str1 LF
                       ++ "电话号码: " ++ Join numbers ", " ++ str1 LF
                       ++ "时间: " ++ formatTime (wallClock w) ++ str1 LF
                       ++ "即将开始拨打电话..." in
        fst (fst r) = None
        /\ snd (fst r) <> None
        /\ webLog (snd r)
           = match API.notify s with
             | None => webLog w
             | Some n =>
                 if String.eqb (webhookURL n) EmptyString then webLog w
                 else {| postURL := webhookURL n;
                         postContentType := "application/json";
                         postBody := jsonPayload message |} :: webLog w
             end
    end.
Proof.
  cbv zeta. unfold API.processPhoneCalls, retW, bindW.
  destruct (API.ec600n s) as [e|]; [|reflexivity].
  destruct (IsConnected e); cbn [negb]; [|reflexivity].
  destruct (String.eqb_spec phoneNumbersStr EmptyString) as [->|Hne];
    [reflexivity|].
  destruct (API.parsePhoneNumbers phoneNumbersStr) as [|first rest]; [reflexivity|].
  cbn [List.length Nat.eqb].
  destruct (API.sendWechatNotification s name (first :: rest) w) as [u w1] eqn:Hsend.
  cbn [fst snd]. split; [reflexivity|]. split; [discriminate|].
  unfold API.sendWechatNotification, retW in Hsend.
  destruct (API.notify s) as [n|]; [|now injection Hsend as _ <-].
  cbn [List.length Nat.eqb] in Hsend.
  match type of Hsend with
  | (let (_, w') := SendToWechat ?n0 ?m ?w0 in _) = _ =>
      assert (Hposts := SendToWechat_posts n0 m w0);
      destruct (SendToWechat n0 m w0) as [err w2]
  end.
  injection Hsend as _ <-. exact Hposts.
Qed.

End CallTasks.

Lemma makePhoneCall_hangs_up_after_dial_witness :
  let D := scripted false false false [line "NO CARRIER"; line "ERROR"] in
  exists ops,
    snd (@API.makePhoneCall bytewise D plainLibrary openController "13800138000" 10 [])
    = ops
    /\ commandsWritten ops = ["ATD13800138000;" ++ CRLF].
Proof.
  intros D.
  destruct (@makePhoneCall_hangs_up_after_dial bytewise D plainLibrary
              openController "13800138000" 10 []) as [_ Hwrites].
  destruct Hwrites as (ops & Hlog & Hw); [discriminate | discriminate | reflexivity|].
  exists ops. split; [rewrite Hlog; apply app_nil_r | exact Hw].
Defined.

Lemma processPhoneCalls_skips_first_witness :
  let D := scripted false false false [line "OK"] in
  let s := {| API.config := sampleConfig; API.secretKey := "k";
              API.ec600n := Some openController; API.notify := None |} in
  let w := {| portLog := []; webLog := [] |} in
  match fst (@API.processPhoneCalls bytewise silentWeb plainLibrary s "test" "13800138000" w) with
  | (None, Some task) => @API.runCallTask bytewise D plainLibrary task [] = ([], [])
  | _ => False
  end.
Proof.
  intros D s w.
  assert (Hspec := @processPhoneCalls_skips_first bytewise D silentWeb plainLibrary
                     s "test" "13800138000" w).
  set (r := fst (@API.processPhoneCalls bytewise silentWeb plainLibrary s "test"
                   "13800138000" w)) in *.
  vm_compute in r. subst r. cbv beta iota in Hspec |- *.
  destruct Hspec as (first & rest & Hparse & _ & _ & _ & Hnone).
  apply Hnone. injection Hparse as _ <-. reflexivity.
Defined.

(** ** Time stamps *)

Section Timestamps.

Context `{UnicodeOps} `{Device} `{Web} `{Library}.

Lemma Sub_within (now reqTime : Z) :
  let tolerance := 300000000000%Z in
  (tolerance <? Sub now reqTime)%Z || (Sub now reqTime <? - tolerance)%Z = false
  <-> (- tolerance <= now - reqTime <= tolerance)%Z.
Proof.
  cbv zeta. unfold Sub.
  change minDuration with (-9223372036854775808)%Z.
  change maxDuration with 9223372036854775807%Z.
  rewrite orb_false_iff.
  destruct (Z.ltb_spec (now - reqTime) (-9223372036854775808));
    [rewrite !Z.ltb_ge, ?Z.ltb_nlt; lia|].
  destruct (Z.ltb_spec 9223372036854775807 (now - reqTime));
    rewrite !Z.ltb_ge; lia.
Qed.

(** X18.  [validateTimestamp] accepts a text exactly when it parses as a
    64-bit integer and the whole second it names lies within five
    minutes of the current time, both bounds included.  The number
    counts seconds; a number above 9999999999 counts milliseconds and is
    divided by 1000 first, the remainder dropped, so that the
    milliseconds of a stamp play no part: half a second after
    1700000300 the stamp 1700000000999, which is 299.501 s old, is
    refused like 1700000000000, which is 300.5 s old.  The saturation of
    the difference at the ends of the duration range plays no part
    either.  A rejection always comes with an error and an acceptance
    never. *)
Theorem validateTimestamp_window (now : Z) (timestampStr : string) :
  let r := API.validateTimestamp now timestampStr in
  (fst r = true
   <-> exists timestamp,
         ParseInt timestampStr = Some timestamp
         /\ let seconds := if (9999999999 <? timestamp)%Z
                           then Z.quot timestamp 1000 else timestamp in
            (- (300 * 1000000000) <= now - seconds * 1000000000
             <= 300 * 1000000000)%Z)
  /\ (fst r = true <-> snd r = None)
  /\ fst (API.validateTimestamp 1700000300500000000 "1700000000999") = false
  /\ fst (API.validateTimestamp 1700000300500000000 "1700000000000") = false
  /\ fst (API.validateTimestamp 1700000300500000000 "1700000001000") = true.
Proof.
  cbv zeta.
  assert (Hexamples :
            fst (API.validateTimestamp 1700000300500000000 "1700000000999") = false
            /\ fst (API.validateTimestamp 1700000300500000000 "1700000000000") = false
            /\ fst (API.validateTimestamp 1700000300500000000 "1700000001000") = true)
    by (repeat split).
  rewrite <- !and_assoc in *. split; [|exact (proj2 Hexamples)].
  split; [|exact (proj2 (proj1 Hexamples))].
  split; [|exact (proj1 (proj1 Hexamples))].
  clear Hexamples.
  unfold API.validateTimestamp. cbv zeta.
  destruct (ParseInt timestampStr) as [timestamp|].
  - change (API.TimestampTolerance * Minute)%Z with 300000000000%Z.
    change Second with 1000000000%Z.
    set (seconds := if (9999999999 <? timestamp)%Z
                    then Z.quot timestamp 1000 else timestamp).
    assert (Hwin := Sub_within now (seconds * 1000000000)). cbv zeta in Hwin.
    destruct ((300000000000 <? Sub now (seconds * 1000000000))%Z
              || (Sub now (seconds * 1000000000) <? Z.opp 300000000000)%Z) eqn:Hout;
      cbn [fst snd].
    + split; [|split; intros Hx; discriminate Hx].
      split; [intros Hx; discriminate Hx|].
      intros (ts & Hts & Hin). injection Hts as <-.
      fold seconds in Hin. assert (Hx : true = false) by (apply Hwin; lia).
      discriminate.
    + split; [|split; reflexivity].
      split; [|reflexivity].
      intros _. exists timestamp. split; [reflexivity|].
      fold seconds. destruct Hwin as [Hwin _]. specialize (Hwin eq_refl). lia.
  - cbn. split; split; try (intros Hx; discriminate Hx).
    intros (ts & Hts & _). discriminate.
Qed.

(** X19.  A time stamp in seconds and the same instant in milliseconds
    are treated alike: for a number of seconds between 10000000 and
    9999999999, adding three more digits gives the same verdict and the
    same error. *)
Theorem validateTimestamp_units
        (now seconds millis : Z) (inSeconds inMillis : string) :
  ParseInt inSeconds = Some seconds ->
  ParseInt inMillis = Some (1000 * seconds + millis)%Z ->
  (0 <= millis < 1000)%Z ->
  (10000000 <= seconds <= 9999999999)%Z ->
  API.validateTimestamp now inMillis = API.validateTimestamp now inSeconds.
Proof.
  intros Hs Hm Hrange Hsec. unfold API.validateTimestamp. rewrite Hs, Hm. cbv zeta.
  assert (Hbig : (9999999999 <? 1000 * seconds + millis)%Z = true)
    by (apply Z.ltb_lt; lia).
  assert (Hsmall : (9999999999 <? seconds)%Z = false) by (apply Z.ltb_ge; lia).
  rewrite Hbig, Hsmall.
  replace (Z.quot (1000 * seconds + millis) 1000) with seconds; [reflexivity|].
  symmetry. rewrite Z.quot_div_nonneg by lia.
  rewrite Z.mul_comm, Z.div_add_l by lia.
  rewrite Z.div_small by lia. lia.
Qed.

Lemma ParseInt_examples :
  ParseInt "1700000000" = Some 1700000000%Z
  /\ ParseInt "+15" = Some 15%Z
  /\ ParseInt "-15" = Some (-15)%Z
  /\ ParseInt "-9223372036854775808" = Some (-9223372036854775808)%Z
  /\ ParseInt "9223372036854775808" = None
  /\ ParseInt EmptyString = None
  /\ ParseInt "-" = None
  /\ ParseInt " 15" = None
  /\ ParseInt "1_000" = None
  /\ ParseInt "15.0" = None.
Proof. repeat split. Qed.

End Timestamps.

Lemma validateTimestamp_units_witness :
  @API.validateTimestamp plainLibrary 1700000100000000000 "1700000000123"
  = @API.validateTimestamp plainLibrary 1700000100000000000 "1700000000".
Proof.
  apply (@validateTimestamp_units plainLibrary 1700000100000000000
           1700000000 123 "1700000000" "1700000000123").
  - reflexivity.
  - reflexivity.
  - lia.
  - lia.
Defined.

(** ** Signatures *)

Lemma NoDup_four {A : Type} (a b c d : A) :
  NoDup [a; b; c; d] ->
  a <> b /\ a <> c /\ a <> d /\ b <> c /\ b <> d /\ c <> d.
Proof.
  intros Hnd.
  inversion Hnd as [|? ? Ha Hnd1]; subst.
  inversion Hnd1 as [|? ? Hb Hnd2]; subst.
  inversion Hnd2 as [|? ? Hc Hnd3]; subst.
  cbn in Ha, Hb, Hc. repeat split; intros ->; tauto.
Qed.

(** The keys come out of the sort in the same order whatever the order
    in which ranging over the map visits them. *)
Lemma sortStrings_paramKeys (visited : list string) :
  Permutation visited API.paramKeys -> sortStrings visited = API.paramKeys.
Proof.
  intros Hperm.
  assert (Hlen := Permutation_length Hperm).
  assert (Hnd : NoDup visited).
  { apply (Permutation_NoDup (Permutation_sym Hperm)).
    unfold API.paramKeys. repeat constructor; cbn; intuition discriminate. }
  destruct visited as [|a [|b [|c [|d [|x rest]]]]]; try discriminate Hlen.
  assert (Ha : In a API.paramKeys) by (apply (Permutation_in _ Hperm); cbn; auto).
  assert (Hb : In b API.paramKeys) by (apply (Permutation_in _ Hperm); cbn; auto).
  assert (Hc : In c API.paramKeys) by (apply (Permutation_in _ Hperm); cbn; auto).
  assert (Hd : In d API.paramKeys) by (apply (Permutation_in _ Hperm); cbn; auto).
  apply NoDup_four in Hnd. destruct Hnd as (N1 & N2 & N3 & N4 & N5 & N6).
  clear Hperm Hlen.
  cbn in Ha, Hb, Hc, Hd.
  destruct Ha as [<-|[<-|[<-|[<-|[]]]]];
    destruct Hb as [<-|[<-|[<-|[<-|[]]]]]; try congruence;
    destruct Hc as [<-|[<-|[<-|[<-|[]]]]]; try congruence;
    destruct Hd as [<-|[<-|[<-|[<-|[]]]]]; try congruence;
    reflexivity.
Qed.

Lemma hexDigit_fold (k : nat) (s t : string) `{Library} :
  (k < 16)%nat ->
  EqualFold (String (hexDigit k) s) (String (hexDigit k) t) = EqualFold s t
  /\ EqualFold (String (hexDigit k) s) (String (upperByte (hexDigit k)) t)
     = EqualFold s t
  /\ isASCIIByte (upperByte (hexDigit k)) = true.
Proof.
  intros Hk.
  do 16 (destruct k as [|k]; [repeat split|]).
  lia.
Qed.

Lemma hexEncode_fold `{Library} (bytes : list ascii) :
  EqualFold (hexEncode bytes) (hexEncode bytes) = true
  /\ EqualFold (hexEncode bytes) (map_str upperByte (hexEncode bytes)) = true.
Proof.
  induction bytes as [|b rest [IH1 IH2]]; [split; reflexivity|].
  cbn [hexEncode map_str].
  assert (Hhi : (nat_of_ascii b / 16 < 16)%nat).
  { apply Nat.Div0.div_lt_upper_bound. pose proof (nat_ascii_bounded b). lia. }
  assert (Hlo : (nat_of_ascii b mod 16 < 16)%nat) by (apply Nat.mod_upper_bound; lia).
  split.
  - rewrite (proj1 (hexDigit_fold _ _ _ Hhi)), (proj1 (hexDigit_fold _ _ _ Hlo)).
    exact IH1.
  - rewrite (proj1 (proj2 (hexDigit_fold _ _ _ Hhi))),
      (proj1 (proj2 (hexDigit_fold _ _ _ Hlo))).
    exact IH2.
Qed.

Section Signatures.

Context `{UnicodeOps} `{Device} `{Web} `{Library}.

Lemma signString_explicit (s : API.HTTPServer) (name phoneNumbers timestamp : string) :
  API.signString API.paramKeys s name phoneNumbers timestamp
  = "name=" ++ name ++ "&phoneNumbers=" ++ phoneNumbers
    ++ "&secretKey=" ++ API.secretKey s ++ "&timestamp=" ++ timestamp.
Proof.
  unfold API.signString.
  change (sortStrings API.paramKeys) with API.paramKeys.
  cbn. rewrite ?append_assoc. reflexivity.
Qed.

(** X20.  The string [generateSignature] signs does not depend on the
    order in which ranging over the map visits the four keys: after the
    sort it is always name, phoneNumbers, secretKey and timestamp, each
    with its value, joined by ampersands. *)
Theorem generateSignature_any_order
        (visited : list string) (s : API.HTTPServer)
        (name phoneNumbers timestamp : string) :
  Permutation visited API.paramKeys ->
  API.signString visited s name phoneNumbers timestamp
  = "name=" ++ name ++ "&phoneNumbers=" ++ phoneNumbers
    ++ "&secretKey=" ++ API.secretKey s ++ "&timestamp=" ++ timestamp
  /\ API.generateSignatureVisiting visited s name phoneNumbers timestamp
     = API.generateSignature s name phoneNumbers timestamp.
Proof.
  intros Hperm.
  assert (Hsame : API.signString visited s name phoneNumbers timestamp
                  = API.signString API.paramKeys s name phoneNumbers timestamp).
  { unfold API.signString. rewrite (sortStrings_paramKeys visited Hperm).
    reflexivity. }
  split.
  - rewrite Hsame. apply signString_explicit.
  - unfold API.generateSignature, API.generateSignatureVisiting. now rewrite Hsame.
Qed.

(** X21.  A request that carries the signature [generateSignature]
    computes for its name, numbers and time stamp passes
    [validateSignature], and so does the same request with the
    signature in upper case: the comparison ignores the case of the
    hexadecimal digits. *)
Theorem validateSignature_accepts_own
        (s : API.HTTPServer) (name phoneNumbers timestamp : string) :
  let signature := API.generateSignature s name phoneNumbers timestamp in
  API.validateSignature s {| API.Name := name; API.PhoneNumbers := phoneNumbers;
                             API.Timestamp := timestamp;
                             API.Signature := signature |} = true
  /\ API.validateSignature s {| API.Name := name; API.PhoneNumbers := phoneNumbers;
                                API.Timestamp := timestamp;
                                API.Signature := map_str upperByte signature |} = true.
Proof.
  cbv zeta. unfold API.validateSignature. cbn [API.Name API.PhoneNumbers
    API.Timestamp API.Signature].
  unfold API.generateSignature, API.generateSignatureVisiting.
  apply hexEncode_fold.
Qed.

(** X22.  The signature does not tell the name from the numbers: moving
    the text [&phoneNumbers=] and what follows it from the end of the
    name to the front of the numbers leaves the signed string, and so
    the signature, unchanged, and [validateSignature] gives the same
    verdict on the two requests. *)
Theorem validateSignature_name_numbers_ambiguous
        (s : API.HTTPServer) (a b c timestamp signature : string) :
  let r1 := {| API.Name := a ++ "&phoneNumbers=" ++ b; API.PhoneNumbers := c;
               API.Timestamp := timestamp; API.Signature := signature |} in
  let r2 := {| API.Name := a; API.PhoneNumbers := b ++ "&phoneNumbers=" ++ c;
               API.Timestamp := timestamp; API.Signature := signature |} in
  API.generateSignature s (API.Name r1) (API.PhoneNumbers r1) timestamp
  = API.generateSignature s (API.Name r2) (API.PhoneNumbers r2) timestamp
  /\ API.validateSignature s r1 = API.validateSignature s r2.
Proof.
  cbv zeta. cbn [API.Name API.PhoneNumbers].
  assert (Hsame : API.generateSignature s (a ++ "&phoneNumbers=" ++ b) c timestamp
                  = API.generateSignature s a (b ++ "&phoneNumbers=" ++ c) timestamp).
  { unfold API.generateSignature, API.generateSignatureVisiting.
    rewrite !signString_explicit, !append_assoc. reflexivity. }
  split; [exact Hsame|].
  unfold API.validateSignature. cbn [API.Name API.PhoneNumbers API.Timestamp
    API.Signature]. now rewrite Hsame.
Qed.

End Signatures.

Lemma generateSignature_any_order_witness :
  let s := {| API.config := sampleConfig; API.secretKey := "k7mP9xQrT2vN8sL4wY6a";
              API.ec600n := None; API.notify := None |} in
  @API.signString ["timestamp"; "secretKey"; "name"; "phoneNumbers"] s
    "test" "13800138000" "1700000000"
  = "name=test&phoneNumbers=13800138000&secretKey=k7mP9xQrT2vN8sL4wY6a&timestamp=1700000000".
Proof.
  intros s.
  destruct (@generateSignature_any_order plainLibrary
              ["timestamp"; "secretKey"; "name"; "phoneNumbers"] s
              "test" "13800138000" "1700000000") as [Hstring _].
  - apply Permutation_sym.
    apply (perm_trans (l' := ["name"; "secretKey"; "timestamp"; "phoneNumbers"])).
    + apply perm_skip. apply (perm_trans (l' := ["secretKey"; "phoneNumbers"; "timestamp"])).
      * apply perm_swap.
      * apply perm_skip. apply perm_swap.
    + apply (perm_trans (l' := ["secretKey"; "name"; "timestamp"; "phoneNumbers"]));
        [apply perm_swap|].
      apply (perm_trans (l' := ["secretKey"; "timestamp"; "name"; "phoneNumbers"]));
        [apply perm_skip; apply perm_swap|].
      apply perm_swap.
  - exact Hstring.
Defined.

(** ** Requests *)

Section Requests.

Context `{UnicodeOps} `{Device} `{Web} `{Library}.

Lemma validateTimestamp_verdict (now : Z) (timestampStr : string) :
  (exists err, API.validateTimestamp now timestampStr = (false, Some err))
  \/ API.validateTimestamp now timestampStr = (true, None).
Proof.
  unfold API.validateTimestamp.
  destruct (ParseInt timestampStr) as [timestamp|]; [|left; eexists; reflexivity].
  cbv zeta.
  match goal with
  | |- context [if ?c then _ else _] => destruct c
  end; [left; eexists; reflexivity | right; reflexivity].
Qed.

(** X23.  [handleNotify] picks the status code by looking for fixed
    texts in the message of the error, and the outcome is this table.  A
    method other than POST gives 405, tested before anything else.  A
    body that does not decode gives 400, unless the message of the
    decoder happens to hold one of the texts.  A wrong signature gives
    401, tested before the time stamp; a rejected time stamp gives 401.
    None of these starts a call, posts a notification or reports
    success.  Every other request is answered 200 with success, whether
    or not [processPhoneCalls] could arrange the calls; its error, if
    any, only appears in the message. *)
Theorem handleNotify_status (s : API.HTTPServer) (r : API.Request) (w : World) :
  let out := API.handleNotify s r w in
  let refused code text :=
    out = ((code, {| API.Success := false; API.Message := text |}, None), w) in
  if negb (String.eqb (API.Method r) "POST")
  then refused 405%Z "method not allowed"
  else
    match API.Body r with
    | None =>
        exists code,
          refused code ("解析请求体失败: " ++ libraryErrorText)
          /\ (code = 400%Z \/ code = 401%Z \/ code = 405%Z)
          /\ (Contains libraryErrorText "签名验证失败" = false ->
              Contains libraryErrorText "时间戳验证失败" = false ->
              Contains libraryErrorText "method not allowed" = false ->
              code = 400%Z)
    | Some req =>
        if negb (API.validateSignature s req)
        then refused 401%Z "签名验证失败"
        else if negb (fst (API.validateTimestamp (wallClock w) (API.Timestamp req)))
        then exists err,
               snd (API.validateTimestamp (wallClock w) (API.Timestamp req)) = Some err
               /\ refused 401%Z ("时间戳验证失败: " ++ errorText err)
        else
          out = (let '((err, task), w') :=
                   API.processPhoneCalls s (API.Name req) (API.PhoneNumbers req) w in
                 ((200%Z,
                   {| API.Success := true;
                      API.Message := match err with
                                     | Some err =>
                                         "验证成功，但拨打电话失败: " ++ errorText err
                                     | None => "验证成功"
                                     end |}, task), w'))
    end.
Proof.
  cbv zeta. unfold API.handleNotify, API.parseAndValidateRequest, bindW, retW.
  unfold StatusOK, API.StatusUnauthorized, API.StatusMethodNotAllowed,
    API.StatusBadRequest.
  destruct (negb (String.eqb (API.Method r) "POST")); [reflexivity|].
  destruct (API.Body r) as [req|].
  - destruct (negb (API.validateSignature s req)); [reflexivity|].
    destruct (validateTimestamp_verdict (wallClock w) (API.Timestamp req))
      as [[err Hts]|Hts]; rewrite Hts; cbn [fst snd negb].
    + exists err. split; [reflexivity|]. cbn [errorText].
      assert (Hmark : Contains ("时间戳验证失败" ++ ": " ++ errorText err)
                               "时间戳验证失败" = true).
      { apply Contains_iff. exists EmptyString, (": " ++ errorText err).
        cbn. rewrite ?append_assoc. reflexivity. }
      rewrite Hmark, orb_true_r. reflexivity.
    + destruct (API.processPhoneCalls s (API.Name req) (API.PhoneNumbers req) w)
        as [[perr task] w1]. reflexivity.
  - cbn [errorText].
    assert (M1 : Contains ("解析请求体失败" ++ ": " ++ libraryErrorText) "签名验证失败"
                 = Contains libraryErrorText "签名验证失败") by reflexivity.
    assert (M2 : Contains ("解析请求体失败" ++ ": " ++ libraryErrorText) "时间戳验证失败"
                 = Contains libraryErrorText "时间戳验证失败") by reflexivity.
    assert (M3 : Contains ("解析请求体失败" ++ ": " ++ libraryErrorText)
                          "method not allowed"
                 = Contains libraryErrorText "method not allowed") by reflexivity.
    rewrite M1, M2, M3.
    destruct (Contains libraryErrorText "签名验证失败"),
             (Contains libraryErrorText "时间戳验证失败"),
             (Contains libraryErrorText "method not allowed"); cbn;
      eexists; (split; [reflexivity|]); split; auto;
      intros; try discriminate; reflexivity.
Qed.

End Requests.

Lemma handleNotify_status_example :
  let s := {| API.config := sampleConfig; API.secretKey := "k";
              API.ec600n := None; API.notify := None |} in
  let w := {| portLog := []; webLog := [] |} in
  let req := {| API.Name := "test"; API.PhoneNumbers := "13800138000";
                API.Timestamp := "0";
                API.Signature := @API.generateSignature plainLibrary s
                                   "test" "13800138000" "0" |} in
  @API.handleNotify bytewise silentWeb plainLibrary s
    {| API.Method := "POST"; API.Body := Some req |} w
  = ((200%Z, {| API.Success := true;
                API.Message := "验证成功，但拨打电话失败: EC600N 模块未启用或未连接" |},
      None), w).
Proof. vm_compute. reflexivity. Qed.

Section Identity.

Context `{UnicodeOps} `{Device}.

(** X24.  Whatever the port answers, the current [getIMEI] returns
    either an error together with the empty text or, with no error,
    exactly fifteen ASCII digits that are a line of the response,
    trimmed.  So the IMEI of every snapshot [CheckNetworkStatus] builds
    is empty or fifteen digits. *)
Theorem getIMEI_only_digits (e : EC600N) (t : Trace) :
  let sent := sendATCommand e "AT+CGSN" t in
  let got := getIMEI e t in
  let imei := fst (fst got) in
  match snd (fst got) with
  | Some _ => imei = EmptyString
  | None =>
      String.length imei = 15%nat
      /\ forallb_str isDigit imei = true
      /\ snd (fst sent) = None
      /\ exists raw, In raw (Split (fst (fst sent)) (str1 LF)) /\ imei = TrimSpace raw
  end
  /\ let recorded := IMEI (fst (fst (CheckNetworkStatus e t))) in
     recorded = EmptyString
     \/ (String.length recorded = 15%nat /\ forallb_str isDigit recorded = true).
Proof.
  assert (Hany : forall t0,
             match snd (fst (getIMEI e t0)) with
             | Some _ => fst (fst (getIMEI e t0)) = EmptyString
             | None =>
                 String.length (fst (fst (getIMEI e t0))) = 15%nat
                 /\ forallb_str isDigit (fst (fst (getIMEI e t0))) = true
                 /\ snd (fst (sendATCommand e "AT+CGSN" t0)) = None
                 /\ exists raw,
                      In raw (Split (fst (fst (sendATCommand e "AT+CGSN" t0))) (str1 LF))
                      /\ fst (fst (getIMEI e t0)) = TrimSpace raw
             end).
  { intros t0. unfold getIMEI, bind, ret.
    destruct (sendATCommand e "AT+CGSN" t0) as [[response [err|]] t1];
      [reflexivity|].
    cbn [fst snd].
    assert (Hscan := scanIMEI_first (Split response (str1 LF))).
    destruct (scanIMEI (Split response (str1 LF))) as [l|]; [|reflexivity].
    cbn [fst snd].
    destruct Hscan as (pre & raw & post & Hsplit & Hl & Himei & _).
    apply isIMEI_iff in Himei as [Hlen Hdig].
    repeat split; try assumption.
    exists raw. split; [|exact Hl].
    rewrite Hsplit. apply in_or_app. right. left. reflexivity. }
  cbv zeta. split; [apply Hany|].
  rewrite (CheckNetworkStatus_run e t). cbv zeta. cbn [fst snd IMEI].
  match goal with
  | |- context [getIMEI e ?t4] => specialize (Hany t4); destruct (snd (fst (getIMEI e t4)))
  end.
  - left. exact Hany.
  - right. destruct Hany as (Hlen & Hdig & _). split; assumption.
Qed.

End Identity.
